(** * ExcelFilterPro: the coordinate-addressed lookup-and-copy engine

    A shallow embedding of
      - [src/database/models.py]: ExcelCoordinate, FilterOperator,
        DataMapping, the rules and plans and their methods, AppSetting;
      - [src/core/data_mapping_engine.py]: DataMappingEngine;
      - [src/core/enhanced_excel_processor.py]: the column names of
        [_load_standard_excel] and [_clean_column_names], and the lookup of
        tables by file name;
      - [src/utils/helpers.py]: [sanitize_filename], [truncate_text];
    followed by the properties of the specification that concern them and
    by further properties of the code.

    Conventions of the embedding.
      - Python [int] is [Z]; Python [str] is [string], read as a sequence of
        code points; the character predicates ([isalpha], [isdigit],
        [upper], [strip]) are the ASCII ones, so the model is that of the
        code on ASCII text; a property of the parser on any text it is given
        is stated for [Spec.ascii_text].  The non-ASCII constants of the
        source stand in string literals as their UTF-8 bytes; they are only
        compared and concatenated.
      - A raised exception is a value of [exn]; a function that can raise
        returns [result].
      - A pandas Series is the list of its (label, value) pairs; a DataFrame
        is the list of its columns, its rows labelled 0, 1, ... (the loader
        resets the index), each cell a Python scalar (object dtype).  pandas
        is the pandas of the project's requirement, 1.5 to 2.x.
      - The engine's log lines are left out; what they compute is modelled
        where it can raise.
      - [datetime.now()] is an argument of the methods that read the
        clock. *)

From Stdlib Require Import ZArith List String Ascii Bool Lia DecimalString.
From Stdlib Require DecimalPos.
From Stdlib Require Import Floats.SpecFloat.
From Equations Require Import Equations.
From stdpp Require Import base option list gmap strings.

Open Scope Z_scope.

(* ===================================================================== *)
(** * Python values and exceptions *)
(* ===================================================================== *)

Module Py.

(** The exception classes the modelled code raises or lets through. *)
Inductive exn : Type :=
| ValueError
| TypeError
| OverflowError
| IndexError
| KeyError
| AttributeError
| IndexingError      (* pandas.errors.IndexingError *)
| ReError.           (* re.error *)

Inductive result (A : Type) : Type :=
| Ok (a : A)
| Raise (e : exn).
Arguments Ok {A} a.
Arguments Raise {A} e.

Definition bind {A B : Type} (r : result A) (k : A -> result B) : result B :=
  match r with
  | Ok a => k a
  | Raise e => Raise e
  end.

(** [try: ... except Exception as e: raise ValueError(...)]. *)
Definition reraise_as {A : Type} (e' : exn) (r : result A) : result A :=
  match r with
  | Ok a => Ok a
  | Raise _ => Raise e'
  end.

(** ** Characters *)

Definition ord (c : ascii) : Z := Z.of_nat (nat_of_ascii c).
Definition chr (z : Z) : ascii := ascii_of_nat (Z.to_nat z).

Definition char_isdigit (c : ascii) : bool := (48 <=? ord c) && (ord c <=? 57).
Definition char_isupper (c : ascii) : bool := (65 <=? ord c) && (ord c <=? 90).
Definition char_islower (c : ascii) : bool := (97 <=? ord c) && (ord c <=? 122).
Definition char_isalpha (c : ascii) : bool := char_isupper c || char_islower c.

(** Whitespace as [str.strip] sees it: TAB, LF, VT, FF, CR, the separators
    FS, GS, RS, US, and SPACE. *)
Definition char_isspace (c : ascii) : bool :=
  ((9 <=? ord c) && (ord c <=? 13)) || ((28 <=? ord c) && (ord c <=? 32)).

(** Whitespace as [int] skips it around the digits: TAB, LF, VT, FF, CR and
    SPACE. *)
Definition char_isspace_c (c : ascii) : bool :=
  ((9 <=? ord c) && (ord c <=? 13)) || (ord c =? 32).

Definition char_upper (c : ascii) : ascii :=
  if char_islower c then chr (ord c - 32) else c.

(** ** Strings *)

Fixpoint str_all (p : ascii -> bool) (s : string) : bool :=
  match s with
  | EmptyString => true
  | String c s' => p c && str_all p s'
  end.

Definition nonempty (s : string) : bool :=
  match s with
  | EmptyString => false
  | String _ _ => true
  end.

(** [s.isalpha()], [s.isdigit()]: every character, and at least one. *)
Definition isalpha (s : string) : bool := nonempty s && str_all char_isalpha s.
Definition isdigit (s : string) : bool := nonempty s && str_all char_isdigit s.

Fixpoint upper (s : string) : string :=
  match s with
  | EmptyString => EmptyString
  | String c s' => String (char_upper c) (upper s')
  end.

Fixpoint lstrip_with (space : ascii -> bool) (s : string) : string :=
  match s with
  | EmptyString => EmptyString
  | String c s' => if space c then lstrip_with space s' else s
  end.

(** The string without its trailing spaces: a character is kept when it is
    not a space or something is kept after it. *)
Fixpoint rstrip_with (space : ascii -> bool) (s : string) : string :=
  match s with
  | EmptyString => EmptyString
  | String c s' =>
      match rstrip_with space s' with
      | EmptyString => if space c then EmptyString else String c EmptyString
      | r => String c r
      end
  end.

(** [s.strip()]. *)
Definition strip (s : string) : string :=
  rstrip_with char_isspace (lstrip_with char_isspace s).

(** [c in s] for a one-character [c]. *)
Fixpoint contains_char (c : ascii) (s : string) : bool :=
  match s with
  | EmptyString => false
  | String d s' => if Ascii.eqb c d then true else contains_char c s'
  end.

(** [s.split(sep)] for a one-character separator: always at least one part. *)
Fixpoint split (sep : ascii) (s : string) : list string :=
  match s with
  | EmptyString => [EmptyString]
  | String c s' =>
      if Ascii.eqb c sep then EmptyString :: split sep s'
      else match split sep s' with
           | [] => [String c EmptyString]
           | p :: ps => String c p :: ps
           end
  end.

(** ** [int(str)]

    Base-10 [int] of a string: surrounding whitespace is dropped, one sign is
    allowed, then digits, where single underscores may stand between two
    digits.  [None] is the [ValueError]. *)

Fixpoint int_digits (s : string) (acc : Z) (after_digit : bool) : option Z :=
  match s with
  | EmptyString => if after_digit then Some acc else None
  | String c s' =>
      if char_isdigit c then int_digits s' (acc * 10 + (ord c - 48)) true
      else if Ascii.eqb c "_" then
             if after_digit then int_digits s' acc false else None
           else None
  end.

Definition int (s : string) : option Z :=
  match rstrip_with char_isspace_c (lstrip_with char_isspace_c s) with
  | String "+" s' => int_digits s' 0 false
  | String "-" s' => option_map Z.opp (int_digits s' 0 false)
  | s' => int_digits s' 0 false
  end.

(** ** More of [str] *)

(** [str(n)] of an [int]: its decimal digits, after a minus sign when it is
    negative. *)
Definition str_of_int (n : Z) : string := NilZero.string_of_int (Z.to_int n).

Definition char_lower (c : ascii) : ascii :=
  if char_isupper c then chr (ord c + 32) else c.

Fixpoint lower (s : string) : string :=
  match s with
  | EmptyString => EmptyString
  | String c s' => String (char_lower c) (lower s')
  end.

(** [s.replace(c, '')] for a one-character [c]. *)
Fixpoint remove_char (c : ascii) (s : string) : string :=
  match s with
  | EmptyString => EmptyString
  | String d s' =>
      if Ascii.eqb d c then remove_char c s' else String d (remove_char c s')
  end.

(** [sub in s]: [sub] starts at some position of [s]. *)
Fixpoint str_in (sub s : string) : bool :=
  String.prefix sub s ||
  match s with
  | EmptyString => false
  | String _ s' => str_in sub s'
  end.

(** [s[:hi]]: a negative bound counts from the end. *)
Definition slice_to (s : string) (hi : Z) : string :=
  let n := Z.of_nat (String.length s) in
  let stop := if hi <? 0 then Z.max (hi + n) 0 else Z.min hi n in
  substring 0 (Z.to_nat stop) s.

End Py.

#[export] Instance result_ret : MRet Py.result := @Py.Ok.
#[export] Instance result_bind : MBind Py.result := fun A B k r => Py.bind r k.

(* ===================================================================== *)
(** * [models.py]: ExcelCoordinate *)
(* ===================================================================== *)

Module ExcelCoordinate.
Import Py.

(** [coord_type] is one of the four strings ["single"], ["range"],
    ["column"], ["row"] the parser produces. *)
Inductive coord_kind : Type := Single | Range | Column | Row.

Record t : Type := mk {
  column : string;       (* column letters, such as A, B, AA *)
  row : Z;               (* row number from 1; 0 when unset *)
  end_column : string;
  end_row : Z;
  coord_type : coord_kind
}.

(** The dataclass defaults: [column=""], [row=0], [end_column=""],
    [end_row=0]. *)
Definition cls_column (c : string) : t := mk c 0 "" 0 Column.
Definition cls_row (r : Z) : t := mk "" r "" 0 Row.
Definition cls_single (c : string) (r : Z) : t := mk c r "" 0 Single.

(** [_parse_single]: the text before the first digit is the column, the text
    from it on is the row. *)
Fixpoint split_at_first_digit (s : string) : option (string * string) :=
  match s with
  | EmptyString => None
  | String c s' =>
      if char_isdigit c then Some (EmptyString, s)
      else match split_at_first_digit s' with
           | Some (col, rw) => Some (String c col, rw)
           | None => None
           end
  end.

Definition _parse_single (coord_str : string) : result t :=
  let '(col_part, row_part) :=
    match split_at_first_digit coord_str with
    | Some p => p
    | None => (EmptyString, EmptyString)
    end in
  if negb (nonempty col_part) || negb (nonempty row_part) then Raise ValueError
  else
    match int row_part with
    | None => Raise ValueError
    | Some r => if r <? 1 then Raise ValueError else Ok (cls_single col_part r)
    end.

Definition _parse_range (coord_str : string) : result t :=
  reraise_as ValueError
    match split ":" coord_str with
    | [start_str; end_str] =>
        let start_str := strip start_str in
        let end_str := strip end_str in
        if isalpha start_str && isalpha end_str && String.eqb start_str end_str
        then Ok (cls_column start_str)
        else if isdigit start_str && isdigit end_str && String.eqb start_str end_str
        then match int start_str with
             | Some r => Ok (cls_row r)
             | None => Raise ValueError
             end
        else
          start_coord ← _parse_single start_str;
          end_coord ← _parse_single end_str;
          Ok (mk (column start_coord) (row start_coord)
                 (column end_coord) (row end_coord) Range)
    | _ => Raise ValueError   (* unpacking into two names fails *)
    end.

(** [from_string].  [upper], [strip], [isalpha] and [isdigit] are Python's
    on ASCII text; on other text Python's methods follow the Unicode tables,
    which the embedding does not have. *)
Definition from_string (coord_str : string) : result t :=
  let coord_str := strip (upper coord_str) in
  if contains_char ":" coord_str then _parse_range coord_str
  else if isalpha coord_str then Ok (cls_column coord_str)
  else if isdigit coord_str then
    match int coord_str with
    | Some r => Ok (cls_row r)
    | None => Raise ValueError
    end
  else _parse_single coord_str.

(** [column_to_index]: the loop [result = result * 26 + (ord(char) - ord('A') + 1)]
    from 0, then [result - 1]. *)
Fixpoint column_to_index_loop (column : string) (result : Z) : Z :=
  match column with
  | EmptyString => result
  | String char rest =>
      column_to_index_loop rest (result * 26 + (ord char - ord "A" + 1))
  end.

Definition column_to_index (column : string) : Z :=
  column_to_index_loop column 0 - 1.

(** [index_to_column]: the [while index > 0] loop, on the 1-based index. *)
Equations? index_to_column_loop (index : Z) (result : string) : string
  by wf (Z.to_nat index) lt :=
  index_to_column_loop index result with Z_lt_dec 0 index => {
    | left _ :=
        index_to_column_loop ((index - 1) / 26)
          (String (chr ((index - 1) mod 26 + ord "A")) result);
    | right _ := result }.
Proof.
  apply Z2Nat.inj_lt; try lia.
  - apply Z.div_pos; lia.
  - apply Z.div_lt_upper_bound; lia.
Qed.

Definition index_to_column (index : Z) : string :=
  index_to_column_loop (index + 1) "".

(** [__str__]: the text of a coordinate.  A whole column without letters is
    written ["A"], a whole row without a positive number ["1"]. *)
Definition __str__ (self : t) : string :=
  match coord_type self with
  | Single => String.append (column self) (str_of_int (row self))
  | Range =>
      String.append (column self)
        (String.append (str_of_int (row self))
           (String ":"
              (String.append (end_column self) (str_of_int (end_row self)))))
  | Column => if nonempty (column self) then column self else "A"
  | Row => if 0 <? row self then str_of_int (row self) else "1"
  end.

(** [to_pandas_index]: the 0-based (row, column) pair. *)
Definition to_pandas_index (self : t) : Z * Z :=
  let col_index := column_to_index (column self) in
  let row_index := row self - 1 in
  (row_index, col_index).

End ExcelCoordinate.

(* ===================================================================== *)
(** * [models.py]: FilterOperator and DataMapping *)
(* ===================================================================== *)

Inductive FilterOperator : Type :=
| EQUALS
| NOT_EQUALS
| GREATER_THAN
| GREATER_EQUAL
| LESS_THAN
| LESS_EQUAL
| CONTAINS
| NOT_CONTAINS
| STARTS_WITH
| ENDS_WITH
| IS_EMPTY
| IS_NOT_EMPTY.

(* ===================================================================== *)
(** * The pandas objects the engine works on *)
(* ===================================================================== *)

Module Pandas.
Import Py.

(** A Python scalar, as a cell of an object-dtype column holds it and as a
    rule's comparison value is: [None], a [bool], an [int], a [float] (an
    IEEE 754 binary64 value; NaN is the missing cell of a sheet) or a [str]. *)
Inductive value : Type :=
| VNone
| VBool (b : bool)
| VInt (z : Z)
| VFloat (f : spec_float)
| VStr (s : string).

Definition NaN : value := VFloat S754_nan.

Definition float_isnan (f : spec_float) : bool :=
  match f with
  | S754_nan => true
  | _ => false
  end.

(** [pd.isna(x)] on a scalar. *)
Definition isna (x : value) : bool :=
  match x with
  | VNone => true
  | VFloat f => float_isnan f
  | _ => false
  end.

(** [float(z)] for an [int]: the nearest binary64 value; [None] is the
    [OverflowError]. *)
Definition float_of_Z (z : Z) : option spec_float :=
  match binary_normalize 53 1024 z 0 false with
  | S754_infinity _ => None
  | f => Some f
  end.

Definition float_of_bool (b : bool) : spec_float :=
  binary_normalize 53 1024 (if b then 1 else 0) 0 false.

(** Python compares an [int] with a [float] by their exact values. *)
Definition Z_eq_float (z : Z) (f : spec_float) : bool :=
  match f with
  | S754_zero _ => z =? 0
  | S754_infinity _ => false
  | S754_nan => false
  | S754_finite s m e =>
      let v := if s then Z.neg m else Z.pos m in
      if 0 <=? e then z =? v * 2 ^ e else z * 2 ^ (- e) =? v
  end.

(** The numeric tower: [bool] is a subclass of [int]. *)
Inductive num : Type :=
| NZ (z : Z)
| NF (f : spec_float).

Definition as_num (x : value) : option num :=
  match x with
  | VBool b => Some (NZ (if b then 1 else 0))
  | VInt z => Some (NZ z)
  | VFloat f => Some (NF f)
  | _ => None
  end.

Definition num_eq (a b : num) : bool :=
  match a, b with
  | NZ x, NZ y => x =? y
  | NZ x, NF g => Z_eq_float x g
  | NF f, NZ y => Z_eq_float y f
  | NF f, NF g => SFeqb f g
  end.

(** [x == y] on two scalars: numbers by value, strings by content, and a
    number never equals a string. *)
Definition py_eq (x y : value) : bool :=
  match as_num x, as_num y with
  | Some a, Some b => num_eq a b
  | _, _ =>
      match x, y with
      | VStr s, VStr t => String.eqb s t
      | VNone, VNone => true
      | _, _ => false
      end
  end.

(** ** What the embedding takes from the Python and pandas libraries

    Four conversions are library code with no counterpart in the repository;
    every definition and theorem below is parametric in them.
      - [float_of_str]: [float(s)] of a string, [None] for [ValueError];
      - [repr_float]: [str(f)] of a finite float;
      - [to_numeric_str]: what [pd.to_numeric(..., errors='coerce')] makes of a
        string cell (NaN when it is not a number);
      - [re_compile]: [re.compile(pat)], [None] for [re.error], otherwise
        the predicate [regex.search(x) is not None]. *)
Class Builtins : Type := {
  float_of_str : string -> option spec_float;
  repr_float : spec_float -> string;
  to_numeric_str : string -> spec_float;
  re_compile : string -> option (string -> bool)
}.

Section WithBuiltins.
Context {B : Builtins}.

(** [str(x)]. *)
Definition str (x : value) : string :=
  match x with
  | VNone => "None"
  | VBool true => "True"
  | VBool false => "False"
  | VInt z => NilZero.string_of_int (Z.to_int z)
  | VFloat S754_nan => "nan"
  | VFloat (S754_infinity false) => "inf"
  | VFloat (S754_infinity true) => "-inf"
  | VFloat f => repr_float f
  | VStr s => s
  end.

(** [float(x)]. *)
Definition float (x : value) : result spec_float :=
  match x with
  | VNone => Raise TypeError
  | VBool b => Ok (float_of_bool b)
  | VInt z =>
      match float_of_Z z with
      | Some f => Ok f
      | None => Raise OverflowError
      end
  | VFloat f => Ok f
  | VStr s =>
      match float_of_str s with
      | Some f => Ok f
      | None => Raise ValueError
      end
  end.

(** One element of [pd.to_numeric(column, errors='coerce')].  The conversion
    stores every int as a C double first, so an int beyond the float range
    raises [OverflowError], which [errors='coerce'] does not catch. *)
Definition to_numeric_cell (x : value) : result spec_float :=
  match x with
  | VNone => Ok S754_nan
  | VBool b => Ok (float_of_bool b)
  | VInt z =>
      match float_of_Z z with
      | Some f => Ok f
      | None => Raise OverflowError
      end
  | VFloat f => Ok f
  | VStr s => Ok (to_numeric_str s)
  end.

End WithBuiltins.

(** ** Series and DataFrame *)

(** A Series: its (label, value) pairs in order.  Labels are row numbers. *)
Abbreviation Series A := (list (Z * A)) (only parsing).

Definition smap {A C : Type} (f : A -> C) (s : Series A) : Series C :=
  map (fun p => (fst p, f (snd p))) s.

Definition values {A : Type} (s : Series A) : list A := map snd s.
Definition index {A : Type} (s : Series A) : list Z := map fst s.

(** [pd.to_numeric(column, errors='coerce')] on an object column: the cells
    in order, the call raising at the first int beyond the float range. *)
Fixpoint to_numeric {B : Builtins} (column : Series value)
    : result (Series spec_float) :=
  match column with
  | [] => Ok []
  | (label, x) :: rest =>
      f ← to_numeric_cell x;
      numbers ← to_numeric rest;
      Ok ((label, f) :: numbers)
  end.

(** [pd.Series(xs)]: labels 0, 1, ... *)
Definition of_list {A : Type} (xs : list A) : Series A :=
  imap (fun i x => (Z.of_nat i, x)) xs.

(** [mask.any()]. *)
Definition any (mask : Series bool) : bool := existsb id (values mask).

(** [a | b] on two masks over the same index. *)
Definition mask_or (a b : Series bool) : Series bool :=
  zip_with (fun p q => (fst p, snd p || snd q)) a b.

(** [~a]. *)
Definition mask_not (a : Series bool) : Series bool := smap negb a.

(** One entry of [column == value] and of [column != value] for an object
    column and a scalar: a missing cell, or a missing [value], is never
    equal. *)
Definition eq_cell (x v : value) : bool :=
  if isna x || isna v then false else py_eq x v.

Definition ne_cell (x v : value) : bool :=
  if isna x || isna v then true else negb (py_eq x v).

Definition eq_scalar (column : Series value) (v : value) : Series bool :=
  smap (fun x => eq_cell x v) column.

Definition ne_scalar (column : Series value) (v : value) : Series bool :=
  smap (fun x => ne_cell x v) column.

(** [mask[mask].index.tolist()]: the labels where the mask is true. *)
Definition true_labels (mask : Series bool) : list Z :=
  index (filter (fun p => snd p = true) mask).

Fixpoint label_lookup {A : Type} (l : Z) (s : Series A) : option A :=
  match s with
  | [] => None
  | (l', x) :: s' => if l =? l' then Some x else label_lookup l s'
  end.

(** [s[mask]] for a boolean Series [mask]: the mask is aligned on the labels
    of [s]; a label of [s] the mask does not have is an [IndexingError]. *)
Fixpoint getitem_mask {A : Type} (s : Series A) (mask : Series bool)
  : result (Series A) :=
  match s with
  | [] => Ok []
  | (l, x) :: s' =>
      match label_lookup l mask with
      | None => Raise IndexingError
      | Some keep =>
          match getitem_mask s' mask with
          | Ok rest => Ok (if keep then (l, x) :: rest else rest)
          | Raise e => Raise e
          end
      end
  end.

(** [s.dropna().tolist()]. *)
Definition dropna_tolist (s : Series value) : list value :=
  filter (fun x => isna x = false) (values s).

(** A Python index [i] into a sequence of length [n]: negative indices count
    from the end; [None] is out of range. *)
Definition norm_index (n : nat) (i : Z) : option nat :=
  if (0 <=? i) && (i <? Z.of_nat n) then Some (Z.to_nat i)
  else if (- Z.of_nat n <=? i) && (i <? 0) then Some (Z.to_nat (Z.of_nat n + i))
  else None.

(** A bound of a Python slice over a sequence of length [n]. *)
Definition clamp_bound (n : nat) (i : Z) : nat :=
  if i <? 0 then Z.to_nat (Z.max (i + Z.of_nat n) 0)
  else Z.to_nat (Z.min i (Z.of_nat n)).

(** [s.iloc[lo:hi]]: the labels stay with their values. *)
Definition iloc_slice {A : Type} (s : Series A) (lo hi : Z) : Series A :=
  let n := length s in
  let a := clamp_bound n lo in
  let b := clamp_bound n hi in
  take (b - a) (drop a s).

(** A DataFrame: its columns by position, each the list of its cells; row
    [i] has label [i]. *)
Abbreviation DataFrame := (list (list value)) (only parsing).

(** [len(df.columns)]. *)
Definition ncols (df : DataFrame) : Z := Z.of_nat (length df).

(** [df.iloc[:, j]]. *)
Definition iloc_col (df : DataFrame) (j : Z) : result (Series value) :=
  match norm_index (length df) j with
  | Some k =>
      match df !! k with
      | Some col => Ok (of_list col)
      | None => Raise IndexError
      end
  | None => Raise IndexError
  end.

(** [df.iloc[pos, j]]. *)
Definition iloc_get (df : DataFrame) (pos j : Z) : result value :=
  match norm_index (length df) j with
  | Some k =>
      match df !! k with
      | Some col =>
          match norm_index (length col) pos with
          | Some r =>
              match col !! r with
              | Some x => Ok x
              | None => Raise IndexError
              end
          | None => Raise IndexError
          end
      | None => Raise IndexError
      end
  | None => Raise IndexError
  end.

(** [df.iloc[pos, j] = x]. *)
Definition iloc_set (df : DataFrame) (pos j : Z) (x : value) : result DataFrame :=
  match norm_index (length df) j with
  | Some k =>
      match df !! k with
      | Some col =>
          match norm_index (length col) pos with
          | Some r => Ok (<[k := <[r := x]> col]> df)
          | None => Raise IndexError
          end
      | None => Raise IndexError
      end
  | None => Raise IndexError
  end.

End Pandas.

(** ** DataMapping

    The fields the engine reads.  The dataclass of [models.py] declares no
    [source_match_row_range] and no [target_match_row_range], yet the engine
    reads both: an attribute the object does not have is [None] here (reading
    it raises [AttributeError]), an attribute that is set holds Python's
    [None] or a pair [(start, end)]. *)
Record DataMapping : Type := {
  name : string;
  source_file : string;
  source_match_coordinate : ExcelCoordinate.t;
  source_match_value : Pandas.value;
  source_value_coordinate : ExcelCoordinate.t;
  target_file : string;
  target_match_coordinate : ExcelCoordinate.t;
  target_match_value : Pandas.value;
  target_insert_coordinate : ExcelCoordinate.t;
  match_operator : FilterOperator;
  overwrite_existing : bool;
  source_match_row_range : option (option (Z * Z));
  target_match_row_range : option (option (Z * Z))
}.

(* ===================================================================== *)
(** * [data_mapping_engine.py]: DataMappingEngine *)
(* ===================================================================== *)

Module DataMappingEngine.
Import Py Pandas.

(** The problems [validate_mapping] reports (the messages, without their
    interpolated coordinates). *)
Inductive problem : Type :=
| SourceFileMissing
| SourceMatchColumnOutOfRange
| SourceValueColumnOutOfRange
| SourceColumnConfigError
| TargetFileMissing
| TargetMatchColumnOutOfRange
| TargetInsertColumnOutOfRange
| TargetColumnConfigError.

(** Reading an attribute of the mapping object. *)
Definition getattr {A : Type} (a : option A) : result A :=
  match a with
  | Some x => Ok x
  | None => Raise AttributeError
  end.

(** [s.endswith(suffix)]. *)
Definition endswith (suffix s : string) : bool :=
  let n := String.length s in
  let k := String.length suffix in
  (k <=? n)%nat && String.eqb (substring (n - k) k s) suffix.

(** [_get_column_index]: the table is not consulted. *)
Definition _get_column_index (coordinate : ExcelCoordinate.t) (df : DataFrame)
  : result Z :=
  match ExcelCoordinate.coord_type coordinate with
  | ExcelCoordinate.Column =>
      Ok (ExcelCoordinate.column_to_index (ExcelCoordinate.column coordinate))
  | ExcelCoordinate.Single =>
      Ok (ExcelCoordinate.column_to_index (ExcelCoordinate.column coordinate))
  | _ => Raise ValueError
  end.

Section WithBuiltins.
Context {B : Builtins}.

(** [column.astype(str)]. *)
Definition astype_str (column : Series value) : Series value :=
  smap (fun x => VStr (str x)) column.

(** The masks of the type-converted comparisons of the EQUALS branch, in
    the order the code appends them. *)
Definition type_converted_matches (column : Series value) (v : value)
  : list (Series bool) :=
  match v with
  | VStr s =>
      match Py.int s with
      | Some int_value => [eq_scalar column (VInt int_value)]
      | None => []
      end ++
      match float_of_str s with
      | Some float_value => [eq_scalar column (VFloat float_value)]
      | None => []
      end
  | VBool _ | VInt _ | VFloat _ =>
      [eq_scalar (astype_str column) (VStr (str v))]
  | VNone => []
  end.

(** The body of the [try] of [_apply_match_operator]. *)
Definition match_operator_body (column : Series value) (v : value)
    (operator : FilterOperator) : result (Series bool) :=
  match operator with
  | EQUALS =>
      let direct_match := eq_scalar column v in
      if negb (any direct_match) then
        match type_converted_matches column v with
        | [] => Ok direct_match
        | ms => Ok (fold_left mask_or ms direct_match)
        end
      else Ok direct_match
  | NOT_EQUALS => Ok (ne_scalar column v)
  | CONTAINS =>
      match re_compile (str v) with
      | Some search => Ok (smap (fun x => search (str x)) column)
      | None => Raise ReError
      end
  | NOT_CONTAINS =>
      match re_compile (str v) with
      | Some search => Ok (mask_not (smap (fun x => search (str x)) column))
      | None => Raise ReError
      end
  | STARTS_WITH => Ok (smap (fun x => String.prefix (str v) (str x)) column)
  | ENDS_WITH => Ok (smap (fun x => endswith (str v) (str x)) column)
  | GREATER_THAN =>
      numbers ← to_numeric column; f ← float v;
      Ok (smap (fun x => SFltb f x) numbers)
  | GREATER_EQUAL =>
      numbers ← to_numeric column; f ← float v;
      Ok (smap (fun x => SFleb f x) numbers)
  | LESS_THAN =>
      numbers ← to_numeric column; f ← float v;
      Ok (smap (fun x => SFltb x f) numbers)
  | LESS_EQUAL =>
      numbers ← to_numeric column; f ← float v;
      Ok (smap (fun x => SFleb x f) numbers)
  | IS_EMPTY =>
      Ok (smap (fun x => isna x || String.eqb (strip (str x)) "") column)
  | IS_NOT_EMPTY =>
      Ok (mask_not (smap (fun x => isna x || String.eqb (strip (str x)) "") column))
  end.

(** [_apply_match_operator]: whatever the body raises is caught, and the
    answer is then [pd.Series([False] * len(column))]. *)
Definition _apply_match_operator (column : Series value) (v : value)
    (operator : FilterOperator) : Series bool :=
  match match_operator_body column v operator with
  | Ok mask => mask
  | Raise _ => of_list (replicate (length column) false)
  end.

(** The optional row window [column.iloc[start-1:end]]. *)
Definition row_window {A : Type} (rng : option (Z * Z)) (s : Series A) : Series A :=
  match rng with
  | Some (start, end_) => iloc_slice s (start - 1) end_
  | None => s
  end.

Definition _extract_source_values (mapping : DataMapping)
    (source_data : gmap string DataFrame) : result (list value) :=
  match source_data !! source_file mapping with
  | None => Raise ValueError
  | Some df =>
      match_col_index ← _get_column_index (source_match_coordinate mapping) df;
      value_col_index ← _get_column_index (source_value_coordinate mapping) df;
      if (ncols df <=? match_col_index) || (ncols df <=? value_col_index)
      then Raise ValueError
      else
        match_column ← iloc_col df match_col_index;
        value_column ← iloc_col df value_col_index;
        rng ← getattr (source_match_row_range mapping);
        let match_column := row_window rng match_column in
        let value_column := row_window rng value_column in
        let matched_rows :=
          _apply_match_operator match_column (source_match_value mapping)
            (match_operator mapping) in
        selected ← getitem_mask value_column matched_rows;
        Ok (dropna_tolist selected)
  end.

Definition _find_target_positions (mapping : DataMapping)
    (target_data : gmap string DataFrame) : result (list Z) :=
  match target_data !! target_file mapping with
  | None => Raise ValueError
  | Some df =>
      match_col_index ← _get_column_index (target_match_coordinate mapping) df;
      if ncols df <=? match_col_index then Raise ValueError
      else
        match_column ← iloc_col df match_col_index;
        rng ← getattr (target_match_row_range mapping);
        let match_column := row_window rng match_column in
        let matched_rows :=
          _apply_match_operator match_column (target_match_value mapping)
            (match_operator mapping) in
        Ok (true_labels matched_rows)
  end.

End WithBuiltins.

(** One write of the insert loop: the cell is read, and written when the
    rule overwrites or the cell is missing.  The state is the private copy
    [df] and [insert_count]. *)
Definition insert_at (overwrite : bool) (insert_col_index : Z) (new_value : value)
    (st : DataFrame * Z) (pos : Z) : result (DataFrame * Z) :=
  old_value ← iloc_get st.1 pos insert_col_index;
  if overwrite || isna old_value then
    df ← iloc_set st.1 pos insert_col_index new_value;
    Ok (df, st.2 + 1)
  else Ok st.

(** One turn of [for i, pos in enumerate(target_positions)]:
    [source_values[i]] when [i < len(source_values)], otherwise
    [source_values[-1]] when there is any value. *)
Definition insert_step (overwrite : bool) (insert_col_index : Z)
    (source_values : list value) (st : DataFrame * Z) (i : nat) (pos : Z)
  : result (DataFrame * Z) :=
  match source_values !! i with
  | Some new_value => insert_at overwrite insert_col_index new_value st pos
  | None =>
      match last source_values with
      | Some new_value => insert_at overwrite insert_col_index new_value st pos
      | None => Ok st
      end
  end.

Fixpoint insert_loop (overwrite : bool) (insert_col_index : Z)
    (source_values : list value) (i : nat) (target_positions : list Z)
    (st : DataFrame * Z) : result (DataFrame * Z) :=
  match target_positions with
  | [] => Ok st
  | pos :: rest =>
      st' ← insert_step overwrite insert_col_index source_values st i pos;
      insert_loop overwrite insert_col_index source_values (S i) rest st'
  end.

(** [_insert_values].  The dict and the table are copied first
    ([target_data.copy()], [df.copy()]), every write goes to the copy, and the
    copy is bound in the copied dict: the caller's objects are not touched,
    so the function is one from values to values. *)
Definition _insert_values (mapping : DataMapping)
    (target_data : gmap string DataFrame) (source_values : list value)
    (target_positions : list Z) : result (gmap string DataFrame) :=
  match target_data !! target_file mapping with
  | None => Raise KeyError
  | Some df =>
      insert_col_index ← _get_column_index (target_insert_coordinate mapping) df;
      if ncols df <=? insert_col_index then Raise ValueError
      else
        _ ← iloc_col df insert_col_index;
        st ← insert_loop (overwrite_existing mapping) insert_col_index
               source_values 0 target_positions (df, 0);
        Ok (<[target_file mapping := st.1]> target_data)
  end.

(** The diagnostic block of [execute_mapping] for a rule with no target
    position: it computes sample values of the match column for the log;
    only whether it raises matters. *)
Definition no_position_report (mapping : DataMapping)
    (target_data : gmap string DataFrame) : result unit :=
  match target_data !! target_file mapping with
  | None => Ok tt
  | Some df =>
      match_col_index ← _get_column_index (target_match_coordinate mapping) df;
      if match_col_index <? ncols df then
        _ ← iloc_col df match_col_index; Ok tt
      else Ok tt
  end.

Section WithBuiltins.
Context {B : Builtins}.

Definition execute_mapping (mapping : DataMapping)
    (source_data target_data : gmap string DataFrame)
  : result (gmap string DataFrame) :=
  source_values ← _extract_source_values mapping source_data;
  match source_values with
  | [] => Ok target_data
  | _ =>
      target_positions ← _find_target_positions mapping target_data;
      match target_positions with
      | [] => _ ← no_position_report mapping target_data; Ok target_data
      | _ => _insert_values mapping target_data source_values target_positions
      end
  end.

(** [execute_multiple_mappings]: a rule that raises is logged and the loop
    continues with [current_target_data] as it was. *)
Definition execute_multiple_mappings (mappings : list DataMapping)
    (source_data target_data : gmap string DataFrame) : gmap string DataFrame :=
  fold_left
    (fun current_target_data mapping =>
       match execute_mapping mapping source_data current_target_data with
       | Ok updated => updated
       | Raise _ => current_target_data
       end)
    mappings target_data.

End WithBuiltins.

(** The two column checks of one side of [validate_mapping], inside its
    [try]. *)
Definition check_columns (c1 c2 : ExcelCoordinate.t) (df : DataFrame)
    (p1 p2 config : problem) : list problem :=
  match (i1 ← _get_column_index c1 df; i2 ← _get_column_index c2 df; Ok (i1, i2)) with
  | Ok (i1, i2) =>
      (if ncols df <=? i1 then [p1] else []) ++
      (if ncols df <=? i2 then [p2] else [])
  | Raise _ => [config]
  end.

Definition validate_mapping (mapping : DataMapping)
    (source_data target_data : gmap string DataFrame) : list problem :=
  match source_data !! source_file mapping with
  | None => [SourceFileMissing]
  | Some df =>
      check_columns (source_match_coordinate mapping)
        (source_value_coordinate mapping) df
        SourceMatchColumnOutOfRange SourceValueColumnOutOfRange
        SourceColumnConfigError
  end ++
  match target_data !! target_file mapping with
  | None => [TargetFileMissing]
  | Some df =>
      check_columns (target_match_coordinate mapping)
        (target_insert_coordinate mapping) df
        TargetMatchColumnOutOfRange TargetInsertColumnOutOfRange
        TargetColumnConfigError
  end.

End DataMappingEngine.

(* ===================================================================== *)
(** * [enhanced_excel_processor.py]: the default column names *)
(* ===================================================================== *)

Module EnhancedExcelProcessor.
Import Py.

(** [string.ascii_uppercase]. *)
Definition ascii_uppercase : string := "ABCDEFGHIJKLMNOPQRSTUVWXYZ".

(** [s[i]] on a string. *)
Definition str_getitem (s : string) (i : Z) : result ascii :=
  match Pandas.norm_index (String.length s) i with
  | Some k =>
      match String.get k s with
      | Some c => Ok c
      | None => Raise IndexError
      end
  | None => Raise IndexError
  end.

(** The name the loop of [_load_standard_excel] appends for position [i]. *)
Definition column_label (i : Z) : result string :=
  if i <? 26 then
    c ← str_getitem ascii_uppercase i;
    Ok (String c EmptyString)
  else
    first ← str_getitem ascii_uppercase ((i - 26) / 26);
    second ← str_getitem ascii_uppercase (i mod 26);
    Ok (String first (String second EmptyString)).

(** [for i in range(max_cols): columns.append(...)], from position [i]. *)
Fixpoint columns_loop (todo : nat) (i : Z) (columns : list string)
  : result (list string) :=
  match todo with
  | O => Ok columns
  | S todo' =>
      label ← column_label i;
      columns_loop todo' (i + 1) (columns ++ [label])
  end.

(** The names [_load_standard_excel] assigns to a non-empty sheet of
    [max_cols] columns.  An exception here is caught by the loader's own
    [except], which logs it and returns [None]: the file is not loaded. *)
Definition default_columns (max_cols : nat) : result (list string) :=
  if (max_cols <=? 26)%nat then
    Ok (take max_cols
          (map (fun c => String c EmptyString) (list_ascii_of_string ascii_uppercase)))
  else columns_loop max_cols 0 [].

(** ** [_clean_column_names] *)

(** [f'列{i+1}']. *)
Definition numbered_name (i : nat) : string :=
  String.append "列" (str_of_int (Z.of_nat i + 1)).

(** The name given by position to a column whose label is missing, starts
    with [Unnamed] or is [nan]. *)
Definition positional_name (i : nat) : string :=
  match i with
  | 0%nat => "设备编号"
  | 1%nat => "上月电度表指示数"
  | 2%nat => "本月电度表指示数"
  | 3%nat => "倍率"
  | 4%nat => "输出电量"
  | _ => numbered_name i
  end.

Section WithBuiltins.
Context {B : Pandas.Builtins}.

(** One turn of [for i, col in enumerate(columns)]: the name appended for
    the label [col] at position [i]. *)
Definition clean_column_name (i : nat) (col : Pandas.value) : string :=
  let col_str :=
    match col with
    | Pandas.VNone => "None"
    | _ => Pandas.str col
    end in
  let col_str := strip col_str in
  if Pandas.isna col || String.prefix "Unnamed" col_str || String.eqb col_str "nan"
  then positional_name i
  else
    let clean_name := strip (remove_char "013" (remove_char "010" col_str)) in
    if negb (nonempty clean_name) then numbered_name i else clean_name.

Definition _clean_column_names (columns : list Pandas.value) : list string :=
  imap clean_column_name columns.

End WithBuiltins.

(** ** The tables by key

    [self.data_frames] is a dict in insertion order: the list of its
    (key, table) pairs, each key once.  [self.workbook_info] is the list of
    its (key, info) pairs, an info given by its ['path'] entry when it has
    one. *)

(** What the methods take from [pathlib]: [Path(p).stem] and
    [Path(p).name]. *)
Class PathLib : Type := {
  path_stem : string -> string;
  path_name : string -> string
}.

(** [d.get(key)]. *)
Fixpoint dict_get {A : Type} (d : list (string * A)) (key : string) : option A :=
  match d with
  | [] => None
  | (k, x) :: d' => if String.eqb k key then Some x else dict_get d' key
  end.

(** [sorted(list(names))] for a set of strings that is built by adding the
    elements of a list: one more element is put at its place unless it is
    there already. *)
Fixpoint sorted_add (name : string) (sorted : list string) : list string :=
  match sorted with
  | [] => [name]
  | x :: rest =>
      if String.eqb name x then sorted
      else if String.ltb name x then name :: sorted
      else x :: sorted_add name rest
  end.

Definition sorted_set (names : list string) : list string :=
  fold_left (fun sorted name => sorted_add name sorted) names [].

Section WithPathLib.
Context {P : PathLib} {A : Type}.

Definition get_sheets_for_file (data_frames : list (string * A))
    (original_file_name : string) : list string :=
  let file_stem := path_stem original_file_name in
  filter (fun data_key => String.prefix (String.append file_stem "_") data_key = true)
    (map fst data_frames).

Definition get_dataframe_by_original_name (data_frames : list (string * A))
    (original_file_name : string) (sheet_hint : option string) : option A :=
  match get_sheets_for_file data_frames original_file_name with
  | [] => None
  | first :: rest =>
      let by_hint :=
        match sheet_hint with
        | Some hint =>
            if nonempty hint then
              List.find (fun sheet_key => str_in (lower hint) (lower sheet_key))
                (first :: rest)
            else None
        | None => None
        end in
      match by_hint with
      | Some sheet_key => dict_get data_frames sheet_key
      | None => dict_get data_frames first
      end
  end.

(** The name inferred from a key of [data_frames]. *)
Definition inferred_name (data_key : string) : string :=
  if contains_char "_" data_key then
    match split "_" data_key with
    | part :: _ => String.append part ".xlsx"
    | [] => ".xlsx"
    end
  else String.append data_key ".xlsx".

Definition get_original_file_names (workbook_info : list (string * option string))
    (data_frames : list (string * A)) : list string :=
  let original_names :=
    omap (fun entry => path_name <$> snd entry) workbook_info in
  match original_names with
  | [] => sorted_set (map (fun entry => inferred_name (fst entry)) data_frames)
  | _ => sorted_set original_names
  end.

End WithPathLib.

End EnhancedExcelProcessor.

(* ===================================================================== *)
(** * [models.py]: rules, plans and settings *)
(* ===================================================================== *)

(** A [datetime].  [datetime.now()] is read when a method runs; the methods
    below take the value it returns as their argument [now]. *)
Definition datetime : Type := Z.

Module RuleOutputConfig.

Record t : Type := mk {
  target_file : string;
  target_column : string;
  start_row : Z;
  auto_append : bool
}.

End RuleOutputConfig.

(** A condition after [__post_init__]: the coordinate parsed, the operator
    an enum member. *)
Module CoordinateFilterCondition.

Record t : Type := mk {
  source_file : string;
  source_coordinate : ExcelCoordinate.t;
  operator : FilterOperator;
  value : Pandas.value
}.

End CoordinateFilterCondition.

Module CoordinateFilterRule.

Record t : Type := mk {
  rule_id : string;
  name : string;
  description : string;
  output_config : option RuleOutputConfig.t;
  conditions : list CoordinateFilterCondition.t;
  logic_operator : string;
  created_time : datetime;
  modified_time : datetime
}.

(** [self.conditions = ...; self.modified_time = datetime.now()]. *)
Definition touched (self : t) (conditions' : list CoordinateFilterCondition.t)
    (now : datetime) : t :=
  mk (rule_id self) (name self) (description self) (output_config self)
     conditions' (logic_operator self) (created_time self) now.

Definition add_condition (now : datetime) (self : t)
    (condition : CoordinateFilterCondition.t) : t :=
  touched self (conditions self ++ [condition]) now.

(** [remove_condition]: [del self.conditions[index]] under the guard
    [0 <= index < len(self.conditions)]; nothing happens otherwise. *)
Definition remove_condition (now : datetime) (self : t) (index : Z) : t :=
  if (0 <=? index) && (index <? Z.of_nat (length (conditions self)))
  then touched self (delete (Z.to_nat index) (conditions self)) now
  else self.

Definition get_required_files (self : t) : gset string :=
  let files :=
    fold_left
      (fun files condition =>
         files ∪ {[ CoordinateFilterCondition.source_file condition ]})
      (conditions self) ∅ in
  match output_config self with
  | Some config => files ∪ {[ RuleOutputConfig.target_file config ]}
  | None => files
  end.

End CoordinateFilterRule.

Module CoordinateFilterPlan.

Record t : Type := mk {
  plan_id : string;
  name : string;
  description : string;
  rules : list CoordinateFilterRule.t;
  tags : list string;
  created_time : datetime;
  modified_time : datetime
}.

Definition touched (self : t) (rules' : list CoordinateFilterRule.t)
    (now : datetime) : t :=
  mk (plan_id self) (name self) (description self) rules' (tags self)
     (created_time self) now.

Definition add_rule (now : datetime) (self : t) (rule : CoordinateFilterRule.t) : t :=
  touched self (rules self ++ [rule]) now.

(** [self.rules = [r for r in self.rules if r.rule_id != rule_id]]. *)
Definition remove_rule (now : datetime) (self : t) (rule_id : string) : t :=
  touched self
    (List.filter
       (fun r => negb (String.eqb (CoordinateFilterRule.rule_id r) rule_id))
       (rules self))
    now.

(** [get_rule_by_id]: the first rule with the identifier, or [None]. *)
Definition get_rule_by_id (self : t) (rule_id : string)
  : option CoordinateFilterRule.t :=
  List.find (fun rule => String.eqb (CoordinateFilterRule.rule_id rule) rule_id)
    (rules self).

Definition get_required_files (self : t) : gset string :=
  fold_left
    (fun files rule => files ∪ CoordinateFilterRule.get_required_files rule)
    (rules self) ∅.

End CoordinateFilterPlan.

(** [DataMapping.get_required_files] and the plan of mappings. *)
Definition DataMapping_get_required_files (self : DataMapping) : gset string :=
  {[ source_file self; target_file self ]}.

Module DataMappingPlan.

Record t : Type := mk {
  plan_id : string;
  name : string;
  description : string;
  mappings : list DataMapping;
  tags : list string;
  created_time : datetime;
  modified_time : datetime
}.

Definition add_mapping (now : datetime) (self : t) (mapping : DataMapping) : t :=
  mk (plan_id self) (name self) (description self) (mappings self ++ [mapping])
     (tags self) (created_time self) now.

Definition get_required_files (self : t) : gset string :=
  fold_left
    (fun files mapping => files ∪ DataMapping_get_required_files mapping)
    (mappings self) ∅.

End DataMappingPlan.

(** [AppSetting]: the dataclass checks no type, so each field holds whatever
    it was given. *)
Module AppSetting.

Record t : Type := mk {
  id : Pandas.value;
  key : Pandas.value;
  value : Pandas.value;
  description : Pandas.value
}.

Definition to_dict (self : t) : gmap string Pandas.value :=
  {[ "id" := id self; "key" := key self; "value" := value self;
     "description" := description self ]}.

(** [data.get(k)] is [None] for a key that is not there, [data.get(k, '')]
    the empty string. *)
Definition from_dict (data : gmap string Pandas.value) : t :=
  mk (default Pandas.VNone (data !! "id"))
     (default (Pandas.VStr "") (data !! "key"))
     (default (Pandas.VStr "") (data !! "value"))
     (default (Pandas.VStr "") (data !! "description")).

End AppSetting.

(* ===================================================================== *)
(** * [helpers.py] *)
(* ===================================================================== *)

Module Helpers.
Import Py.

(** A character of the class [illegal_chars]: one of [<], [>], [:], the
    double quote, [/], the backslash, [|], [?] and [*]. *)
Definition illegal_char (c : ascii) : bool :=
  existsb (Z.eqb (ord c)) [60; 62; 58; 34; 47; 92; 124; 63; 42].

(** [re.sub(illegal_chars, '_', filename)]: every character of the class
    becomes an underscore. *)
Fixpoint replace_illegal (s : string) : string :=
  match s with
  | EmptyString => EmptyString
  | String c s' => String (if illegal_char c then "_"%char else c) (replace_illegal s')
  end.

(** The characters [strip] is given: the dot and the space. *)
Definition dot_or_space (c : ascii) : bool := Ascii.eqb c "." || Ascii.eqb c " ".

Definition sanitize_filename (filename : string) : string :=
  let filename := replace_illegal filename in
  let filename := rstrip_with dot_or_space (lstrip_with dot_or_space filename) in
  if negb (nonempty filename) then "unnamed" else filename.

Definition truncate_text (text : string) (max_length : Z) : string :=
  if Z.of_nat (String.length text) <=? max_length then text
  else String.append (slice_to text (max_length - 3)) "...".

End Helpers.


(* ===================================================================== *)
(** * The engine with its tables as objects *)
(* ===================================================================== *)

(** The engine above passes tables as values.  Here a table is an object of
    a store, a table set maps a key to a reference, [df.copy()] allocates, and
    [df.iloc[pos, j] = x] writes into the object in place.  The sections on
    the store below show that the two readings agree, because every write
    of the engine goes to the object it has just allocated. *)
Module Store.
Import Py Pandas.

(** What a table set shows: the table behind each reference. *)
Definition view (h : gmap positive (list (list value))) (d : gmap string positive)
  : gmap string (list (list value)) :=
  omap (fun l => h !! l) d.

(** No reference of the table set dangles. *)
Definition bound_in (h : gmap positive (list (list value))) (d : gmap string positive)
  : Prop :=
  forall (key : string) (l : positive), d !! key = Some l -> is_Some (h !! l).

(** The insert loop on the object at [l]: every turn writes the table back
    to the object; a turn that raises leaves the object as the turns before
    it made it. *)
Fixpoint insert_loop (overwrite : bool) (insert_col_index : Z)
    (source_values : list value) (i : nat) (target_positions : list Z)
    (l : positive) (st : list (list value) * Z)
    (h : gmap positive (list (list value)))
  : result (list (list value) * Z) * gmap positive (list (list value)) :=
  match target_positions with
  | [] => (Ok st, h)
  | pos :: rest =>
      match DataMappingEngine.insert_step overwrite insert_col_index
              source_values st i pos with
      | Ok st' =>
          insert_loop overwrite insert_col_index source_values (S i) rest l st'
            (<[l := st'.1]> h)
      | Raise e => (Raise e, h)
      end
  end.

(** The checks of [_insert_values] before its loop. *)
Definition insert_column (mapping : DataMapping) (df : list (list value))
  : result Z :=
  insert_col_index ← DataMappingEngine._get_column_index
                       (target_insert_coordinate mapping) df;
  if ncols df <=? insert_col_index then Raise ValueError
  else _ ← iloc_col df insert_col_index; Ok insert_col_index.

(** [_insert_values]: [target_data.copy()] is a dict with the same
    references, [df.copy()] a new object [l]; the loop writes into [l]; the
    copied dict then refers to [l]. *)
Definition _insert_values (mapping : DataMapping)
    (target_data : gmap string positive) (source_values : list value)
    (target_positions : list Z) (h : gmap positive (list (list value)))
  : result (gmap string positive) * gmap positive (list (list value)) :=
  match target_data !! target_file mapping ≫= (fun l => h !! l) with
  | None => (Raise KeyError, h)
  | Some df =>
      let l := fresh (dom h) in
      let h := <[l := df]> h in
      match insert_column mapping df with
      | Raise e => (Raise e, h)
      | Ok insert_col_index =>
          match insert_loop (overwrite_existing mapping) insert_col_index
                  source_values 0 target_positions l (df, 0) h with
          | (Ok _, h') => (Ok (<[target_file mapping := l]> target_data), h')
          | (Raise e, h') => (Raise e, h')
          end
      end
  end.

Section WithBuiltins.
Context {B : Builtins}.

(** [execute_mapping]: the first two phases only read. *)
Definition execute_mapping (mapping : DataMapping)
    (source_data target_data : gmap string positive)
    (h : gmap positive (list (list value)))
  : result (gmap string positive) * gmap positive (list (list value)) :=
  match DataMappingEngine._extract_source_values mapping (view h source_data) with
  | Raise e => (Raise e, h)
  | Ok [] => (Ok target_data, h)
  | Ok source_values =>
      match DataMappingEngine._find_target_positions mapping (view h target_data) with
      | Raise e => (Raise e, h)
      | Ok [] =>
          match DataMappingEngine.no_position_report mapping (view h target_data) with
          | Ok _ => (Ok target_data, h)
          | Raise e => (Raise e, h)
          end
      | Ok target_positions =>
          _insert_values mapping target_data source_values target_positions h
      end
  end.

(** [execute_multiple_mappings]: the running table set and the store. *)
Definition execute_multiple_mappings (mappings : list DataMapping)
    (source_data target_data : gmap string positive)
    (h : gmap positive (list (list value)))
  : gmap string positive * gmap positive (list (list value)) :=
  fold_left
    (fun state mapping =>
       match execute_mapping mapping source_data state.1 state.2 with
       | (Ok updated, h') => (updated, h')
       | (Raise _, h') => (state.1, h')
       end)
    mappings (target_data, h).

End WithBuiltins.

End Store.
(* ===================================================================== *)
(** * Notions the properties are stated with *)
(* ===================================================================== *)

Module Spec.
Import Py Pandas.

(** A column-letter string: upper-case A to Z only, and not empty. *)
Definition valid_column (c : string) : bool :=
  nonempty c && str_all char_isupper c.

Section WithBuiltins.
Context {B : Builtins}.

(** The comparison value can be coerced: a string that [int] or [float]
    accepts, or a number (which always has a string form). *)
Definition convertible (v : value) : bool :=
  match v with
  | VStr s => bool_decide (is_Some (Py.int s)) || bool_decide (is_Some (float_of_str s))
  | VBool _ | VInt _ | VFloat _ => true
  | VNone => false
  end.

(** One cell against the coerced forms of the comparison value. *)
Definition coerced_cell (x v : value) : bool :=
  match v with
  | VStr s =>
      match Py.int s with
      | Some z => eq_cell x (VInt z)
      | None => false
      end ||
      match float_of_str s with
      | Some f => eq_cell x (VFloat f)
      | None => false
      end
  | VBool _ | VInt _ | VFloat _ => String.eqb (str x) (str v)
  | VNone => false
  end.

End WithBuiltins.

(** Index [j] selects column [k] of [df], whose cells are [column]. *)
Definition selects (df : list (list value)) (j : Z) (k : nat) (column : list value)
  : Prop :=
  norm_index (length df) j = Some k /\ df !! k = Some column.

(** The labels of a Series are distinct row numbers below [n]. *)
Definition rows_below {A : Type} (n : nat) (s : list (Z * A)) : Prop :=
  NoDup (index s) /\ forall l : Z, l ∈ index s -> 0 <= l < Z.of_nat n.

(** The value the insert loop has for the [i]-th target position:
    [source_values[i]], or the last value past the end. *)
Definition pick (source_values : list value) (i : nat) : option value :=
  match source_values !! i with
  | Some v => Some v
  | None => last source_values
  end.

(** The overwrite policy at row [pos] of a column: the rule overwrites, or
    the cell is missing. *)
Definition writable (overwrite : bool) (column : list value) (pos : Z) : bool :=
  match column !! Z.to_nat pos with
  | Some old => overwrite || isna old
  | None => false
  end.

(** How many of the positions pass the overwrite policy. *)
Fixpoint count_writable (overwrite : bool) (column : list value) (ps : list Z) : Z :=
  match ps with
  | [] => 0
  | p :: rest =>
      (if writable overwrite column p then 1 else 0) +
      count_writable overwrite column rest
  end.

(** A coordinate that names no column where the engine wants one: kind
    [column] or [single] with the empty column string, as the dataclass
    default [ExcelCoordinate()] is. *)
Definition names_no_column (c : ExcelCoordinate.t) : Prop :=
  ExcelCoordinate.column c = EmptyString /\
  (ExcelCoordinate.coord_type c = ExcelCoordinate.Column \/
   ExcelCoordinate.coord_type c = ExcelCoordinate.Single).

(** Two indices that select the same column of a table of [n] columns:
    equal, or [-1] and [n - 1]. *)
Definition same_column (n : nat) (i i' : Z) : Prop :=
  i = i' \/ (i = -1 /\ i' = Z.of_nat n - 1).

(** The coordinate with the letters of the last column of [df] in place of
    an empty column string. *)
Definition resolve (df : list (list value)) (c : ExcelCoordinate.t)
  : ExcelCoordinate.t :=
  match ExcelCoordinate.column c with
  | EmptyString =>
      ExcelCoordinate.mk (ExcelCoordinate.index_to_column (ncols df - 1))
        (ExcelCoordinate.row c) (ExcelCoordinate.end_column c)
        (ExcelCoordinate.end_row c) (ExcelCoordinate.coord_type c)
  | _ => c
  end.

(** The rule with other coordinates. *)
Definition with_coordinates (m : DataMapping)
    (source_match source_value target_match target_insert : ExcelCoordinate.t)
  : DataMapping := {|
  name := name m;
  source_file := source_file m;
  source_match_coordinate := source_match;
  source_match_value := source_match_value m;
  source_value_coordinate := source_value;
  target_file := target_file m;
  target_match_coordinate := target_match;
  target_match_value := target_match_value m;
  target_insert_coordinate := target_insert;
  match_operator := match_operator m;
  overwrite_existing := overwrite_existing m;
  source_match_row_range := source_match_row_range m;
  target_match_row_range := target_match_row_range m
|}.

(** The rule whose empty column strings are replaced by the last column of
    the source table [sdf] and of the target table [tdf]. *)
Definition resolved (sdf tdf : list (list value)) (m : DataMapping) : DataMapping :=
  with_coordinates m
    (resolve sdf (source_match_coordinate m))
    (resolve sdf (source_value_coordinate m))
    (resolve tdf (target_match_coordinate m))
    (resolve tdf (target_insert_coordinate m)).

(** The loader's name for position [k] is that of [index_to_column]. *)
Definition label_agrees (k : nat) : bool :=
  match EnhancedExcelProcessor.column_label (Z.of_nat k) with
  | Ok label => String.eqb label (ExcelCoordinate.index_to_column (Z.of_nat k))
  | Raise _ => false
  end.

(** The loader's names for [n] columns are those of [index_to_column]. *)
Definition columns_agree (n : nat) : bool :=
  match EnhancedExcelProcessor.default_columns n with
  | Ok labels =>
      bool_decide
        (labels = map (fun k => ExcelCoordinate.index_to_column (Z.of_nat k)) (seq 0 n))
  | Raise _ => false
  end.

(** Text of ASCII characters only: on such text [upper], [lower], [strip],
    [isalpha], [isdigit] and [int] of the embedding are those of Python. *)
Definition ascii_text (s : string) : bool := str_all (fun c => ord c <? 128) s.

(** The characters of a coordinate's text: letters A to Z, digits, the
    colon, and the minus sign of a negative number. *)
Definition text_char (c : ascii) : bool :=
  char_isupper c || char_isdigit c || Ascii.eqb c ":" || Ascii.eqb c "-".

(** A coordinate in the form its text denotes: column strings of letters A
    to Z, rows from 1, and the fields its kind does not use at their
    defaults. *)
Definition well_formed (c : ExcelCoordinate.t) : bool :=
  match ExcelCoordinate.coord_type c with
  | ExcelCoordinate.Single =>
      valid_column (ExcelCoordinate.column c) && (1 <=? ExcelCoordinate.row c) &&
      String.eqb (ExcelCoordinate.end_column c) "" &&
      (ExcelCoordinate.end_row c =? 0)
  | ExcelCoordinate.Range =>
      valid_column (ExcelCoordinate.column c) && (1 <=? ExcelCoordinate.row c) &&
      valid_column (ExcelCoordinate.end_column c) &&
      (1 <=? ExcelCoordinate.end_row c)
  | ExcelCoordinate.Column =>
      valid_column (ExcelCoordinate.column c) && (ExcelCoordinate.row c =? 0) &&
      String.eqb (ExcelCoordinate.end_column c) "" &&
      (ExcelCoordinate.end_row c =? 0)
  | ExcelCoordinate.Row =>
      String.eqb (ExcelCoordinate.column c) "" && (1 <=? ExcelCoordinate.row c) &&
      String.eqb (ExcelCoordinate.end_column c) "" &&
      (ExcelCoordinate.end_row c =? 0)
  end.

(** What [from_string] guarantees of a coordinate it returns. *)
Definition parsed_form (c : ExcelCoordinate.t) : Prop :=
  match ExcelCoordinate.coord_type c with
  | ExcelCoordinate.Single =>
      nonempty (ExcelCoordinate.column c) = true /\
      str_all (fun x => negb (char_isdigit x)) (ExcelCoordinate.column c) = true /\
      1 <= ExcelCoordinate.row c /\
      ExcelCoordinate.end_column c = "" /\ ExcelCoordinate.end_row c = 0
  | ExcelCoordinate.Range =>
      nonempty (ExcelCoordinate.column c) = true /\ 1 <= ExcelCoordinate.row c /\
      nonempty (ExcelCoordinate.end_column c) = true /\
      1 <= ExcelCoordinate.end_row c
  | ExcelCoordinate.Column =>
      valid_column (ExcelCoordinate.column c) = true /\
      ExcelCoordinate.row c = 0 /\
      ExcelCoordinate.end_column c = "" /\ ExcelCoordinate.end_row c = 0
  | ExcelCoordinate.Row =>
      ExcelCoordinate.column c = "" /\ 0 <= ExcelCoordinate.row c /\
      ExcelCoordinate.end_column c = "" /\ ExcelCoordinate.end_row c = 0
  end.

(** Two tables of the same shape: as many columns, and column by column as
    many cells. *)
Definition same_shape (df df' : list (list value)) : Prop :=
  Forall2 (fun c c' : list value => length c = length c') df df'.

(** Every column of the table has the same number of cells. *)
Definition rectangular (df : list (list value)) : Prop :=
  forall c c' : list value, c ∈ df -> c' ∈ df -> length c = length c'.

(** Every table of a table set is rectangular. *)
Definition rectangular_tables (d : gmap string (list (list value))) : Prop :=
  forall (key : string) (df : list (list value)),
    d !! key = Some df -> rectangular df.

(** The four coordinates of the rule name their columns by letters A to
    Z. *)
Definition names_columns (m : DataMapping) : bool :=
  valid_column (ExcelCoordinate.column (source_match_coordinate m)) &&
  valid_column (ExcelCoordinate.column (source_value_coordinate m)) &&
  valid_column (ExcelCoordinate.column (target_match_coordinate m)) &&
  valid_column (ExcelCoordinate.column (target_insert_coordinate m)).

End Spec.

(* ===================================================================== *)
(** * The tables of the specification's examples *)
(* ===================================================================== *)

Module Examples.
Import Py Pandas ExcelCoordinate.

(** Source columns B (keys) and C (values); target columns A (keys) and D
    (the insert column, given as [d]). *)
Definition source_table : list (list value) :=
  [ [NaN; NaN; NaN; NaN];
    [VStr "201 main"; VStr "202 main"; VStr "202 main"; VStr "203 main"];
    [VInt 10; VInt 20; VInt 30; VInt 40] ].

Definition target_table (d : list value) : list (list value) :=
  [ [VStr "201 main"; VStr "202 main"; VStr "202 main"];
    [NaN; NaN; NaN];
    [NaN; NaN; NaN];
    d ].

Definition source_data : gmap string (list (list value)) :=
  {[ "source.xlsx" := source_table ]}.

Definition target_data (d : list value) : gmap string (list (list value)) :=
  {[ "target.xlsx" := target_table d ]}.

(** The rule [source B op source_key -> C], [target A op target_key -> D]. *)
Definition rule (op : FilterOperator) (source_key target_key : string)
    (overwrite : bool) : DataMapping := {|
  name := "copy C to D";
  source_file := "source.xlsx";
  source_match_coordinate := cls_column "B";
  source_match_value := VStr source_key;
  source_value_coordinate := cls_column "C";
  target_file := "target.xlsx";
  target_match_coordinate := cls_column "A";
  target_match_value := VStr target_key;
  target_insert_coordinate := cls_column "D";
  match_operator := op;
  overwrite_existing := overwrite;
  source_match_row_range := Some None;
  target_match_row_range := Some None
|}.

(** The same rule with a whole-row insert coordinate, which
    [_get_column_index] refuses. *)
Definition rule_into_row (op : FilterOperator) (key : string) : DataMapping :=
  Spec.with_coordinates (rule op key key true)
    (cls_column "B") (cls_column "C") (cls_column "A") (cls_row 5).

(** The rule whose four coordinates are the dataclass default
    [ExcelCoordinate()]. *)
Definition rule_of_defaults (op : FilterOperator) (key : string) : DataMapping :=
  Spec.with_coordinates (rule op key key true)
    (mk "" 0 "" 0 Single) (mk "" 0 "" 0 Single)
    (mk "" 0 "" 0 Single) (mk "" 0 "" 0 Single).

(** The rule with the default coordinate for the extracted values and for
    the insert column: C and D are the last columns of the two tables. *)
Definition rule_into_last (op : FilterOperator) (key : string)
    (overwrite : bool) : DataMapping :=
  Spec.with_coordinates (rule op key key overwrite)
    (cls_column "B") (mk "" 0 "" 0 Single)
    (cls_column "A") (mk "" 0 "" 0 Single).

(** The rule as the dataclass [DataMapping] builds it: an object without
    the two row-range attributes. *)
Definition rule_as_built (op : FilterOperator) (key : string) : DataMapping := {|
  name := "copy C to D";
  source_file := "source.xlsx";
  source_match_coordinate := cls_column "B";
  source_match_value := VStr key;
  source_value_coordinate := cls_column "C";
  target_file := "target.xlsx";
  target_match_coordinate := cls_column "A";
  target_match_value := VStr key;
  target_insert_coordinate := cls_column "D";
  match_operator := op;
  overwrite_existing := true;
  source_match_row_range := None;
  target_match_row_range := None
|}.

(** The rule that looks for its target rows in the rows [start] to [end_]
    only. *)
Definition rule_in_rows (op : FilterOperator) (key : string) (start end_ : Z)
  : DataMapping := {|
  name := "copy C to D";
  source_file := "source.xlsx";
  source_match_coordinate := cls_column "B";
  source_match_value := VStr key;
  source_value_coordinate := cls_column "C";
  target_file := "target.xlsx";
  target_match_coordinate := cls_column "A";
  target_match_value := VStr key;
  target_insert_coordinate := cls_column "D";
  match_operator := op;
  overwrite_existing := true;
  source_match_row_range := Some None;
  target_match_row_range := Some (Some (start, end_))
|}.

(** The rule that extracts from the source rows [start] to [end_] only. *)
Definition rule_from_rows (op : FilterOperator) (key : string) (start end_ : Z)
  : DataMapping := {|
  name := "copy C to D";
  source_file := "source.xlsx";
  source_match_coordinate := cls_column "B";
  source_match_value := VStr key;
  source_value_coordinate := cls_column "C";
  target_file := "target.xlsx";
  target_match_coordinate := cls_column "A";
  target_match_value := VStr key;
  target_insert_coordinate := cls_column "D";
  match_operator := op;
  overwrite_existing := true;
  source_match_row_range := Some (Some (start, end_));
  target_match_row_range := Some None
|}.

(** A stand-in for [pathlib] on file names without a directory: the name is
    the text itself, the stem the text before its first dot. *)
Definition plain_names : EnhancedExcelProcessor.PathLib := {|
  EnhancedExcelProcessor.path_stem := fun p =>
    match split "." p with
    | part :: _ => part
    | [] => p
    end;
  EnhancedExcelProcessor.path_name := fun p => p
|}.

(** A stand-in for the library conversions, for evaluating the engine on
    the examples: no text is a float, a float is written [0.0], and a
    pattern is searched as plain text unless it has an opening parenthesis,
    which does not compile. *)
Definition plain_text : Builtins := {|
  float_of_str := fun _ => None;
  repr_float := fun _ => "0.0";
  to_numeric_str := fun _ => S754_nan;
  re_compile := fun pattern =>
    if contains_char "(" pattern then None
    else Some (fun text => str_in pattern text)
|}.

End Examples.

(* ===================================================================== *)
(** * Properties *)
(* ===================================================================== *)

(** ** Column letters and indices *)

Section ColumnLetters.
Import Py ExcelCoordinate Spec.

Lemma ord_range (c : ascii) : 0 <= ord c < 256.
Proof.
  unfold ord. pose proof (nat_ascii_bounded c). lia.
Qed.

Lemma ord_chr (z : Z) : 0 <= z < 256 -> ord (chr z) = z.
Proof.
  intros Hz. unfold ord, chr.
  rewrite nat_ascii_embedding by lia. lia.
Qed.

Lemma chr_ord (c : ascii) : chr (ord c) = c.
Proof.
  unfold ord, chr. rewrite Nat2Z.id. apply ascii_nat_embedding.
Qed.

Lemma index_to_column_loop_pos (index : Z) (result : string) :
  0 < index ->
  index_to_column_loop index result =
  index_to_column_loop ((index - 1) / 26)
    (String (chr ((index - 1) mod 26 + ord "A")) result).
Proof.
  intros Hpos. rewrite index_to_column_loop_equation_1.
  destruct (Z_lt_dec 0 index); [reflexivity | lia].
Qed.

Lemma index_to_column_loop_done (index : Z) (result : string) :
  index <= 0 -> index_to_column_loop index result = result.
Proof.
  intros Hle. rewrite index_to_column_loop_equation_1.
  destruct (Z_lt_dec 0 index); [lia | reflexivity].
Qed.

(** Reading back what the [while] loop wrote: the letters it prepends to
    [result] carry the number [index]. *)
Lemma column_to_index_loop_of_letters (index : Z) :
  0 <= index ->
  forall result : string,
    column_to_index_loop (index_to_column_loop index result) 0 =
    column_to_index_loop result index.
Proof.
  intros Hnonneg. generalize Hnonneg. pattern index.
  apply Z_lt_induction; [| assumption].
  intros n IH Hn result.
  destruct (Z.eq_dec n 0) as [-> | Hne].
  - rewrite index_to_column_loop_done by lia. reflexivity.
  - rewrite index_to_column_loop_pos by lia.
    assert (Hq : 0 <= (n - 1) / 26 < n).
    { split; [apply Z.div_pos; lia | apply Z.div_lt_upper_bound; lia]. }
    rewrite IH by lia.
    cbn [column_to_index_loop]. change (ord "A") with 65.
    pose proof (Z.mod_pos_bound (n - 1) 26 ltac:(lia)) as Hm.
    rewrite ord_chr by lia.
    f_equal. pose proof (Z.div_mod (n - 1) 26 ltac:(lia)). lia.
Qed.

Lemma column_to_index_of_index_to_column (i : Z) :
  0 <= i -> column_to_index (index_to_column i) = i.
Proof.
  intros Hi. unfold column_to_index, index_to_column.
  rewrite column_to_index_loop_of_letters by lia.
  cbn [column_to_index_loop]. lia.
Qed.

Lemma char_isupper_spec (c : ascii) :
  char_isupper c = true -> 65 <= ord c <= 90.
Proof. unfold char_isupper. lia. Qed.

(** Writing out what [column_to_index] read: from the number of
    [column] read after [result], the [while] loop prepends [column]. *)
Lemma index_to_column_loop_of_number (column : string) :
  str_all char_isupper column = true ->
  forall (result : Z) (tail : string),
    0 <= result ->
    index_to_column_loop (column_to_index_loop column result) tail =
    index_to_column_loop result (String.append column tail).
Proof.
  induction column as [| c column IH]; intros Hup result tail Hres.
  - reflexivity.
  - cbn [str_all] in Hup. apply andb_true_iff in Hup as [Hc Hup].
    apply char_isupper_spec in Hc.
    cbn [column_to_index_loop]. change (ord "A") with 65.
    rewrite IH by (assumption || lia).
    rewrite index_to_column_loop_pos by lia.
    change (ord "A") with 65.
    replace (result * 26 + (ord c - 65 + 1) - 1) with ((ord c - 65) + result * 26) by lia.
    rewrite Z.div_add, Z.mod_add by lia.
    rewrite Z.div_small, Z.mod_small by lia.
    replace (ord c - 65 + 65) with (ord c) by lia.
    rewrite chr_ord. reflexivity.
Qed.

Lemma append_empty_r (s : string) : String.append s EmptyString = s.
Proof.
  induction s as [| c s IH]; [reflexivity |].
  change (String c (String.append s EmptyString) = String c s).
  now rewrite IH.
Qed.

Lemma index_to_column_of_column_to_index (c : string) :
  str_all char_isupper c = true ->
  index_to_column (column_to_index c) = c.
Proof.
  intros Hup. unfold index_to_column, column_to_index.
  replace (column_to_index_loop c 0 - 1 + 1) with (column_to_index_loop c 0) by lia.
  rewrite index_to_column_loop_of_number by (assumption || lia).
  rewrite index_to_column_loop_done by lia.
  apply append_empty_r.
Qed.

(** C5.  The two conversions are inverse to each other: for every column
    string [c] that is not empty and made of the letters A to Z,
    [index_to_column (column_to_index c)] is [c]; for every index [i >= 0],
    [column_to_index (index_to_column i)] is [i]; and index 26 is the
    two-letter column AA, in both directions. *)
Theorem column_letters_round_trip (c : string) (i : Z) :
  valid_column c = true ->
  0 <= i ->
  index_to_column (column_to_index c) = c /\
  column_to_index (index_to_column i) = i /\
  index_to_column 26 = "AA" /\
  column_to_index "AA" = 26.
Proof.
  intros Hc Hi. unfold valid_column in Hc.
  apply andb_true_iff in Hc as [_ Hup].
  split; [| split; [| split]].
  - now apply index_to_column_of_column_to_index.
  - now apply column_to_index_of_index_to_column.
  - reflexivity.
  - reflexivity.
Qed.

Lemma column_letters_round_trip_witness :
  index_to_column (column_to_index "XFD") = "XFD" /\
  column_to_index (index_to_column 16383) = 16383.
Proof.
  destruct (column_letters_round_trip "XFD" 16383) as (H1 & H2 & _);
    [reflexivity | lia |].
  split; assumption.
Defined.
End ColumnLetters.
(** ** Parsing coordinates *)

Section Parsing.
Import Py ExcelCoordinate.

(** C2, as the code has it: the two sides of ["A1:A1"] hold a digit, so
    they are not letters only and the text is parsed as a range from A1 to
    A1; the whole-column form is ["A:A"].  ["1:1"] is row 1 and ["A1:B5"] the
    range from A1 to B5. *)
Theorem from_string_range_forms :
  from_string "A1:A1" = Ok (mk "A" 1 "A" 1 Range) /\
  from_string "A:A" = Ok (mk "A" 0 "" 0 Column) /\
  from_string "1:1" = Ok (mk "" 1 "" 0 Row) /\
  from_string "A1:B5" = Ok (mk "A" 1 "B" 5 Range).
Proof. repeat split; reflexivity. Qed.

(** C2 fails as stated: the coordinate parsed from ["A1:A1"] is of kind
    [range], not [column]. *)
Lemma from_string_A1_A1_is_no_column :
  exists c : t,
    from_string "A1:A1" = Ok c /\ coord_type c = Range /\ coord_type c <> Column.
Proof.
  exists (mk "A" 1 "A" 1 Range).
  split; [reflexivity | split; [reflexivity | discriminate]].
Qed.

End Parsing.

(** ** The loader's default column names *)

Section DefaultColumns.
Import Py ExcelCoordinate EnhancedExcelProcessor Spec.

Lemma labels_agree_below_702 : forallb label_agrees (seq 0 702) = true.
Proof. vm_compute. reflexivity. Qed.

Lemma column_label_below_702 (k : nat) :
  (k < 702)%nat -> column_label (Z.of_nat k) = Ok (index_to_column (Z.of_nat k)).
Proof.
  intros Hk.
  pose proof labels_agree_below_702 as Hall.
  rewrite forallb_forall in Hall.
  specialize (Hall k). unfold label_agrees in Hall.
  destruct (column_label (Z.of_nat k)) as [label | e].
  - f_equal. apply String.eqb_eq. apply Hall. apply in_seq. lia.
  - discriminate Hall. apply in_seq. lia.
Qed.

Lemma columns_loop_below_702 (todo : nat) :
  forall (i : nat) (columns : list string),
    (i + todo <= 702)%nat ->
    columns_loop todo (Z.of_nat i) columns =
    Ok (columns ++ map (fun k => index_to_column (Z.of_nat k)) (seq i todo)).
Proof.
  induction todo as [| todo IH]; intros i columns Hle.
  - cbn. now rewrite app_nil_r.
  - cbn [columns_loop seq map].
    rewrite column_label_below_702 by lia.
    change (columns_loop todo (Z.of_nat i + 1)
              (columns ++ [index_to_column (Z.of_nat i)]) =
            Ok (columns ++ index_to_column (Z.of_nat i)
                  :: map (fun k => index_to_column (Z.of_nat k)) (seq (S i) todo))).
    replace (Z.of_nat i + 1) with (Z.of_nat (S i)) by lia.
    rewrite IH by lia. now rewrite <- app_assoc.
Qed.

Lemma default_columns_up_to_26 : forallb columns_agree (seq 0 27) = true.
Proof. vm_compute. reflexivity. Qed.

(** Up to 702 columns (A to ZZ) the loader's names are those of
    [index_to_column], position by position. *)
Theorem default_columns_agree (max_cols : nat) :
  (max_cols <= 702)%nat ->
  default_columns max_cols =
  Ok (map (fun k => index_to_column (Z.of_nat k)) (seq 0 max_cols)).
Proof.
  intros Hle. destruct (le_lt_dec max_cols 26) as [Hshort | Hlong].
  - pose proof default_columns_up_to_26 as Hall.
    rewrite forallb_forall in Hall.
    specialize (Hall max_cols ltac:(apply in_seq; lia)).
    unfold columns_agree in Hall.
    destruct (default_columns max_cols) as [labels | e]; [| discriminate].
    apply bool_decide_eq_true in Hall. now subst.
  - unfold default_columns.
    destruct (Nat.leb_spec max_cols 26) as [? | _]; [lia |].
    apply (columns_loop_below_702 max_cols 0 []). lia.
Qed.

Lemma default_columns_agree_witness :
  default_columns 30 = Ok (map (fun k => index_to_column (Z.of_nat k)) (seq 0 30)).
Proof. apply (default_columns_agree 30). lia. Defined.

Lemma columns_loop_raises (todo : nat) :
  forall (i : Z) (columns : list string) (e : exn),
    columns_loop todo i columns = Raise e ->
    forall extra : nat, columns_loop (todo + extra) i columns = Raise e.
Proof.
  induction todo as [| todo IH]; intros i columns e Hraise extra.
  - discriminate.
  - cbn [columns_loop Nat.add] in *.
    destruct (column_label i) as [label | e']; cbn in *.
    + now apply IH.
    + assumption.
Qed.

(** C9 at a sheet of 703 columns: position 702 is column AAA for
    [index_to_column], and the loader's loop raises [IndexError] there
    ([(702 - 26) // 26] is 26, past the last letter), so no name is assigned
    at all. *)
Theorem default_columns_703_raises :
  default_columns 703 = Raise IndexError /\
  column_label 702 = Raise IndexError /\
  index_to_column 702 = "AAA".
Proof. repeat split; vm_compute; reflexivity. Qed.

(** The same from 703 columns on. *)
Lemma default_columns_beyond_702 (max_cols : nat) :
  (702 < max_cols)%nat -> default_columns max_cols = Raise IndexError.
Proof.
  intros Hgt. unfold default_columns.
  destruct (Nat.leb_spec max_cols 26) as [? | _]; [lia |].
  replace max_cols with (703 + (max_cols - 703))%nat by lia.
  apply columns_loop_raises. vm_compute. reflexivity.
Qed.

End DefaultColumns.
(** ** The match operators *)

Section MatchOperators.
Import Py Pandas DataMappingEngine Spec.
Context {B : Builtins}.

Lemma mask_or_smap {A : Type} (f g : A -> bool) (s : Series A) :
  mask_or (smap f s) (smap g s) = smap (fun x => f x || g x) s.
Proof.
  unfold mask_or, smap.
  induction s as [| [l x] s IH]; [reflexivity |].
  cbn. now rewrite <- IH.
Qed.

Lemma smap_ext {A C : Type} (f g : A -> C) (s : Series A) :
  (forall x, f x = g x) -> smap f s = smap g s.
Proof.
  intros Heq. unfold smap. apply map_ext. intros [l x]. cbn. now rewrite Heq.
Qed.

Lemma eq_scalar_astype_str (column : Series value) (v : value) :
  eq_scalar (astype_str column) (VStr (str v)) =
  smap (fun x => String.eqb (str x) (str v)) column.
Proof.
  unfold eq_scalar, astype_str, smap. rewrite map_map.
  apply map_ext. intros [l x]. reflexivity.
Qed.

(** The union of the converted masks, entry by entry. *)
Lemma union_of_converted_matches (column : Series value) (v : value) :
  fold_left mask_or (type_converted_matches column v) (eq_scalar column v) =
  smap (fun x => eq_cell x v || coerced_cell x v) column.
Proof.
  unfold type_converted_matches, coerced_cell, eq_scalar.
  destruct v as [| b | z | f | s].
  - cbn. apply smap_ext. intros x. now rewrite orb_false_r.
  - cbn [fold_left]. fold (eq_scalar (astype_str column) (VStr (str (VBool b)))).
    rewrite eq_scalar_astype_str. apply mask_or_smap.
  - cbn [fold_left]. fold (eq_scalar (astype_str column) (VStr (str (VInt z)))).
    rewrite eq_scalar_astype_str. apply mask_or_smap.
  - cbn [fold_left]. fold (eq_scalar (astype_str column) (VStr (str (VFloat f)))).
    rewrite eq_scalar_astype_str. apply mask_or_smap.
  - destruct (Py.int s) as [z |], (float_of_str s) as [f |]; cbn [app fold_left].
    + rewrite !mask_or_smap. apply smap_ext. intros x. now rewrite orb_assoc.
    + rewrite mask_or_smap. apply smap_ext. intros x. now rewrite orb_false_r.
    + rewrite mask_or_smap. reflexivity.
    + apply smap_ext. intros x. now rewrite orb_false_r.
Qed.

Lemma converted_matches_nil (column : Series value) (v : value) :
  type_converted_matches column v = [] <-> convertible v = false.
Proof.
  unfold type_converted_matches, convertible.
  destruct v as [| b | z | f | s]; try (split; [discriminate | discriminate]);
    try (split; reflexivity).
  destruct (Py.int s) as [z |], (float_of_str s) as [f |]; cbn;
    (split; [discriminate || reflexivity | discriminate || reflexivity]).
Qed.


(** The string operators see [str(x)] of every cell. *)
Lemma starts_with_entries (column : Series value) (v : value) :
  _apply_match_operator column v STARTS_WITH =
  smap (fun x => String.prefix (str v) (str x)) column.
Proof. reflexivity. Qed.

Lemma ends_with_entries (column : Series value) (v : value) :
  _apply_match_operator column v ENDS_WITH =
  smap (fun x => endswith (str v) (str x)) column.
Proof. reflexivity. Qed.

Lemma contains_entries (column : Series value) (v : value) (search : string -> bool) :
  re_compile (str v) = Some search ->
  _apply_match_operator column v CONTAINS = smap (fun x => search (str x)) column.
Proof.
  intros Hre. unfold _apply_match_operator. cbn [match_operator_body].
  now rewrite Hre.
Qed.

(** C8 at a column with a missing cell: [astype(str)] turns NaN into the
    text ["nan"] before the test, so the missing cell is selected by
    STARTS_WITH ["na"] and by ENDS_WITH ["an"], and CONTAINS answers whatever
    the pattern finds in ["nan"]. *)
Theorem string_operators_select_missing_cells :
  _apply_match_operator (of_list [NaN; VStr "x"]) (VStr "na") STARTS_WITH =
    of_list [true; false] /\
  _apply_match_operator (of_list [NaN; VStr "x"]) (VStr "an") ENDS_WITH =
    of_list [true; false] /\
  (forall search : string -> bool,
     re_compile "an" = Some search ->
     _apply_match_operator (of_list [NaN; VStr "x"]) (VStr "an") CONTAINS =
       of_list [search "nan"; search "x"]).
Proof.
  split; [reflexivity | split; [reflexivity |]].
  intros search Hre.
  now rewrite (contains_entries _ (VStr "an") search Hre).
Qed.

(** IS_EMPTY over [[NaN, "", "  ", "a"]]: a missing cell and a string of
    spaces only are empty. *)
Theorem is_empty_example :
  _apply_match_operator (of_list [NaN; VStr ""; VStr "  "; VStr "a"]) VNone IS_EMPTY =
  of_list [true; true; true; false].
Proof. reflexivity. Qed.

End MatchOperators.
(** ** The insert phase *)

Section Insert.
Import Py Pandas DataMappingEngine Spec.

Lemma norm_index_in_range (n : nat) (i : Z) :
  0 <= i < Z.of_nat n -> norm_index n i = Some (Z.to_nat i).
Proof.
  intros Hi. unfold norm_index.
  destruct (Z.leb_spec 0 i), (Z.ltb_spec i (Z.of_nat n)); try lia. reflexivity.
Qed.

Lemma norm_index_bound (n : nat) (i : Z) (k : nat) :
  norm_index n i = Some k -> (k < n)%nat.
Proof.
  unfold norm_index.
  destruct (Z.leb_spec 0 i), (Z.ltb_spec i (Z.of_nat n)); cbn;
    try (intros [= <-]; lia);
    destruct (Z.leb_spec (- Z.of_nat n) i), (Z.ltb_spec i 0); cbn;
    try discriminate; intros [= <-]; lia.
Qed.

Lemma selects_insert (df : DataFrame) (j : Z) (k : nat) (column column' : list value) :
  selects df j k column -> selects (<[k := column']> df) j k column'.
Proof.
  intros [Hj Hk]. split.
  - now rewrite length_insert.
  - apply list_lookup_insert_eq. eapply lookup_lt_Some; eauto.
Qed.

Lemma selects_iloc_col (df : list (list value)) (j : Z) (k : nat)
    (column : list value) :
  selects df j k column -> iloc_col df j = Ok (of_list column).
Proof. intros [Hnorm Hk]. unfold iloc_col. now rewrite Hnorm, Hk. Qed.

Lemma insert_at_spec (overwrite : bool) (j : Z) (new_value : value)
    (df : DataFrame) (count : Z) (pos : Z) (k : nat) (column : list value) (old : value) :
  selects df j k column ->
  0 <= pos < Z.of_nat (length column) ->
  column !! Z.to_nat pos = Some old ->
  insert_at overwrite j new_value (df, count) pos =
  Ok (if overwrite || isna old
      then (<[k := <[Z.to_nat pos := new_value]> column]> df, count + 1)
      else (df, count)).
Proof.
  intros [Hj Hk] Hpos Hold. unfold insert_at, iloc_get, iloc_set. cbn [fst snd].
  rewrite Hj, Hk, (norm_index_in_range _ _ Hpos), Hold. cbn.
  destruct (overwrite || isna old); reflexivity.
Qed.

Lemma pick_is_Some (source_values : list value) (i : nat) :
  source_values <> [] -> is_Some (pick source_values i).
Proof.
  intros Hne. unfold pick.
  destruct (source_values !! i); [eauto |].
  now apply last_is_Some.
Qed.

Lemma insert_step_pick (overwrite : bool) (j : Z) (source_values : list value)
    (st : list (list value) * Z) (i : nat) (pos : Z) :
  insert_step overwrite j source_values st i pos =
  match pick source_values i with
  | Some new_value => insert_at overwrite j new_value st pos
  | None => Ok st
  end.
Proof.
  unfold insert_step, pick. destruct (source_values !! i); reflexivity.
Qed.

Lemma writable_insert_ne (overwrite : bool) (column : list value) (p q : Z) (x : value) :
  0 <= p -> 0 <= q -> p <> q ->
  writable overwrite (<[Z.to_nat p := x]> column) q = writable overwrite column q.
Proof.
  intros Hp Hq Hne. unfold writable.
  rewrite list_lookup_insert_ne by lia. reflexivity.
Qed.

Lemma count_writable_insert (overwrite : bool) (column : list value) (p : Z)
    (x : value) (ps : list Z) :
  0 <= p -> p ∉ ps -> (forall q, q ∈ ps -> 0 <= q) ->
  count_writable overwrite (<[Z.to_nat p := x]> column) ps =
  count_writable overwrite column ps.
Proof.
  intros Hp Hnotin Hpos. induction ps as [| q ps IH]; [reflexivity |].
  apply not_elem_of_cons in Hnotin as [Hne Hnotin].
  cbn [count_writable].
  rewrite writable_insert_ne by (auto; apply Hpos; left).
  rewrite IH; auto. intros q' Hq'. apply Hpos. now right.
Qed.

(** What the insert loop computes on a valid insert column, for distinct
    in-range positions and at least one source value. *)
Lemma insert_loop_spec (overwrite : bool) (j : Z) (source_values : list value)
    (k : nat) (ps : list Z) :
  source_values <> [] ->
  forall (i : nat) (df : list (list value)) (column : list value) (count : Z),
    selects df j k column ->
    NoDup ps ->
    (forall p, p ∈ ps -> 0 <= p < Z.of_nat (length column)) ->
    exists column' : list value,
      insert_loop overwrite j source_values i ps (df, count) =
        Ok (<[k := column']> df, count + count_writable overwrite column ps) /\
      length column' = length column /\
      (forall r : nat, Z.of_nat r ∉ ps -> column' !! r = column !! r) /\
      (forall (n : nat) (p : Z),
         ps !! n = Some p ->
         exists new old : value,
           pick source_values (i + n) = Some new /\
           column !! Z.to_nat p = Some old /\
           column' !! Z.to_nat p = Some (if overwrite || isna old then new else old)).
Proof.
  intros Hvs. induction ps as [| p ps IH]; intros i df column count Hsel Hnodup Hrange.
  - exists column. cbn. destruct Hsel as [_ Hk].
    rewrite list_insert_id by assumption. rewrite Z.add_0_r.
    repeat split; auto. intros n p Hnp. discriminate Hnp.
  - apply NoDup_cons in Hnodup as [Hnotin Hnodup].
    assert (Hp : 0 <= p < Z.of_nat (length column)) by (apply Hrange; left).
    destruct (lookup_lt_is_Some_2 column (Z.to_nat p) ltac:(lia)) as [old Hold].
    destruct (pick_is_Some source_values i Hvs) as [new Hnew].
    cbn [insert_loop]. rewrite insert_step_pick, Hnew.
    rewrite (insert_at_spec _ _ _ _ _ _ k column old Hsel Hp Hold).
    set (column1 := if overwrite || isna old
                    then <[Z.to_nat p := new]> column else column).
    assert (Hlen1 : length column1 = length column).
    { subst column1. destruct (overwrite || isna old); [apply length_insert | reflexivity]. }
    assert (Hstep : (if overwrite || isna old
                     then (<[k := <[Z.to_nat p := new]> column]> df, count + 1)
                     else (df, count)) =
                    (<[k := column1]> df,
                     count + (if writable overwrite column p then 1 else 0))).
    { subst column1. unfold writable. rewrite Hold.
      destruct (overwrite || isna old); [reflexivity |].
      destruct Hsel as [_ Hk]. rewrite list_insert_id by assumption.
      now rewrite Z.add_0_r. }
    rewrite Hstep. cbn.
    destruct (IH (S i) (<[k := column1]> df) column1
                (count + (if writable overwrite column p then 1 else 0)))
      as (column' & Hloop & Hlen & Hframe & Hwritten).
    { now apply selects_insert with (column := column). }
    { assumption. }
    { intros q Hq. rewrite Hlen1. apply Hrange. now right. }
    assert (Hcount : count_writable overwrite column1 ps =
                     count_writable overwrite column ps).
    { subst column1. destruct (overwrite || isna old); [| reflexivity].
      apply count_writable_insert; [lia | assumption |].
      intros q Hq. apply Hrange. now right. }
    exists column'. split; [| split; [| split]].
    + rewrite Hloop, list_insert_insert_eq, Hcount. f_equal. f_equal.
      cbn [count_writable]. lia.
    + congruence.
    + intros r Hr. apply not_elem_of_cons in Hr as [Hrp Hr].
      rewrite Hframe by assumption. subst column1.
      destruct (overwrite || isna old); [| reflexivity].
      apply list_lookup_insert_ne. lia.
    + intros n q Hnq. destruct n as [| n].
      * cbn in Hnq. injection Hnq as <-. exists new, old.
        rewrite Nat.add_0_r. split; [assumption | split; [assumption |]].
        rewrite Hframe by (rewrite Z2Nat.id by lia; assumption).
        subst column1. destruct (overwrite || isna old); [| assumption].
        apply list_lookup_insert_eq. lia.
      * cbn in Hnq. destruct (Hwritten n q Hnq) as (new' & old' & Hpick & Hold' & Hcell).
        assert (Hq : q ∈ ps) by (eapply list_elem_of_lookup_2; eauto).
        assert (Hqp : q <> p) by (intros ->; contradiction).
        assert (Hq0 : 0 <= q) by (apply Hrange; now right).
        assert (Hsame : column1 !! Z.to_nat q = column !! Z.to_nat q).
        { subst column1. destruct (overwrite || isna old); [| reflexivity].
          apply list_lookup_insert_ne. lia. }
        exists new', old'. rewrite <- Hsame.
        replace (i + S n)%nat with (S i + n)%nat by lia.
        auto.
Qed.

(** [_insert_values] on a valid insert column: the copy of the table gets
    the column the loop computes, under the table's key. *)
Lemma insert_values_spec (mapping : DataMapping)
    (target_data : gmap string (list (list value))) (df : list (list value))
    (j : Z) (k : nat) (column : list value)
    (source_values : list value) (ps : list Z) :
  target_data !! target_file mapping = Some df ->
  _get_column_index (target_insert_coordinate mapping) df = Ok j ->
  j < ncols df ->
  selects df j k column ->
  source_values <> [] ->
  NoDup ps ->
  (forall p, p ∈ ps -> 0 <= p < Z.of_nat (length column)) ->
  exists column' : list value,
    _insert_values mapping target_data source_values ps =
      Ok (<[target_file mapping := <[k := column']> df]> target_data) /\
    insert_loop (overwrite_existing mapping) j source_values 0 ps (df, 0) =
      Ok (<[k := column']> df,
          count_writable (overwrite_existing mapping) column ps) /\
    length column' = length column /\
    (forall r : nat, Z.of_nat r ∉ ps -> column' !! r = column !! r) /\
    (forall (n : nat) (p : Z),
       ps !! n = Some p ->
       exists new old : value,
         pick source_values n = Some new /\
         column !! Z.to_nat p = Some old /\
         column' !! Z.to_nat p =
           Some (if overwrite_existing mapping || isna old then new else old)).
Proof.
  intros Hfile Hindex Hbound Hsel Hvs Hnodup Hrange.
  destruct (insert_loop_spec (overwrite_existing mapping) j source_values k ps Hvs
              0%nat df column 0 Hsel Hnodup Hrange)
    as (column' & Hloop & Hlen & Hframe & Hwritten).
  exists column'. rewrite Z.add_0_l in Hloop.
  split; [| split; [assumption | split; [assumption | split; [assumption |]]]].
  - unfold _insert_values. rewrite Hfile, Hindex. cbn.
    destruct (Z.leb_spec (ncols df) j) as [? | _]; [lia |].
    unfold iloc_col. destruct Hsel as [Hj Hk]. rewrite Hj, Hk. cbn.
    rewrite Hloop. reflexivity.
  - intros n p Hnp. apply (Hwritten n p Hnp).
Qed.

(** C3.  In the insert phase, on a valid insert column and for distinct
    in-range target positions and at least one extracted value: the cell at
    a target position gets its new value when the rule overwrites or the
    cell is missing, and keeps its value otherwise; the number of writes is
    the number of positions that pass this test; every other cell of the
    column keeps its value.  With the insert column [[NaN, 99, NaN]], values
    [[20, 30]], positions [[1, 2]] and [overwrite_existing = False], row 1
    keeps 99 and row 2 gets 30. *)
Theorem insert_overwrite_policy :
  (forall (mapping : DataMapping) (target_data : gmap string (list (list value)))
          (df : list (list value)) (j : Z) (k : nat) (column : list value)
          (source_values : list value) (ps : list Z),
     target_data !! target_file mapping = Some df ->
     _get_column_index (target_insert_coordinate mapping) df = Ok j ->
     j < ncols df ->
     selects df j k column ->
     source_values <> [] ->
     NoDup ps ->
     (forall p, p ∈ ps -> 0 <= p < Z.of_nat (length column)) ->
     exists column' : list value,
       _insert_values mapping target_data source_values ps =
         Ok (<[target_file mapping := <[k := column']> df]> target_data) /\
       insert_loop (overwrite_existing mapping) j source_values 0 ps (df, 0) =
         Ok (<[k := column']> df,
             count_writable (overwrite_existing mapping) column ps) /\
       (forall (n : nat) (p : Z) (old : value),
          ps !! n = Some p ->
          column !! Z.to_nat p = Some old ->
          (overwrite_existing mapping || isna old = true ->
             exists new : value,
               pick source_values n = Some new /\
               column' !! Z.to_nat p = Some new) /\
          (overwrite_existing mapping || isna old = false ->
             column' !! Z.to_nat p = Some old)) /\
       (forall r : nat, Z.of_nat r ∉ ps -> column' !! r = column !! r)) /\
  _insert_values (Examples.rule EQUALS "202 main" "202 main" false)
      (Examples.target_data [NaN; VInt 99; NaN]) [VInt 20; VInt 30] [1; 2] =
    Ok (Examples.target_data [NaN; VInt 99; VInt 30]).
Proof.
  split; [| vm_compute; reflexivity].
  intros mapping target_data df j k column source_values ps
    Hfile Hindex Hbound Hsel Hvs Hnodup Hrange.
  destruct (insert_values_spec mapping target_data df j k column source_values ps
              Hfile Hindex Hbound Hsel Hvs Hnodup Hrange)
    as (column' & Hvalues & Hloop & _ & Hframe & Hwritten).
  exists column'. split; [assumption | split; [assumption | split; [| assumption]]].
  intros n p old Hnp Hold.
  destruct (Hwritten n p Hnp) as (new & old' & Hpick & Hold' & Hcell).
  assert (old' = old) as -> by congruence.
  split; intros Hpolicy; rewrite Hpolicy in Hcell; eauto.
Qed.

(** C4.  In the same setting, a target position whose place in the list is
    past the extracted values gets the last extracted value, under the same
    overwrite test.  With the one value [[20]] and the positions [[1, 2]],
    both rows get 20. *)
Theorem insert_repeats_last_value :
  (forall (mapping : DataMapping) (target_data : gmap string (list (list value)))
          (df : list (list value)) (j : Z) (k : nat) (column : list value)
          (source_values : list value) (ps : list Z),
     target_data !! target_file mapping = Some df ->
     _get_column_index (target_insert_coordinate mapping) df = Ok j ->
     j < ncols df ->
     selects df j k column ->
     source_values <> [] ->
     (length source_values < length ps)%nat ->
     NoDup ps ->
     (forall p, p ∈ ps -> 0 <= p < Z.of_nat (length column)) ->
     exists (column' : list value) (last_value : value),
       last source_values = Some last_value /\
       _insert_values mapping target_data source_values ps =
         Ok (<[target_file mapping := <[k := column']> df]> target_data) /\
       (forall (n : nat) (p : Z) (old : value),
          ps !! n = Some p ->
          (length source_values <= n)%nat ->
          column !! Z.to_nat p = Some old ->
          column' !! Z.to_nat p =
            Some (if overwrite_existing mapping || isna old
                  then last_value else old))) /\
  _insert_values (Examples.rule EQUALS "202 main" "202 main" false)
      (Examples.target_data [NaN; NaN; NaN]) [VInt 20] [1; 2] =
    Ok (Examples.target_data [NaN; VInt 20; VInt 20]).
Proof.
  split; [| vm_compute; reflexivity].
  intros mapping target_data df j k column source_values ps
    Hfile Hindex Hbound Hsel Hvs Hshort Hnodup Hrange.
  destruct (insert_values_spec mapping target_data df j k column source_values ps
              Hfile Hindex Hbound Hsel Hvs Hnodup Hrange)
    as (column' & Hvalues & _ & _ & _ & Hwritten).
  destruct (proj2 (last_is_Some source_values) Hvs) as [last_value Hlast].
  exists column', last_value. split; [assumption | split; [assumption |]].
  intros n p old Hnp Hpast Hold.
  destruct (Hwritten n p Hnp) as (new & old' & Hpick & Hold' & Hcell).
  assert (old' = old) as -> by congruence.
  unfold pick in Hpick. rewrite (lookup_ge_None_2 source_values n) in Hpick by lia.
  rewrite Hlast in Hpick. injection Hpick as <-. exact Hcell.
Qed.

End Insert.
(** ** One rule, and a list of rules *)

Section Rules.
Import Py Pandas DataMappingEngine Spec.
Context {B : Builtins}.

(** What a located target tells about the table: the file is there, the
    match column index passed the bounds check and selects a column. *)
Lemma find_target_positions_ok (mapping : DataMapping)
    (target_data : gmap string (list (list value))) (ps : list Z) :
  _find_target_positions mapping target_data = Ok ps ->
  exists (df : list (list value)) (idx : Z) (match_column : list (Z * value)),
    target_data !! target_file mapping = Some df /\
    _get_column_index (target_match_coordinate mapping) df = Ok idx /\
    idx < ncols df /\
    iloc_col df idx = Ok match_column.
Proof.
  unfold _find_target_positions. intros Hfind.
  destruct (target_data !! target_file mapping) as [df |]; [| discriminate].
  destruct (_get_column_index (target_match_coordinate mapping) df)
    as [idx | e] eqn:Hindex; [| discriminate].
  cbn in Hfind.
  destruct (Z.leb_spec (ncols df) idx) as [? | Hlt]; [discriminate |].
  destruct (iloc_col df idx) as [match_column | e] eqn:Hcol; [| discriminate].
  exists df, idx, match_column. repeat split; auto.
Qed.

(** The diagnostic block cannot raise after a successful search. *)
Lemma no_position_report_ok (mapping : DataMapping)
    (target_data : gmap string (list (list value))) (ps : list Z) :
  _find_target_positions mapping target_data = Ok ps ->
  no_position_report mapping target_data = Ok tt.
Proof.
  intros Hfind.
  destruct (find_target_positions_ok _ _ _ Hfind)
    as (df & idx & match_column & Hfile & Hindex & Hlt & Hcol).
  unfold no_position_report. rewrite Hfile, Hindex. cbn.
  destruct (Z.ltb_spec idx (ncols df)) as [_ | ?]; [| lia].
  now rewrite Hcol.
Qed.

(** C6.  When the extract phase yields no value, or it yields values and
    the locate phase then finds no target position, [execute_mapping] returns
    the target tables it was given and raises nothing. *)
Theorem no_match_leaves_target_unchanged (mapping : DataMapping)
    (source_data target_data : gmap string (list (list value))) :
  _extract_source_values mapping source_data = Ok [] \/
  (exists source_values : list value,
     _extract_source_values mapping source_data = Ok source_values /\
     _find_target_positions mapping target_data = Ok []) ->
  execute_mapping mapping source_data target_data = Ok target_data.
Proof.
  unfold execute_mapping.
  intros [Hextract | (source_values & Hextract & Hfind)]; rewrite Hextract; cbn.
  - reflexivity.
  - destruct source_values as [| v vs]; [reflexivity |].
    rewrite Hfind. cbn.
    now rewrite (no_position_report_ok _ _ _ Hfind).
Qed.

Lemma execute_multiple_mappings_app (before after : list DataMapping)
    (source_data target_data : gmap string (list (list value))) :
  execute_multiple_mappings (before ++ after) source_data target_data =
  execute_multiple_mappings after source_data
    (execute_multiple_mappings before source_data target_data).
Proof. unfold execute_multiple_mappings. apply fold_left_app. Qed.

(** The batch, rule by rule. *)
Lemma execute_multiple_mappings_cons (mapping : DataMapping)
    (rest : list DataMapping)
    (source_data target_data : gmap string (list (list value))) :
  execute_multiple_mappings (mapping :: rest) source_data target_data =
  execute_multiple_mappings rest source_data
    match execute_mapping mapping source_data target_data with
    | Ok updated => updated
    | Raise _ => target_data
    end.
Proof. reflexivity. Qed.

(** C7.  The rules run in list order, each on the tables the rules before
    it left.  A rule that raises on those tables is skipped: the rules after
    it run on the very tables the rules before it left, the batch gives what
    it gives without the failing rule, and nothing is raised (the batch is a
    total function to tables). *)
Theorem failing_rule_is_skipped (before after : list DataMapping)
    (bad : DataMapping)
    (source_data target_data : gmap string (list (list value))) (e : exn) :
  execute_mapping bad source_data
    (execute_multiple_mappings before source_data target_data) = Raise e ->
  (forall (mapping : DataMapping) (rest : list DataMapping)
          (current : gmap string (list (list value))),
     execute_multiple_mappings (mapping :: rest) source_data current =
     execute_multiple_mappings rest source_data
       match execute_mapping mapping source_data current with
       | Ok updated => updated
       | Raise _ => current
       end) /\
  execute_multiple_mappings (before ++ [bad]) source_data target_data =
    execute_multiple_mappings before source_data target_data /\
  execute_multiple_mappings (before ++ bad :: after) source_data target_data =
    execute_multiple_mappings after source_data
      (execute_multiple_mappings before source_data target_data) /\
  execute_multiple_mappings (before ++ bad :: after) source_data target_data =
    execute_multiple_mappings (before ++ after) source_data target_data.
Proof.
  intros Hraise.
  split; [intros mapping rest current; apply execute_multiple_mappings_cons |].
  assert (Hone : execute_multiple_mappings (before ++ [bad]) source_data target_data =
                 execute_multiple_mappings before source_data target_data).
  { rewrite execute_multiple_mappings_app.
    unfold execute_multiple_mappings at 1. cbn [fold_left].
    now rewrite Hraise. }
  split; [assumption |].
  replace (before ++ bad :: after) with ((before ++ [bad]) ++ after)
    by now rewrite <- app_assoc.
  rewrite (execute_multiple_mappings_app (before ++ [bad])), Hone.
  split; [reflexivity |]. now rewrite execute_multiple_mappings_app.
Qed.

(** The end-to-end example of the specification: B EQUALS "202 main" gives
    the values [[20, 30]] of C, A EQUALS "202 main" the rows [[1, 2]], and D
    becomes [[NaN, 20, 30]]. *)
Theorem end_to_end_example :
  _extract_source_values (Examples.rule EQUALS "202 main" "202 main" true)
    Examples.source_data = Ok [VInt 20; VInt 30] /\
  _find_target_positions (Examples.rule EQUALS "202 main" "202 main" true)
    (Examples.target_data [NaN; NaN; NaN]) = Ok [1; 2] /\
  execute_mapping (Examples.rule EQUALS "202 main" "202 main" true)
    Examples.source_data (Examples.target_data [NaN; NaN; NaN]) =
  Ok (Examples.target_data [NaN; VInt 20; VInt 30]).
Proof. repeat split; vm_compute; reflexivity. Qed.

End Rules.

(** [validate_mapping] on a rule whose source key is not in the table set
    reports it first. *)
Theorem validate_reports_missing_source (mapping : DataMapping)
    (source_data target_data : gmap string (list (list Pandas.value))) :
  source_data !! source_file mapping = None ->
  exists rest : list DataMappingEngine.problem,
    DataMappingEngine.validate_mapping mapping source_data target_data =
    DataMappingEngine.SourceFileMissing :: rest.
Proof.
  intros Hmissing. unfold DataMappingEngine.validate_mapping.
  rewrite Hmissing. cbn. eauto.
Qed.

(** ** The positions the locate phase hands over *)

Section Positions.
Import Py Pandas DataMappingEngine Spec.

Lemma index_smap {A C : Type} (f : A -> C) (s : list (Z * A)) :
  index (smap f s) = index s.
Proof.
  unfold index, smap. rewrite map_map. apply map_ext. now intros [l x].
Qed.

Lemma index_mask_or (a b : list (Z * bool)) :
  length a = length b -> index (mask_or a b) = index a.
Proof.
  unfold index, mask_or. revert b.
  induction a as [| p a IH]; intros [| q b] Hlen; try discriminate; [reflexivity |].
  cbn. f_equal. apply IH. now injection Hlen.
Qed.

Lemma length_mask_or (a b : list (Z * bool)) :
  length a = length b -> length (mask_or a b) = length a.
Proof.
  unfold mask_or. revert b.
  induction a as [| p a IH]; intros [| q b] Hlen; try discriminate; [reflexivity |].
  cbn. f_equal. apply IH. now injection Hlen.
Qed.

Lemma index_of_list {A : Type} (xs : list A) :
  index (of_list xs) = Z.of_nat <$> seq 0 (length xs).
Proof.
  unfold index, of_list.
  assert (Hgen : forall (k : nat) (ys : list A),
             map fst (imap (fun i x => (Z.of_nat (k + i), x)) ys) =
             Z.of_nat <$> seq k (length ys)).
  { intros k ys. revert k. induction ys as [| y ys IH]; intros k; [reflexivity |].
    cbn. rewrite Nat.add_0_r. f_equal.
    rewrite <- IH. f_equal. apply imap_ext. intros i x _. cbn. f_equal. f_equal. lia. }
  apply (Hgen 0%nat).
Qed.

Lemma rows_below_seq (n : nat) (labels : list Z) :
  labels = Z.of_nat <$> seq 0 n ->
  NoDup labels /\ (forall l : Z, l ∈ labels -> 0 <= l < Z.of_nat n).
Proof.
  intros ->. split.
  - apply (NoDup_fmap_2 Z.of_nat). apply NoDup_seq.
  - intros l Hl. apply list_elem_of_fmap in Hl as (k & -> & Hk).
    apply elem_of_seq in Hk. lia.
Qed.

Lemma rows_below_of_list {A : Type} (xs : list A) :
  rows_below (length xs) (of_list xs).
Proof.
  apply rows_below_seq, index_of_list.
Qed.

Lemma rows_below_sublist {A : Type} (n : nat) (s s' : list (Z * A)) :
  sublist s' s -> rows_below n s -> rows_below n s'.
Proof.
  intros Hsub [Hnodup Hrange].
  assert (Hidx : sublist (index s') (index s)) by now apply (fmap_sublist fst).
  split.
  - eapply sublist_NoDup; eauto.
  - intros l Hl. apply Hrange. eapply elem_of_sublist; eauto.
Qed.

Lemma rows_below_row_window {A : Type} (n : nat) (rng : option (Z * Z))
    (s : list (Z * A)) :
  rows_below n s -> rows_below n (row_window rng s).
Proof.
  intros Hs. destruct rng as [[start end_] |]; [| exact Hs].
  apply (rows_below_sublist n s); [| exact Hs].
  unfold row_window, iloc_slice.
  etransitivity; [apply sublist_take | apply sublist_drop].
Qed.

Lemma rows_below_same_index {A C : Type} (n : nat) (s : list (Z * A))
    (s' : list (Z * C)) :
  index s' = index s -> rows_below n s -> rows_below n s'.
Proof. unfold rows_below. now intros ->. Qed.

Lemma rows_below_mono {A : Type} (n n' : nat) (s : list (Z * A)) :
  (n <= n')%nat -> rows_below n s -> rows_below n' s.
Proof.
  intros Hle [Hnodup Hrange]. split; [assumption |].
  intros l Hl. specialize (Hrange l Hl). lia.
Qed.

Lemma rows_below_length {A : Type} (n : nat) (s : list (Z * A)) :
  rows_below n s -> (length s <= n)%nat.
Proof.
  intros [Hnodup Hrange].
  assert (Hsub : forall l : Z, l ∈ index s -> l ∈ Z.of_nat <$> seq 0 n).
  { intros l Hl. apply list_elem_of_fmap. exists (Z.to_nat l).
    specialize (Hrange l Hl). split; [lia |]. apply elem_of_seq. lia. }
  pose proof (submseteq_length _ _ (NoDup_submseteq _ _ Hnodup Hsub)) as Hlen.
  unfold index in Hlen. rewrite length_map, length_fmap, length_seq in Hlen.
  exact Hlen.
Qed.

Section WithBuiltins.
Context {B : Builtins}.

Lemma converted_matches_index (column : list (Z * value)) (v : value)
    (m : list (Z * bool)) :
  m ∈ type_converted_matches column v ->
  index m = index column /\ length m = length column.
Proof.
  unfold type_converted_matches, eq_scalar, astype_str.
  assert (Hsmap : forall (C D : Type) (f : C -> D) (s : list (Z * C)),
             index (smap f s) = index s /\ length (smap f s) = length s).
  { intros C D f s. split; [apply index_smap | unfold smap; apply length_map]. }
  destruct v as [| b | z | f | s]; intros Hm.
  - now apply elem_of_nil in Hm.
  - apply list_elem_of_singleton in Hm as ->.
    destruct (Hsmap _ _ (fun x => eq_cell x (VStr (str (VBool b))))
                (smap (fun x => VStr (str x)) column)) as [-> ->].
    apply Hsmap.
  - apply list_elem_of_singleton in Hm as ->.
    destruct (Hsmap _ _ (fun x => eq_cell x (VStr (str (VInt z))))
                (smap (fun x => VStr (str x)) column)) as [-> ->].
    apply Hsmap.
  - apply list_elem_of_singleton in Hm as ->.
    destruct (Hsmap _ _ (fun x => eq_cell x (VStr (str (VFloat f))))
                (smap (fun x => VStr (str x)) column)) as [-> ->].
    apply Hsmap.
  - apply elem_of_app in Hm as [Hm | Hm].
    + destruct (Py.int s); [| now apply elem_of_nil in Hm].
      apply list_elem_of_singleton in Hm as ->. apply Hsmap.
    + destruct (float_of_str s); [| now apply elem_of_nil in Hm].
      apply list_elem_of_singleton in Hm as ->. apply Hsmap.
Qed.

Lemma fold_mask_or_index (column : list (Z * value)) (ms : list (list (Z * bool))) :
  forall acc : list (Z * bool),
    index acc = index column -> length acc = length column ->
    (forall m, m ∈ ms -> index m = index column /\ length m = length column) ->
    index (fold_left mask_or ms acc) = index column.
Proof.
  induction ms as [| m ms IH]; intros acc Hidx Hlen Hall; [exact Hidx |].
  cbn. destruct (Hall m ltac:(left)) as [Hm Hlm].
  apply IH.
  - rewrite index_mask_or by congruence. exact Hidx.
  - rewrite length_mask_or by congruence. exact Hlen.
  - intros m' Hm'. apply Hall. now right.
Qed.

(** [pd.to_numeric], when it returns, answers on the labels of the column,
    cell by cell. *)
Lemma to_numeric_index (column : list (Z * value)) :
  forall numbers : list (Z * spec_float),
    to_numeric column = Ok numbers -> index numbers = index column.
Proof.
  induction column as [| [l x] column IH]; intros numbers Hnum; cbn in Hnum.
  - now injection Hnum as <-.
  - destruct (to_numeric_cell x) as [f | e]; cbn in Hnum; [| discriminate].
    destruct (to_numeric column) as [rest | e]; cbn in Hnum; [| discriminate].
    injection Hnum as <-. cbn. f_equal. now apply IH.
Qed.

Lemma to_numeric_lookup (column : list (Z * value)) :
  forall (numbers : list (Z * spec_float)) (i : nat) (l : Z) (x : value),
    to_numeric column = Ok numbers ->
    column !! i = Some (l, x) ->
    exists f : spec_float, to_numeric_cell x = Ok f /\ numbers !! i = Some (l, f).
Proof.
  induction column as [| [l0 x0] column IH]; intros numbers i l x Hnum Hi;
    [discriminate Hi |].
  cbn in Hnum.
  destruct (to_numeric_cell x0) as [f0 | e] eqn:Hcell; cbn in Hnum; [| discriminate].
  destruct (to_numeric column) as [rest | e]; cbn in Hnum; [| discriminate].
  injection Hnum as <-.
  destruct i as [| i]; cbn in Hi.
  - injection Hi as <- <-. now exists f0.
  - now apply (IH rest i l x).
Qed.

(** A mask has the labels of its column, or, after the fallback, the labels
    0, 1, ... of a new Series of the same length. *)
Lemma apply_match_operator_index (column : list (Z * value)) (v : value)
    (operator : FilterOperator) :
  index (_apply_match_operator column v operator) = index column \/
  index (_apply_match_operator column v operator) =
    Z.of_nat <$> seq 0 (length column).
Proof.
  unfold _apply_match_operator.
  destruct (match_operator_body column v operator) as [mask | e] eqn:Hbody.
  2:{ right. rewrite index_of_list. now rewrite length_replicate. }
  left. destruct operator; cbn in Hbody.
  - destruct (negb (any (eq_scalar column v))).
    + destruct (type_converted_matches column v) as [| m ms] eqn:Hms.
      * injection Hbody as <-. apply index_smap.
      * injection Hbody as <-.
        change (index (fold_left mask_or (m :: ms) (eq_scalar column v)) =
                index column).
        apply fold_mask_or_index.
        -- apply index_smap.
        -- unfold eq_scalar, smap. apply length_map.
        -- intros m' Hm'. apply (converted_matches_index column v). now rewrite Hms.
    + injection Hbody as <-. apply index_smap.
  - injection Hbody as <-. apply index_smap.
  - destruct (to_numeric column) as [numbers |] eqn:Hnum; cbn in Hbody;
      [| discriminate].
    destruct (float v); cbn in Hbody; [| discriminate].
    injection Hbody as <-. rewrite index_smap. now apply to_numeric_index.
  - destruct (to_numeric column) as [numbers |] eqn:Hnum; cbn in Hbody;
      [| discriminate].
    destruct (float v); cbn in Hbody; [| discriminate].
    injection Hbody as <-. rewrite index_smap. now apply to_numeric_index.
  - destruct (to_numeric column) as [numbers |] eqn:Hnum; cbn in Hbody;
      [| discriminate].
    destruct (float v); cbn in Hbody; [| discriminate].
    injection Hbody as <-. rewrite index_smap. now apply to_numeric_index.
  - destruct (to_numeric column) as [numbers |] eqn:Hnum; cbn in Hbody;
      [| discriminate].
    destruct (float v); cbn in Hbody; [| discriminate].
    injection Hbody as <-. rewrite index_smap. now apply to_numeric_index.
  - destruct (re_compile (str v)); [| discriminate].
    injection Hbody as <-. apply index_smap.
  - destruct (re_compile (str v)); [| discriminate].
    injection Hbody as <-. unfold mask_not. now rewrite !index_smap.
  - injection Hbody as <-. apply index_smap.
  - injection Hbody as <-. apply index_smap.
  - injection Hbody as <-. apply index_smap.
  - injection Hbody as <-. unfold mask_not. now rewrite !index_smap.
Qed.

Lemma rows_below_mask (n : nat) (column : list (Z * value)) (v : value)
    (operator : FilterOperator) :
  rows_below n column -> rows_below n (_apply_match_operator column v operator).
Proof.
  intros Hcol.
  destruct (apply_match_operator_index column v operator) as [Hidx | Hidx].
  - now apply (rows_below_same_index n column).
  - apply (rows_below_mono (length column)); [now apply rows_below_length |].
    now apply rows_below_seq.
Qed.

(** What the locate phase returns, with the table and the column it read. *)
Lemma positions_are_rows (mapping : DataMapping)
    (target_data : gmap string (list (list value))) (ps : list Z) :
  _find_target_positions mapping target_data = Ok ps ->
  exists (df : list (list value)) (idx : Z) (k : nat) (match_column : list value),
    target_data !! target_file mapping = Some df /\
    _get_column_index (target_match_coordinate mapping) df = Ok idx /\
    selects df idx k match_column /\
    NoDup ps /\
    (forall p : Z, p ∈ ps -> 0 <= p < Z.of_nat (length match_column)).
Proof.
  unfold _find_target_positions. intros Hfind.
  destruct (target_data !! target_file mapping) as [df |] eqn:Hfile;
    [| discriminate].
  destruct (_get_column_index (target_match_coordinate mapping) df)
    as [idx | e] eqn:Hindex; [| discriminate].
  cbn in Hfind.
  destruct (ncols df <=? idx); [discriminate |].
  unfold iloc_col in Hfind.
  destruct (norm_index (length df) idx) as [k |] eqn:Hnorm; [| discriminate].
  destruct (df !! k) as [match_column |] eqn:Hk; [| discriminate].
  cbn in Hfind.
  destruct (getattr (target_match_row_range mapping)) as [rng | e]; [| discriminate].
  cbn in Hfind. injection Hfind as <-.
  exists df, idx, k, match_column.
  split; [reflexivity | split; [assumption | split; [now split |]]].
  pose proof (rows_below_mask (length match_column)
                (row_window rng (of_list match_column))
                (target_match_value mapping) (match_operator mapping)
                (rows_below_row_window _ rng _ (rows_below_of_list match_column)))
    as [Hnodup Hrange].
  set (mask := _apply_match_operator _ _ _) in *.
  assert (Hsub : sublist (true_labels mask) (index mask)).
  { unfold true_labels, index. apply (fmap_sublist fst). apply sublist_filter. }
  split.
  - eapply sublist_NoDup; eauto.
  - intros p Hp. apply Hrange. eapply elem_of_sublist; eauto.
Qed.

(** The positions [_find_target_positions] returns are distinct rows of the
    match column: what the insert phase is given meets the conditions of its
    properties. *)
Theorem find_target_positions_rows (mapping : DataMapping)
    (target_data : gmap string (list (list value))) (ps : list Z) :
  _find_target_positions mapping target_data = Ok ps ->
  exists (df : list (list value)) (idx : Z) (k : nat) (match_column : list value),
    target_data !! target_file mapping = Some df /\
    _get_column_index (target_match_coordinate mapping) df = Ok idx /\
    selects df idx k match_column /\
    NoDup ps /\
    (forall p : Z, p ∈ ps -> 0 <= p < Z.of_nat (length match_column)).
Proof.
  exact (positions_are_rows mapping target_data ps).
Qed.

(** A whole rule on a rectangular target table: when values are extracted
    and positions located, and the insert coordinate selects a column, the
    rule returns the target tables with that column rewritten: at the [n]-th
    located row the [n]-th value (the last one past the end) where the rule
    overwrites or the cell is missing, every other cell as it was. *)
Theorem execute_mapping_writes (mapping : DataMapping)
    (source_data target_data : gmap string (list (list value)))
    (source_values : list value) (ps : list Z)
    (df : list (list value)) (j : Z) (k : nat) (column : list value) :
  _extract_source_values mapping source_data = Ok source_values ->
  source_values <> [] ->
  _find_target_positions mapping target_data = Ok ps ->
  ps <> [] ->
  target_data !! target_file mapping = Some df ->
  _get_column_index (target_insert_coordinate mapping) df = Ok j ->
  j < ncols df ->
  selects df j k column ->
  (forall c : list value, c ∈ df -> length c = length column) ->
  exists column' : list value,
    execute_mapping mapping source_data target_data =
      Ok (<[target_file mapping := <[k := column']> df]> target_data) /\
    length column' = length column /\
    (forall r : nat, Z.of_nat r ∉ ps -> column' !! r = column !! r) /\
    (forall (n : nat) (p : Z),
       ps !! n = Some p ->
       exists new old : value,
         pick source_values n = Some new /\
         column !! Z.to_nat p = Some old /\
         column' !! Z.to_nat p =
           Some (if overwrite_existing mapping || isna old then new else old)).
Proof.
  intros Hextract Hvs Hfind Hps Hfile Hindex Hbound Hsel Hrect.
  destruct (positions_are_rows mapping target_data ps Hfind)
    as (df' & idx & k' & match_column & Hfile' & _ & [_ Hk'] & Hnodup & Hrange).
  assert (df' = df) as -> by congruence.
  assert (Hlen : length match_column = length column).
  { apply Hrect. eapply list_elem_of_lookup_2; eauto. }
  rewrite Hlen in Hrange.
  destruct (insert_values_spec mapping target_data df j k column source_values ps
              Hfile Hindex Hbound Hsel Hvs Hnodup Hrange)
    as (column' & Hvalues & _ & Hlen' & Hframe & Hwritten).
  exists column'. split; [| auto].
  unfold execute_mapping. rewrite Hextract. cbn.
  destruct source_values as [| v vs]; [contradiction |].
  rewrite Hfind. cbn.
  destruct ps as [| p ps]; [contradiction |].
  exact Hvalues.
Qed.

End WithBuiltins.

End Positions.
(** ** Negative column indices *)

Section NegativeIndex.
Import Py Pandas DataMappingEngine Spec.

Lemma norm_index_last (n : nat) :
  (0 < n)%nat -> norm_index n (-1) = norm_index n (Z.of_nat n - 1).
Proof.
  intros Hn. unfold norm_index.
  replace (0 <=? Z.of_nat n - 1) with true by (symmetry; apply Z.leb_le; lia).
  replace (Z.of_nat n - 1 <? Z.of_nat n) with true by (symmetry; apply Z.ltb_lt; lia).
  replace (- Z.of_nat n <=? -1) with true by (symmetry; apply Z.leb_le; lia).
  reflexivity.
Qed.

Lemma same_column_norm_index (n : nat) (i i' : Z) :
  (0 < n)%nat -> same_column n i i' -> norm_index n i = norm_index n i'.
Proof.
  intros Hn [-> | [-> ->]]; [reflexivity | now apply norm_index_last].
Qed.

Lemma same_column_bound (n : nat) (i i' : Z) :
  (0 < n)%nat -> same_column n i i' ->
  (Z.of_nat n <=? i) = (Z.of_nat n <=? i').
Proof.
  intros Hn [-> | [-> ->]]; [reflexivity |].
  destruct (Z.leb_spec (Z.of_nat n) (-1)), (Z.leb_spec (Z.of_nat n) (Z.of_nat n - 1));
    lia || reflexivity.
Qed.

Lemma same_column_iloc_col (df : list (list value)) (i i' : Z) :
  (0 < length df)%nat -> same_column (length df) i i' ->
  iloc_col df i = iloc_col df i'.
Proof.
  intros Hn Hsame. unfold iloc_col.
  now rewrite (same_column_norm_index _ _ _ Hn Hsame).
Qed.

Lemma same_column_iloc_get (df : list (list value)) (pos i i' : Z) :
  (0 < length df)%nat -> same_column (length df) i i' ->
  iloc_get df pos i = iloc_get df pos i'.
Proof.
  intros Hn Hsame. unfold iloc_get.
  now rewrite (same_column_norm_index _ _ _ Hn Hsame).
Qed.

Lemma same_column_iloc_set (df : list (list value)) (pos i i' : Z) (x : value) :
  (0 < length df)%nat -> same_column (length df) i i' ->
  iloc_set df pos i x = iloc_set df pos i' x.
Proof.
  intros Hn Hsame. unfold iloc_set.
  now rewrite (same_column_norm_index _ _ _ Hn Hsame).
Qed.

Lemma iloc_set_length (df df' : list (list value)) (pos j : Z) (x : value) :
  iloc_set df pos j x = Ok df' -> length df' = length df.
Proof.
  unfold iloc_set.
  destruct (norm_index (length df) j) as [k |]; [| discriminate].
  destruct (df !! k) as [col |]; [| discriminate].
  destruct (norm_index (length col) pos) as [r |]; [| discriminate].
  intros [= <-]. apply length_insert.
Qed.

Lemma insert_at_length (overwrite : bool) (j : Z) (new_value : value)
    (st st' : list (list value) * Z) (pos : Z) :
  insert_at overwrite j new_value st pos = Ok st' -> length st'.1 = length st.1.
Proof.
  unfold insert_at.
  destruct (iloc_get st.1 pos j) as [old |]; [| discriminate]. cbn.
  destruct (overwrite || isna old).
  - destruct (iloc_set st.1 pos j new_value) as [df' |] eqn:Hset; [| discriminate].
    cbn. intros [= <-]. cbn. eapply iloc_set_length; eauto.
  - now intros [= <-].
Qed.

Lemma insert_step_length (overwrite : bool) (j : Z) (source_values : list value)
    (st st' : list (list value) * Z) (i : nat) (pos : Z) :
  insert_step overwrite j source_values st i pos = Ok st' ->
  length st'.1 = length st.1.
Proof.
  unfold insert_step.
  destruct (source_values !! i); [apply insert_at_length |].
  destruct (last source_values); [apply insert_at_length |].
  now intros [= <-].
Qed.

Lemma same_column_insert_at (overwrite : bool) (i i' : Z) (new_value : value)
    (st : list (list value) * Z) (pos : Z) :
  (0 < length st.1)%nat -> same_column (length st.1) i i' ->
  insert_at overwrite i new_value st pos = insert_at overwrite i' new_value st pos.
Proof.
  intros Hn Hsame. unfold insert_at.
  rewrite (same_column_iloc_get _ pos _ _ Hn Hsame).
  now rewrite (same_column_iloc_set _ pos _ _ new_value Hn Hsame).
Qed.

Lemma same_column_insert_step (overwrite : bool) (i i' : Z)
    (source_values : list value) (st : list (list value) * Z) (n : nat) (pos : Z) :
  (0 < length st.1)%nat -> same_column (length st.1) i i' ->
  insert_step overwrite i source_values st n pos =
  insert_step overwrite i' source_values st n pos.
Proof.
  intros Hn Hsame. unfold insert_step.
  destruct (source_values !! n); [now apply same_column_insert_at |].
  destruct (last source_values); [now apply same_column_insert_at | reflexivity].
Qed.

Lemma same_column_insert_loop (overwrite : bool) (i i' : Z)
    (source_values : list value) (ps : list Z) :
  forall (n : nat) (st : list (list value) * Z),
    (0 < length st.1)%nat -> same_column (length st.1) i i' ->
    insert_loop overwrite i source_values n ps st =
    insert_loop overwrite i' source_values n ps st.
Proof.
  induction ps as [| pos ps IH]; intros n st Hn Hsame; [reflexivity |].
  cbn [insert_loop].
  rewrite (same_column_insert_step _ _ _ _ _ _ pos Hn Hsame).
  destruct (insert_step overwrite i' source_values st n pos) as [st' | e] eqn:Hstep;
    [| reflexivity].
  cbn. apply insert_step_length in Hstep.
  apply IH; rewrite Hstep; assumption.
Qed.

Lemma get_column_index_resolve (df df' : list (list value)) (c : ExcelCoordinate.t) :
  (0 < length df)%nat ->
  match _get_column_index c df', _get_column_index (resolve df c) df' with
  | Ok i, Ok i' => same_column (length df) i i'
  | Raise e, Raise e' => e = e'
  | _, _ => False
  end.
Proof.
  intros Hn. unfold resolve, _get_column_index.
  destruct c as [col rw ecol erw kind]. cbn.
  destruct col as [| ch col]; cbn.
  - destruct kind; try reflexivity; right; (split; [reflexivity |]);
      unfold ncols; apply column_to_index_of_index_to_column; lia.
  - destruct kind; try reflexivity; now left.
Qed.

(** The four readings of a coordinate, resolved or not, agree. *)
Ltac resolve_index c df Hn i i' H :=
  pose proof (get_column_index_resolve df df c Hn) as H;
  destruct (_get_column_index c df) as [i | ?],
           (_get_column_index (resolve df c) df) as [i' | ?];
  try contradiction; try (subst; reflexivity); cbn.

Section WithBuiltins.
Context {B : Builtins}.

Lemma extract_source_values_resolved (m : DataMapping)
    (source_data : gmap string (list (list value))) (sdf : list (list value))
    (target_match target_insert : ExcelCoordinate.t) :
  source_data !! source_file m = Some sdf ->
  (0 < length sdf)%nat ->
  _extract_source_values m source_data =
  _extract_source_values
    (with_coordinates m (resolve sdf (source_match_coordinate m))
       (resolve sdf (source_value_coordinate m)) target_match target_insert)
    source_data.
Proof.
  intros Hfile Hn. unfold _extract_source_values. cbn. rewrite Hfile.
  resolve_index (source_match_coordinate m) sdf Hn i1 i1' Hmatch.
  resolve_index (source_value_coordinate m) sdf Hn i2 i2' Hvalue.
  unfold ncols.
  rewrite (same_column_bound _ _ _ Hn Hmatch), (same_column_bound _ _ _ Hn Hvalue).
  rewrite (same_column_iloc_col _ _ _ Hn Hmatch), (same_column_iloc_col _ _ _ Hn Hvalue).
  reflexivity.
Qed.

Lemma find_target_positions_resolved (m : DataMapping)
    (target_data : gmap string (list (list value))) (tdf : list (list value))
    (source_match source_value target_insert : ExcelCoordinate.t) :
  target_data !! target_file m = Some tdf ->
  (0 < length tdf)%nat ->
  _find_target_positions m target_data =
  _find_target_positions
    (with_coordinates m source_match source_value
       (resolve tdf (target_match_coordinate m)) target_insert)
    target_data.
Proof.
  intros Hfile Hn. unfold _find_target_positions. cbn. rewrite Hfile.
  resolve_index (target_match_coordinate m) tdf Hn i i' Hres.
  unfold ncols.
  rewrite (same_column_bound _ _ _ Hn Hres), (same_column_iloc_col _ _ _ Hn Hres).
  reflexivity.
Qed.

End WithBuiltins.

Lemma no_position_report_resolved (m : DataMapping)
    (target_data : gmap string (list (list value))) (tdf : list (list value))
    (source_match source_value target_insert : ExcelCoordinate.t) :
  target_data !! target_file m = Some tdf ->
  (0 < length tdf)%nat ->
  no_position_report m target_data =
  no_position_report
    (with_coordinates m source_match source_value
       (resolve tdf (target_match_coordinate m)) target_insert)
    target_data.
Proof.
  intros Hfile Hn. unfold no_position_report. cbn. rewrite Hfile.
  resolve_index (target_match_coordinate m) tdf Hn i i' Hres.
  unfold ncols.
  assert (Hlt : (i <? Z.of_nat (length tdf)) = (i' <? Z.of_nat (length tdf))).
  { rewrite !Z.ltb_antisym. f_equal. now apply same_column_bound. }
  rewrite Hlt, (same_column_iloc_col _ _ _ Hn Hres). reflexivity.
Qed.

Lemma insert_values_resolved (m : DataMapping)
    (target_data : gmap string (list (list value))) (tdf : list (list value))
    (source_match source_value target_match : ExcelCoordinate.t)
    (source_values : list value) (ps : list Z) :
  target_data !! target_file m = Some tdf ->
  (0 < length tdf)%nat ->
  _insert_values m target_data source_values ps =
  _insert_values
    (with_coordinates m source_match source_value target_match
       (resolve tdf (target_insert_coordinate m)))
    target_data source_values ps.
Proof.
  intros Hfile Hn. unfold _insert_values. cbn. rewrite Hfile.
  resolve_index (target_insert_coordinate m) tdf Hn i i' Hres.
  unfold ncols.
  rewrite (same_column_bound _ _ _ Hn Hres), (same_column_iloc_col _ _ _ Hn Hres).
  now rewrite (same_column_insert_loop _ i i' _ _ _ (tdf, 0) Hn Hres).
Qed.

Section WithBuiltins.
Context {B : Builtins}.

(** A rule runs as the rule does whose empty column strings name the last
    column of its source table and of its target table. *)
Lemma execute_mapping_resolved (m : DataMapping)
    (source_data target_data : gmap string (list (list value)))
    (sdf tdf : list (list value)) :
  source_data !! source_file m = Some sdf ->
  target_data !! target_file m = Some tdf ->
  (0 < length sdf)%nat ->
  (0 < length tdf)%nat ->
  execute_mapping m source_data target_data =
  execute_mapping (resolved sdf tdf m) source_data target_data.
Proof.
  intros Hsrc Htgt Hns Hnt. unfold execute_mapping, resolved.
  rewrite <- (extract_source_values_resolved m source_data sdf _ _ Hsrc Hns).
  destruct (_extract_source_values m source_data) as [[| v vs] | e]; cbn;
    try reflexivity.
  rewrite <- (find_target_positions_resolved m target_data tdf _ _ _ Htgt Hnt).
  destruct (_find_target_positions m target_data) as [[| p ps] | e]; cbn;
    try reflexivity.
  - now rewrite <- (no_position_report_resolved m target_data tdf _ _ _ Htgt Hnt).
  - apply (insert_values_resolved m target_data tdf _ _ _ _ _ Htgt Hnt).
Qed.

End WithBuiltins.

Lemma check_columns_no_column (c1 c2 : ExcelCoordinate.t) (df : list (list value))
    (p1 p2 config : problem) :
  names_no_column c1 -> names_no_column c2 ->
  check_columns c1 c2 df p1 p2 config = [].
Proof.
  intros [Hc1 Hk1] [Hc2 Hk2]. unfold check_columns, _get_column_index.
  rewrite Hc1, Hc2.
  change (ExcelCoordinate.column_to_index EmptyString) with (-1).
  assert (Hpass : (ncols df <=? -1) = false) by (unfold ncols; apply Z.leb_gt; lia).
  destruct Hk1 as [-> | ->], Hk2 as [-> | ->]; cbn; now rewrite Hpass.
Qed.

Lemma check_columns_resolved (c1 c2 : ExcelCoordinate.t) (df : list (list value))
    (p1 p2 config : problem) :
  (0 < length df)%nat ->
  check_columns c1 c2 df p1 p2 config =
  check_columns (resolve df c1) (resolve df c2) df p1 p2 config.
Proof.
  intros Hn. unfold check_columns.
  resolve_index c1 df Hn i1 i1' H1.
  resolve_index c2 df Hn i2 i2' H2.
  unfold ncols.
  now rewrite (same_column_bound _ _ _ Hn H1), (same_column_bound _ _ _ Hn H2).
Qed.

Lemma get_column_index_no_column (c : ExcelCoordinate.t) (df : list (list value)) :
  names_no_column c -> _get_column_index c df = Ok (-1).
Proof.
  intros [Hcol Hkind]. unfold _get_column_index. rewrite Hcol.
  now destruct Hkind as [-> | ->].
Qed.

(** Index [-1] selects the last column. *)
Lemma selects_last (df : list (list value)) (column : list value) :
  last df = Some column -> selects df (-1) (Nat.pred (length df)) column.
Proof.
  intros Hlast. rewrite last_lookup in Hlast.
  assert (Hn : (0 < length df)%nat) by (destruct df; [discriminate | cbn; lia]).
  split; [| assumption].
  rewrite (norm_index_last _ Hn), norm_index_in_range by lia.
  f_equal. lia.
Qed.

Section WithBuiltins.
Context {B : Builtins}.

(** The extraction phase on two columns that pass the bounds check. *)
Lemma extract_source_values_columns (m : DataMapping)
    (source_data : gmap string (list (list value))) (df : list (list value))
    (i1 i2 : Z) (k1 k2 : nat) (match_column value_column : list value) :
  source_data !! source_file m = Some df ->
  _get_column_index (source_match_coordinate m) df = Ok i1 ->
  _get_column_index (source_value_coordinate m) df = Ok i2 ->
  i1 < ncols df -> i2 < ncols df ->
  selects df i1 k1 match_column ->
  selects df i2 k2 value_column ->
  _extract_source_values m source_data =
    (rng ← getattr (source_match_row_range m);
     selected ← getitem_mask (row_window rng (of_list value_column))
                  (_apply_match_operator (row_window rng (of_list match_column))
                     (source_match_value m) (match_operator m));
     Ok (dropna_tolist selected)).
Proof.
  intros Hfile Hi1 Hi2 Hlt1 Hlt2 Hsel1 Hsel2.
  unfold _extract_source_values. rewrite Hfile, Hi1, Hi2.
  cbn [mbind result_bind Py.bind].
  replace (ncols df <=? i1) with false by (symmetry; apply Z.leb_gt; lia).
  replace (ncols df <=? i2) with false by (symmetry; apply Z.leb_gt; lia).
  cbn [orb].
  rewrite (selects_iloc_col _ _ _ _ Hsel1), (selects_iloc_col _ _ _ _ Hsel2).
  reflexivity.
Qed.

(** The location phase on a column that passes the bounds check. *)
Lemma find_target_positions_column (m : DataMapping)
    (target_data : gmap string (list (list value))) (df : list (list value))
    (i : Z) (k : nat) (match_column : list value) :
  target_data !! target_file m = Some df ->
  _get_column_index (target_match_coordinate m) df = Ok i ->
  i < ncols df ->
  selects df i k match_column ->
  _find_target_positions m target_data =
    (rng ← getattr (target_match_row_range m);
     Ok (true_labels
           (_apply_match_operator (row_window rng (of_list match_column))
              (target_match_value m) (match_operator m)))).
Proof.
  intros Hfile Hi Hlt Hsel.
  unfold _find_target_positions. rewrite Hfile, Hi.
  cbn [mbind result_bind Py.bind].
  replace (ncols df <=? i) with false by (symmetry; apply Z.leb_gt; lia).
  rewrite (selects_iloc_col _ _ _ _ Hsel).
  reflexivity.
Qed.

End WithBuiltins.

(** C10.  The bounds checks compare an index with the column count from
    above only, so no negative index is rejected.  A coordinate of kind
    [column] or [single] with the empty column string resolves to index
    [-1]; [validate_mapping] reports nothing for a rule made of such
    coordinates, and answers for any rule as for the rule that names the
    last columns; the checks of the three phases let [-1] through; and
    [iloc] then reads and writes the last column of the table.  With
    [source_last] and [target_last] the last columns of the two tables:
    [_extract_source_values] takes its values from [source_last] when the
    value coordinate names no column, and its mask from [source_last] when
    the match coordinate names none; [_find_target_positions] looks for its
    rows in [target_last]; [_insert_values] writes into [target_last], cell
    by cell under the overwrite policy, and returns the table with that
    column replaced.  The rule runs exactly as the rule that names the last
    column; on the example tables, the rule with an empty value column and
    an empty insert column copies 20 and 30 from column C into column D. *)
Theorem empty_column_addresses_last_column (c : ExcelCoordinate.t)
    (m : DataMapping) (source_data target_data : gmap string (list (list value)))
    (sdf tdf : list (list value)) :
  names_no_column c ->
  source_data !! source_file m = Some sdf ->
  target_data !! target_file m = Some tdf ->
  (0 < length sdf)%nat ->
  (0 < length tdf)%nat ->
  ExcelCoordinate.column_to_index (ExcelCoordinate.column c) = -1 /\
  _get_column_index c tdf = Ok (-1) /\
  (forall (df : list (list value)) (idx : Z), idx < 0 -> (ncols df <=? idx) = false) /\
  iloc_col tdf (-1) = iloc_col tdf (ncols tdf - 1) /\
  (forall last_column : list value,
     last tdf = Some last_column -> iloc_col tdf (-1) = Ok (of_list last_column)) /\
  (names_no_column (source_match_coordinate m) ->
   names_no_column (source_value_coordinate m) ->
   names_no_column (target_match_coordinate m) ->
   names_no_column (target_insert_coordinate m) ->
   validate_mapping m source_data target_data = []) /\
  (forall B : Builtins,
     execute_mapping m source_data target_data =
     execute_mapping (resolved sdf tdf m) source_data target_data) /\
  validate_mapping m source_data target_data =
    validate_mapping (resolved sdf tdf m) source_data target_data /\
  (exists source_last target_last : list value,
     last sdf = Some source_last /\
     last tdf = Some target_last /\
     (forall (B : Builtins) (i : Z) (k : nat) (match_column : list value),
        names_no_column (source_value_coordinate m) ->
        _get_column_index (source_match_coordinate m) sdf = Ok i ->
        i < ncols sdf ->
        selects sdf i k match_column ->
        _extract_source_values m source_data =
          (rng ← getattr (source_match_row_range m);
           selected ← getitem_mask (row_window rng (of_list source_last))
                        (_apply_match_operator
                           (row_window rng (of_list match_column))
                           (source_match_value m) (match_operator m));
           Ok (dropna_tolist selected))) /\
     (forall (B : Builtins) (i : Z) (k : nat) (value_column : list value),
        names_no_column (source_match_coordinate m) ->
        _get_column_index (source_value_coordinate m) sdf = Ok i ->
        i < ncols sdf ->
        selects sdf i k value_column ->
        _extract_source_values m source_data =
          (rng ← getattr (source_match_row_range m);
           selected ← getitem_mask (row_window rng (of_list value_column))
                        (_apply_match_operator
                           (row_window rng (of_list source_last))
                           (source_match_value m) (match_operator m));
           Ok (dropna_tolist selected))) /\
     (forall B : Builtins,
        names_no_column (target_match_coordinate m) ->
        _find_target_positions m target_data =
          (rng ← getattr (target_match_row_range m);
           Ok (true_labels
                 (_apply_match_operator (row_window rng (of_list target_last))
                    (target_match_value m) (match_operator m))))) /\
     (forall (source_values : list value) (ps : list Z),
        names_no_column (target_insert_coordinate m) ->
        source_values <> [] ->
        NoDup ps ->
        (forall p, p ∈ ps -> 0 <= p < Z.of_nat (length target_last)) ->
        exists column' : list value,
          _insert_values m target_data source_values ps =
            Ok (<[target_file m := <[Nat.pred (length tdf) := column']> tdf]>
                  target_data) /\
          length column' = length target_last /\
          (forall r : nat, Z.of_nat r ∉ ps -> column' !! r = target_last !! r) /\
          (forall (n : nat) (p : Z),
             ps !! n = Some p ->
             exists new old : value,
               pick source_values n = Some new /\
               target_last !! Z.to_nat p = Some old /\
               column' !! Z.to_nat p =
                 Some (if overwrite_existing m || isna old then new else old)))) /\
  (forall B : Builtins,
     _extract_source_values (Examples.rule_into_last EQUALS "202 main" true)
       Examples.source_data = Ok [VInt 20; VInt 30] /\
     _insert_values (Examples.rule_into_last EQUALS "202 main" true)
       (Examples.target_data [NaN; NaN; NaN]) [VInt 20; VInt 30] [1; 2] =
       Ok (Examples.target_data [NaN; VInt 20; VInt 30]) /\
     execute_mapping (Examples.rule_into_last EQUALS "202 main" true)
       Examples.source_data (Examples.target_data [NaN; NaN; NaN]) =
       Ok (Examples.target_data [NaN; VInt 20; VInt 30])).
Proof.
  intros [Hcol Hkind] Hsrc Htgt Hns Hnt.
  split; [now rewrite Hcol |].
  split; [unfold _get_column_index; rewrite Hcol; now destruct Hkind as [-> | ->] |].
  split; [intros df idx Hneg; unfold ncols; apply Z.leb_gt; lia |].
  split; [apply same_column_iloc_col; [assumption | now right] |].
  split.
  { intros last_column Hlast. unfold iloc_col.
    rewrite (norm_index_last _ Hnt), norm_index_in_range by lia.
    rewrite last_lookup in Hlast.
    replace (Z.to_nat (Z.of_nat (length tdf) - 1)) with (Nat.pred (length tdf)) by lia.
    now rewrite Hlast. }
  split.
  { intros H1 H2 H3 H4. unfold validate_mapping. rewrite Hsrc, Htgt.
    now rewrite !check_columns_no_column. }
  split; [intros B; now apply execute_mapping_resolved |].
  split.
  { unfold validate_mapping, resolved. cbn. rewrite Hsrc, Htgt.
    now rewrite <- !check_columns_resolved. }
  split; [| intros B; repeat split; vm_compute; reflexivity].
  destruct (proj2 (last_is_Some sdf)) as [source_last Hslast];
    [intros ->; cbn in Hns; lia |].
  destruct (proj2 (last_is_Some tdf)) as [target_last Htlast];
    [intros ->; cbn in Hnt; lia |].
  assert (Hneg_s : -1 < ncols sdf) by (unfold ncols; lia).
  assert (Hneg_t : -1 < ncols tdf) by (unfold ncols; lia).
  exists source_last, target_last.
  split; [assumption |]. split; [assumption |].
  split; [| split; [| split]].
  - intros B i k match_column Hvalue Hi Hlt Hsel.
    apply (extract_source_values_columns m source_data sdf i (-1) k
             (Nat.pred (length sdf)) match_column source_last); auto.
    + now apply get_column_index_no_column.
    + now apply selects_last.
  - intros B i k value_column Hmatch Hi Hlt Hsel.
    apply (extract_source_values_columns m source_data sdf (-1) i
             (Nat.pred (length sdf)) k source_last value_column); auto.
    + now apply get_column_index_no_column.
    + now apply selects_last.
  - intros B Hmatch.
    apply (find_target_positions_column m target_data tdf (-1)
             (Nat.pred (length tdf)) target_last); auto.
    + now apply get_column_index_no_column.
    + now apply selects_last.
  - intros source_values ps Hinsert Hvs Hnodup Hrange.
    destruct (insert_values_spec m target_data tdf (-1) (Nat.pred (length tdf))
                target_last source_values ps Htgt
                (get_column_index_no_column _ tdf Hinsert) Hneg_t
                (selects_last tdf target_last Htlast) Hvs Hnodup Hrange)
      as (column' & Hvalues & _ & Hlen & Hframe & Hwritten).
    exists column'. auto.
Qed.

End NegativeIndex.
(** ** Tables as objects *)

Section Objects.
Import Py Pandas Spec.

(** The in-place loop and the loop on values compute the same table, and
    the store changes at the object [l] only. *)
Lemma store_insert_loop (overwrite : bool) (j : Z) (source_values : list value)
    (ps : list Z) (l : positive) :
  forall (i : nat) (st : list (list value) * Z)
         (h : gmap positive (list (list value))),
    h !! l = Some st.1 ->
    let out := Store.insert_loop overwrite j source_values i ps l st h in
    out.1 = DataMappingEngine.insert_loop overwrite j source_values i ps st /\
    (forall l' : positive, l' <> l -> out.2 !! l' = h !! l') /\
    (forall st' : list (list value) * Z, out.1 = Ok st' -> out.2 !! l = Some st'.1).
Proof.
  induction ps as [| pos ps IH]; intros i st h Hl; cbn zeta.
  - cbn. split; [reflexivity | split; [reflexivity |]].
    now intros st' [= <-].
  - cbn [Store.insert_loop DataMappingEngine.insert_loop].
    destruct (DataMappingEngine.insert_step overwrite j source_values st i pos)
      as [st1 | e]; cbn.
    + destruct (IH (S i) st1 (<[l := st1.1]> h)) as (Hres & Hframe & Hat).
      { apply lookup_insert_eq. }
      split; [exact Hres | split; [| exact Hat]].
      intros l' Hne. rewrite Hframe by assumption.
      now apply lookup_insert_ne.
    + split; [reflexivity | split; [reflexivity | discriminate]].
Qed.

Lemma view_lookup (h : gmap positive (list (list value))) (d : gmap string positive)
    (key : string) :
  Store.view h d !! key = d !! key ≫= (fun l => h !! l).
Proof. unfold Store.view. apply lookup_omap. Qed.

(** A store that keeps every object of [h] shows the same tables. *)
Lemma view_frame (h h' : gmap positive (list (list value))) (d : gmap string positive) :
  Store.bound_in h d ->
  (forall l : positive, is_Some (h !! l) -> h' !! l = h !! l) ->
  Store.view h' d = Store.view h d.
Proof.
  intros Hbound Hframe. apply map_eq. intros key. rewrite !view_lookup.
  destruct (d !! key) as [l |] eqn:Hkey; [cbn | reflexivity].
  apply Hframe. eapply Hbound; eauto.
Qed.

Lemma insert_values_checks (mapping : DataMapping)
    (target_data : gmap string (list (list value))) (df : list (list value))
    (source_values : list value) (ps : list Z) :
  target_data !! target_file mapping = Some df ->
  DataMappingEngine._insert_values mapping target_data source_values ps =
  match Store.insert_column mapping df with
  | Ok j =>
      match DataMappingEngine.insert_loop (overwrite_existing mapping) j
              source_values 0 ps (df, 0) with
      | Ok st => Ok (<[target_file mapping := st.1]> target_data)
      | Raise e => Raise e
      end
  | Raise e => Raise e
  end.
Proof.
  intros Hfile. unfold DataMappingEngine._insert_values, Store.insert_column.
  rewrite Hfile.
  destruct (DataMappingEngine._get_column_index (target_insert_coordinate mapping) df)
    as [j | e]; cbn; [| reflexivity].
  destruct (ncols df <=? j); [reflexivity |].
  destruct (iloc_col df j) as [col | e]; cbn; [| reflexivity].
  destruct (DataMappingEngine.insert_loop (overwrite_existing mapping) j
              source_values 0 ps (df, 0)); reflexivity.
Qed.

(** The frame and the result of [_insert_values] on objects. *)
Lemma insert_values_on_objects (mapping : DataMapping)
    (target_data : gmap string positive) (source_values : list value)
    (ps : list Z) (h : gmap positive (list (list value))) :
  Store.bound_in h target_data ->
  let out := Store._insert_values mapping target_data source_values ps h in
  (forall l : positive, is_Some (h !! l) -> out.2 !! l = h !! l) /\
  match out.1 with
  | Ok updated =>
      DataMappingEngine._insert_values mapping (Store.view h target_data)
        source_values ps = Ok (Store.view out.2 updated) /\
      Store.bound_in out.2 updated
  | Raise e =>
      DataMappingEngine._insert_values mapping (Store.view h target_data)
        source_values ps = Raise e
  end.
Proof.
  intros Hbound. cbn zeta. unfold Store._insert_values.
  destruct (target_data !! target_file mapping ≫= (fun l => h !! l))
    as [df |] eqn:Hfile.
  2:{ cbn. split; [reflexivity |].
      unfold DataMappingEngine._insert_values.
      now rewrite view_lookup, Hfile. }
  set (l := fresh (dom h)).
  assert (Hfresh : h !! l = None).
  { apply not_elem_of_dom. apply is_fresh. }
  assert (Hold : forall l' : positive, is_Some (h !! l') -> l' <> l).
  { intros l' [x Hx] ->. congruence. }
  rewrite (insert_values_checks mapping (Store.view h target_data) df)
    by (now rewrite view_lookup).
  destruct (Store.insert_column mapping df) as [j | e]; cbn.
  2:{ split; [| reflexivity].
      intros l' Hl'. apply lookup_insert_ne. specialize (Hold l' Hl'). congruence. }
  destruct (store_insert_loop (overwrite_existing mapping) j source_values ps l
              0%nat (df, 0) (<[l := df]> h)) as (Hres & Hframe & Hat).
  { apply lookup_insert_eq. }
  destruct (Store.insert_loop (overwrite_existing mapping) j source_values 0 ps l
              (df, 0) (<[l := df]> h)) as [[st | e] h'] eqn:Hloop; cbn in *.
  - assert (Hkeep : forall l' : positive, is_Some (h !! l') -> h' !! l' = h !! l').
    { intros l' Hl'. specialize (Hold l' Hl').
      rewrite Hframe by assumption. apply lookup_insert_ne. congruence. }
    split; [exact Hkeep |].
    rewrite <- Hres. split.
    + f_equal. apply map_eq. intros key. rewrite view_lookup.
      destruct (decide (key = target_file mapping)) as [-> | Hne].
      * rewrite !lookup_insert_eq. cbn. symmetry. now apply Hat.
      * rewrite !lookup_insert_ne by congruence. rewrite view_lookup.
        destruct (target_data !! key) as [l' |] eqn:Hkey; [cbn | reflexivity].
        symmetry. apply Hkeep. eapply Hbound; eauto.
    + intros key l' Hkey.
      destruct (decide (key = target_file mapping)) as [-> | Hne].
      * rewrite lookup_insert_eq in Hkey. injection Hkey as <-.
        rewrite (Hat st eq_refl). eauto.
      * rewrite lookup_insert_ne in Hkey by congruence.
        rewrite Hkeep by (eapply Hbound; eauto). eapply Hbound; eauto.
  - split; [| now rewrite <- Hres].
    intros l' Hl'. specialize (Hold l' Hl').
    rewrite Hframe by assumption. apply lookup_insert_ne. congruence.
Qed.

(** [_insert_values] on objects: no object of the store it is given is
    changed, whether it returns or raises; and what it returns, read through
    the store it leaves, is what [_insert_values] on values returns. *)
Theorem store_insert_values (mapping : DataMapping)
    (target_data : gmap string positive) (source_values : list value)
    (ps : list Z) (h : gmap positive (list (list value))) :
  Store.bound_in h target_data ->
  let out := Store._insert_values mapping target_data source_values ps h in
  (forall l : positive, is_Some (h !! l) -> out.2 !! l = h !! l) /\
  match out.1 with
  | Ok updated =>
      DataMappingEngine._insert_values mapping (Store.view h target_data)
        source_values ps = Ok (Store.view out.2 updated) /\
      Store.bound_in out.2 updated
  | Raise e =>
      DataMappingEngine._insert_values mapping (Store.view h target_data)
        source_values ps = Raise e
  end.
Proof.
  exact (insert_values_on_objects mapping target_data source_values ps h).
Qed.

Lemma bound_in_frame (h h' : gmap positive (list (list value)))
    (d : gmap string positive) :
  Store.bound_in h d ->
  (forall l : positive, is_Some (h !! l) -> h' !! l = h !! l) ->
  Store.bound_in h' d.
Proof.
  intros Hbound Hframe key l Hkey.
  rewrite Hframe by (eapply Hbound; eauto). eapply Hbound; eauto.
Qed.

Section WithBuiltins.
Context {B : Builtins}.

(** One rule on objects: no object of the store is changed, and the outcome,
    read through the store, is the outcome on values. *)
Lemma store_execute_mapping (mapping : DataMapping)
    (source_data target_data : gmap string positive)
    (h : gmap positive (list (list value))) :
  Store.bound_in h target_data ->
  let out := Store.execute_mapping mapping source_data target_data h in
  (forall l : positive, is_Some (h !! l) -> out.2 !! l = h !! l) /\
  match out.1 with
  | Ok updated =>
      DataMappingEngine.execute_mapping mapping (Store.view h source_data)
        (Store.view h target_data) = Ok (Store.view out.2 updated) /\
      Store.bound_in out.2 updated
  | Raise e =>
      DataMappingEngine.execute_mapping mapping (Store.view h source_data)
        (Store.view h target_data) = Raise e
  end.
Proof.
  intros Hbound. cbn zeta.
  unfold Store.execute_mapping, DataMappingEngine.execute_mapping.
  destruct (DataMappingEngine._extract_source_values mapping
              (Store.view h source_data)) as [[| v vs] | e]; cbn;
    [now auto | | now auto].
  destruct (DataMappingEngine._find_target_positions mapping
              (Store.view h target_data)) as [[| p ps] | e]; cbn;
    [| | now auto].
  - destruct (DataMappingEngine.no_position_report mapping
                (Store.view h target_data)) as [[] | e]; cbn; now auto.
  - apply (insert_values_on_objects mapping target_data (v :: vs) (p :: ps) h Hbound).
Qed.

(** The batch on objects: whatever the rules do, no object that was in the
    store before the batch is changed (so a rule that raises has changed no
    table of the running table set), and the tables the batch returns are
    those of the batch on values. *)
Theorem store_execute_multiple_mappings (mappings : list DataMapping)
    (source_data : gmap string positive) :
  forall (target_data : gmap string positive)
         (h : gmap positive (list (list value))),
    Store.bound_in h source_data ->
    Store.bound_in h target_data ->
    let out := Store.execute_multiple_mappings mappings source_data target_data h in
    (forall l : positive, is_Some (h !! l) -> out.2 !! l = h !! l) /\
    Store.bound_in out.2 out.1 /\
    Store.view out.2 out.1 =
      DataMappingEngine.execute_multiple_mappings mappings
        (Store.view h source_data) (Store.view h target_data).
Proof.
  induction mappings as [| mapping rest IH]; intros target_data h Hsrc Htgt; cbn zeta.
  - cbn. auto.
  - unfold Store.execute_multiple_mappings,
      DataMappingEngine.execute_multiple_mappings.
    cbn [fold_left fst snd].
    pose proof (store_execute_mapping mapping source_data target_data h Htgt)
      as [Hframe Hout]. cbn zeta in Hframe, Hout.
    destruct (Store.execute_mapping mapping source_data target_data h)
      as [[updated | e] h1]; cbn in Hframe, Hout.
    + destruct Hout as [Hpure Hbound1]. rewrite Hpure.
      destruct (IH updated h1) as (Hframe' & Hbound' & Hview');
        [now apply (bound_in_frame h) | assumption |].
      cbn zeta in Hframe', Hbound', Hview'.
      unfold Store.execute_multiple_mappings in Hframe', Hbound', Hview'.
      split; [| split; [exact Hbound' |]].
      * intros l Hl. rewrite Hframe' by (rewrite Hframe; assumption).
        now apply Hframe.
      * rewrite Hview'. unfold DataMappingEngine.execute_multiple_mappings.
        now rewrite (view_frame h h1 source_data Hsrc Hframe).
    + rewrite Hout.
      destruct (IH target_data h1) as (Hframe' & Hbound' & Hview');
        [now apply (bound_in_frame h) | now apply (bound_in_frame h) |].
      cbn zeta in Hframe', Hbound', Hview'.
      unfold Store.execute_multiple_mappings in Hframe', Hbound', Hview'.
      split; [| split; [exact Hbound' |]].
      * intros l Hl. rewrite Hframe' by (rewrite Hframe; assumption).
        now apply Hframe.
      * rewrite Hview'. unfold DataMappingEngine.execute_multiple_mappings.
        rewrite (view_frame h h1 source_data Hsrc Hframe).
        now rewrite (view_frame h h1 target_data Htgt Hframe).
Qed.

End WithBuiltins.

End Objects.
(** ** The text of numbers and of coordinates *)

Section CoordinateText.
Import Py ExcelCoordinate Spec.

Lemma str_all_append (p : ascii -> bool) (a b : string) :
  str_all p (String.append a b) = str_all p a && str_all p b.
Proof.
  induction a as [| c a IH]; [reflexivity |].
  change (str_all p (String c (String.append a b)) = str_all p (String c a) && str_all p b).
  cbn [str_all]. rewrite IH. now rewrite andb_assoc.
Qed.

Lemma str_all_impl (p q : ascii -> bool) (s : string) :
  (forall c, p c = true -> q c = true) ->
  str_all p s = true -> str_all q s = true.
Proof.
  intros Hpq. induction s as [| c s IH]; [reflexivity |].
  cbn [str_all]. rewrite !andb_true_iff. intros [Hc Hs]. auto.
Qed.

Lemma append_assoc (a b c : string) :
  String.append a (String.append b c) = String.append (String.append a b) c.
Proof.
  induction a as [| x a IH]; [reflexivity |].
  change (String x (String.append a (String.append b c)) =
          String x (String.append (String.append a b) c)).
  now rewrite IH.
Qed.

Lemma nonempty_append_r (a b : string) :
  nonempty b = true -> nonempty (String.append a b) = true.
Proof. destruct a; [trivial | reflexivity]. Qed.

(** *** Stripping and upper-casing text that needs neither *)

Lemma lstrip_with_head (space : ascii -> bool) (c : ascii) (s : string) :
  space c = false -> lstrip_with space (String c s) = String c s.
Proof. intros Hc. cbn. now rewrite Hc. Qed.

Lemma rstrip_with_id (space : ascii -> bool) (s : string) :
  str_all (fun c => negb (space c)) s = true -> rstrip_with space s = s.
Proof.
  induction s as [| c s IH]; [reflexivity |].
  cbn [str_all rstrip_with]. rewrite andb_true_iff, negb_true_iff.
  intros [Hc Hs]. rewrite (IH Hs), Hc. now destruct s.
Qed.

Lemma lstrip_with_id (space : ascii -> bool) (s : string) :
  str_all (fun c => negb (space c)) s = true -> lstrip_with space s = s.
Proof.
  destruct s as [| c s]; [reflexivity |].
  cbn [str_all]. rewrite andb_true_iff, negb_true_iff.
  intros [Hc _]. now apply lstrip_with_head.
Qed.

Lemma strip_id (s : string) :
  str_all (fun c => negb (char_isspace c)) s = true -> strip s = s.
Proof.
  intros Hs. unfold strip. rewrite lstrip_with_id by assumption.
  now apply rstrip_with_id.
Qed.

Lemma upper_id (s : string) :
  str_all (fun c => negb (char_islower c)) s = true -> upper s = s.
Proof.
  induction s as [| c s IH]; [reflexivity |].
  cbn [str_all upper]. rewrite andb_true_iff, negb_true_iff.
  intros [Hc Hs]. rewrite (IH Hs). unfold char_upper. now rewrite Hc.
Qed.

Lemma text_char_plain (c : ascii) :
  text_char c = true ->
  char_isspace c = false /\ char_isspace_c c = false /\ char_islower c = false.
Proof.
  destruct c as [[] [] [] [] [] [] [] []]; vm_compute; intros H;
    first [discriminate H | repeat split].
Qed.

Lemma text_strip (s : string) : str_all text_char s = true -> strip s = s.
Proof.
  intros Hs. apply strip_id. revert Hs. apply str_all_impl.
  intros c Hc. apply text_char_plain in Hc as (-> & _). reflexivity.
Qed.

Lemma text_upper (s : string) : str_all text_char s = true -> upper s = s.
Proof.
  intros Hs. apply upper_id. revert Hs. apply str_all_impl.
  intros c Hc. apply text_char_plain in Hc as (_ & _ & ->). reflexivity.
Qed.

Lemma upper_is_text (s : string) :
  str_all char_isupper s = true -> str_all text_char s = true.
Proof.
  apply str_all_impl. intros c Hc. unfold text_char. now rewrite Hc.
Qed.

Lemma digits_are_text (s : string) :
  str_all char_isdigit s = true -> str_all text_char s = true.
Proof.
  apply str_all_impl. intros c Hc. unfold text_char. rewrite Hc.
  now rewrite orb_true_r.
Qed.

(** *** [str] of an [int], and [int] of it *)

Lemma uint_digits (d : Decimal.uint) :
  str_all char_isdigit (NilEmpty.string_of_uint d) = true.
Proof.
  induction d as [| d IH | d IH | d IH | d IH | d IH | d IH | d IH | d IH | d IH | d IH];
    [reflexivity | ..];
    cbn [NilEmpty.string_of_uint str_all]; rewrite IH; reflexivity.
Qed.

Ltac eval_digit :=
  repeat match goal with
  | |- context [char_isdigit (Ascii ?a ?b ?c ?d ?e ?f ?g ?h)] =>
      let r := eval vm_compute in (char_isdigit (Ascii a b c d e f g h)) in
      change (char_isdigit (Ascii a b c d e f g h)) with r
  | |- context [ord (Ascii ?a ?b ?c ?d ?e ?f ?g ?h)] =>
      let r := eval vm_compute in (ord (Ascii a b c d e f g h)) in
      change (ord (Ascii a b c d e f g h)) with r
  end.

Lemma int_digits_acc (d : Decimal.uint) :
  forall acc : positive,
    int_digits (NilEmpty.string_of_uint d) (Z.pos acc) true =
    Some (Z.pos (Pos.of_uint_acc d acc)).
Proof.
  induction d as [| d IH | d IH | d IH | d IH | d IH | d IH | d IH | d IH | d IH | d IH];
    intros acc; [reflexivity | ..];
    cbn [NilEmpty.string_of_uint int_digits Pos.of_uint_acc]; eval_digit;
    cbv iota; rewrite <- IH; f_equal; lia.
Qed.

Lemma int_digits_uint (d : Decimal.uint) :
  d <> Decimal.Nil ->
  forall after_digit : bool,
    int_digits (NilEmpty.string_of_uint d) 0 after_digit =
    Some (Z.of_N (Pos.of_uint d)).
Proof.
  induction d as [| d IH | d IH | d IH | d IH | d IH | d IH | d IH | d IH | d IH | d IH];
    intros Hne after_digit; [congruence | ..];
    cbn [NilEmpty.string_of_uint int_digits Pos.of_uint]; eval_digit; cbv iota.
  1: { destruct d; [reflexivity | ..]; apply IH; discriminate. }
  all: unfold Z.of_N; rewrite <- int_digits_acc; reflexivity.
Qed.

(** The digits of a number from 1. *)
Lemma str_of_int_pos (p : positive) :
  str_of_int (Z.pos p) = NilEmpty.string_of_uint (Pos.to_uint p).
Proof.
  unfold str_of_int. cbn [Z.to_int NilZero.string_of_int].
  unfold NilZero.string_of_uint.
  pose proof (DecimalPos.Unsigned.to_uint_nonnil p) as Hne.
  now destruct (Pos.to_uint p).
Qed.

Lemma str_of_int_digits (n : Z) :
  0 <= n ->
  str_all char_isdigit (str_of_int n) = true /\ nonempty (str_of_int n) = true.
Proof.
  intros Hn. destruct n as [| p | p]; [split; reflexivity | | lia].
  rewrite str_of_int_pos. split; [apply uint_digits |].
  pose proof (DecimalPos.Unsigned.to_uint_nonnil p) as Hne.
  now destruct (Pos.to_uint p).
Qed.

Lemma int_digits_str_of_int (n : Z) :
  0 <= n -> int_digits (str_of_int n) 0 false = Some n.
Proof.
  intros Hn. destruct n as [| p | p]; [reflexivity | | lia].
  rewrite str_of_int_pos.
  rewrite int_digits_uint by apply DecimalPos.Unsigned.to_uint_nonnil.
  now rewrite DecimalPos.Unsigned.of_to.
Qed.

(** [int] of a text that starts with a digit and has no space at either
    end reads the digits. *)
Lemma int_unsigned (c : ascii) (s : string) :
  char_isdigit c = true ->
  str_all (fun x => negb (char_isspace_c x)) (String c s) = true ->
  Py.int (String c s) = int_digits (String c s) 0 false.
Proof.
  intros Hc Hs. unfold Py.int.
  rewrite lstrip_with_id, rstrip_with_id by assumption.
  destruct c as [[] [] [] [] [] [] [] []];
    first [reflexivity | vm_compute in Hc; discriminate Hc].
Qed.

Lemma digit_no_space (s : string) :
  str_all char_isdigit s = true ->
  str_all (fun x => negb (char_isspace_c x)) s = true.
Proof.
  intros Hs. apply digits_are_text in Hs. revert Hs. apply str_all_impl.
  intros c Hc. apply text_char_plain in Hc as (_ & -> & _). reflexivity.
Qed.

Lemma int_of_digits (s : string) :
  isdigit s = true -> Py.int s = int_digits s 0 false.
Proof.
  unfold isdigit. rewrite andb_true_iff. intros [Hne Hs].
  destruct s as [| c s]; [discriminate Hne |].
  apply int_unsigned; [| now apply digit_no_space].
  cbn [str_all] in Hs. now apply andb_true_iff in Hs as [-> _].
Qed.

(** [int(str(n))] is [n]. *)
Lemma int_str_of_int (n : Z) : Py.int (str_of_int n) = Some n.
Proof.
  destruct n as [| p | p]; [reflexivity | |].
  - destruct (str_of_int_digits (Z.pos p)) as [Hd Hne]; [lia |].
    rewrite int_of_digits by (unfold isdigit; now rewrite Hd, Hne).
    apply int_digits_str_of_int. lia.
  - unfold str_of_int. cbn [Z.to_int NilZero.string_of_int].
    change (NilZero.string_of_uint (Pos.to_uint p)) with (str_of_int (Z.pos p)).
    destruct (str_of_int_digits (Z.pos p)) as [Hd Hne]; [lia |].
    unfold Py.int.
    rewrite lstrip_with_head by reflexivity.
    rewrite rstrip_with_id
      by (cbn [str_all]; rewrite (digit_no_space _ Hd); reflexivity).
    rewrite int_digits_str_of_int by lia. reflexivity.
Qed.

(** *** The parser on the text of a coordinate *)

Lemma upper_not_digit (c : ascii) :
  char_isupper c = true ->
  char_isdigit c = false /\ char_isalpha c = true /\ Ascii.eqb ":" c = false.
Proof.
  destruct c as [[] [] [] [] [] [] [] []]; vm_compute; intros H;
    first [discriminate H | repeat split].
Qed.

Lemma digit_not_alpha (c : ascii) :
  char_isdigit c = true -> char_isalpha c = false /\ Ascii.eqb ":" c = false.
Proof.
  destruct c as [[] [] [] [] [] [] [] []]; vm_compute; intros H;
    first [discriminate H | repeat split].
Qed.

Lemma split_at_first_digit_text (col : string) (d : ascii) (ds : string) :
  str_all char_isupper col = true ->
  char_isdigit d = true ->
  split_at_first_digit (String.append col (String d ds)) = Some (col, String d ds).
Proof.
  intros Hcol Hd. induction col as [| c col IH].
  - change (split_at_first_digit (String d ds) = Some (EmptyString, String d ds)).
    cbn [split_at_first_digit]. now rewrite Hd.
  - cbn [str_all] in Hcol. apply andb_true_iff in Hcol as [Hc Hcol].
    change (split_at_first_digit (String c (String.append col (String d ds))) =
            Some (String c col, String d ds)).
    cbn [split_at_first_digit].
    apply upper_not_digit in Hc as (-> & _). now rewrite (IH Hcol).
Qed.

(** The text of a cell: the column letters, then the row number. *)
Lemma parse_single_text (col : string) (r : Z) :
  valid_column col = true -> 1 <= r ->
  _parse_single (String.append col (str_of_int r)) = Ok (cls_single col r).
Proof.
  unfold valid_column. rewrite andb_true_iff. intros [Hne Hcol] Hr.
  destruct (str_of_int_digits r) as [Hd Hdne]; [lia |].
  pose proof (int_str_of_int r) as Hint.
  destruct (str_of_int r) as [| d ds] eqn:Hstr; [discriminate Hdne |].
  cbn [str_all] in Hd. apply andb_true_iff in Hd as [Hd _].
  unfold _parse_single. rewrite split_at_first_digit_text by assumption.
  rewrite Hne. cbn [nonempty negb orb]. rewrite Hint.
  destruct (r <? 1) eqn:Hlt; [lia | reflexivity].
Qed.

Lemma no_colon (s : string) :
  str_all (fun c => char_isupper c || char_isdigit c) s = true ->
  contains_char ":" s = false.
Proof.
  induction s as [| c s IH]; [reflexivity |].
  cbn [str_all contains_char]. rewrite andb_true_iff. intros [Hc Hs].
  rewrite (IH Hs).
  apply orb_true_iff in Hc as [Hc | Hc].
  - now apply upper_not_digit in Hc as (_ & _ & ->).
  - now apply digit_not_alpha in Hc as (_ & ->).
Qed.

Lemma cell_text_chars (col : string) (r : Z) :
  valid_column col = true -> 0 <= r ->
  str_all text_char (String.append col (str_of_int r)) = true /\
  contains_char ":" (String.append col (str_of_int r)) = false /\
  isalpha (String.append col (str_of_int r)) = false /\
  isdigit (String.append col (str_of_int r)) = false.
Proof.
  unfold valid_column. rewrite andb_true_iff. intros [Hne Hcol] Hr.
  destruct (str_of_int_digits r) as [Hd Hdne]; [lia |].
  split; [| split; [| split]].
  - rewrite str_all_append, (upper_is_text _ Hcol), (digits_are_text _ Hd).
    reflexivity.
  - apply no_colon. rewrite str_all_append.
    rewrite (str_all_impl _ _ _ (fun c H => orb_true_intro _ _ (or_introl H)) Hcol).
    now rewrite (str_all_impl _ _ _ (fun c H => orb_true_intro _ _ (or_intror H)) Hd).
  - unfold isalpha. rewrite str_all_append.
    destruct (str_of_int r) as [| d ds]; [discriminate Hdne |].
    cbn [str_all] in Hd |- *. apply andb_true_iff in Hd as [Hd _].
    apply digit_not_alpha in Hd as (-> & _).
    now rewrite andb_false_l, !andb_false_r.
  - unfold isdigit. destruct col as [| c col]; [discriminate Hne |].
    change (nonempty (String c (String.append col (str_of_int r))) &&
            str_all char_isdigit (String c (String.append col (str_of_int r))) = false).
    cbn [str_all] in Hcol |- *. apply andb_true_iff in Hcol as [Hc _].
    apply upper_not_digit in Hc as (-> & _). now rewrite andb_false_r.
Qed.

Lemma split_no_colon (s : string) :
  contains_char ":" s = false -> split ":" s = [s].
Proof.
  induction s as [| c s IH]; [reflexivity |].
  cbn [contains_char split]. rewrite (Ascii.eqb_sym c ":").
  destruct (Ascii.eqb ":" c); [discriminate |].
  intros Hs. now rewrite (IH Hs).
Qed.

Lemma split_at_colon (a b : string) :
  contains_char ":" a = false -> contains_char ":" b = false ->
  split ":" (String.append a (String ":" b)) = [a; b].
Proof.
  intros Ha Hb. induction a as [| c a IH].
  - change (split ":" (String ":" b) = [EmptyString; b]).
    cbn [split]. rewrite Ascii.eqb_refl. now rewrite split_no_colon.
  - cbn [contains_char] in Ha.
    change (split ":" (String c (String.append a (String ":" b))) = [String c a; b]).
    cbn [split]. rewrite (Ascii.eqb_sym c ":").
    destruct (Ascii.eqb ":" c); [discriminate |].
    now rewrite (IH Ha).
Qed.

Lemma contains_colon_append (a b : string) :
  contains_char ":" (String.append a (String ":" b)) = true.
Proof.
  induction a as [| c a IH]; [reflexivity |].
  change (contains_char ":" (String c (String.append a (String ":" b))) = true).
  cbn [contains_char]. now destruct (Ascii.eqb ":" c).
Qed.

Lemma colon_is_text : text_char ":" = true.
Proof. reflexivity. Qed.

(** Parsing the text of a coordinate gives the coordinate back:
    [from_string (str c)] is [c] for every cell, range, whole column and
    whole row in regular form (letters A to Z, rows from 1, the unused
    fields at their defaults). *)
Theorem coordinate_text_round_trip (c : t) :
  well_formed c = true -> from_string (__str__ c) = Ok c.
Proof.
  destruct c as [col r ecol er kind].
  unfold well_formed, __str__.
  cbn [coord_type column row end_column end_row].
  destruct kind; rewrite !andb_true_iff;
    repeat match goal with
           | |- context [String.eqb ?a ?b = true] => rewrite (String.eqb_eq a b)
           end;
    rewrite ?Z.leb_le, ?Z.eqb_eq.
  - (* a single cell *)
    intros [[[Hcol Hr] ->] ->].
    destruct (cell_text_chars col r Hcol) as (Htext & Hcolon & Halpha & Hdigit); [lia |].
    unfold from_string. rewrite (text_upper _ Htext), (text_strip _ Htext).
    rewrite Hcolon, Halpha, Hdigit. now apply parse_single_text.
  - (* a range *)
    intros [[[Hcol Hr] Hecol] Her].
    destruct (cell_text_chars col r Hcol) as (Htext & Hcolon & Halpha & Hdigit); [lia |].
    destruct (cell_text_chars ecol er Hecol) as (Htext' & Hcolon' & Halpha' & Hdigit'); [lia |].
    rewrite append_assoc.
    set (a := String.append col (str_of_int r)) in *.
    set (b := String.append ecol (str_of_int er)) in *.
    assert (Hall : str_all text_char (String.append a (String ":" b)) = true).
    { rewrite str_all_append. cbn [str_all]. now rewrite Htext, Htext', colon_is_text. }
    unfold from_string. rewrite (text_upper _ Hall), (text_strip _ Hall).
    rewrite contains_colon_append.
    unfold _parse_range. rewrite split_at_colon by assumption.
    rewrite (text_strip _ Htext), (text_strip _ Htext').
    rewrite Halpha, Hdigit. cbn [andb].
    subst a b. rewrite !parse_single_text by assumption. reflexivity.
  - (* a whole column *)
    intros [[[Hcol ->] ->] ->].
    pose proof Hcol as Hvalid. unfold valid_column in Hcol.
    apply andb_true_iff in Hcol as [Hne Hup]. rewrite Hne.
    pose proof (upper_is_text _ Hup) as Htext.
    unfold from_string. rewrite (text_upper _ Htext), (text_strip _ Htext).
    assert (Hcolon : contains_char ":" col = false).
    { apply no_colon.
      exact (str_all_impl _ _ _ (fun c H => orb_true_intro _ _ (or_introl H)) Hup). }
    assert (Halpha : isalpha col = true).
    { unfold isalpha. rewrite Hne. revert Hup. apply str_all_impl.
      intros c Hc. now apply upper_not_digit in Hc as (_ & -> & _). }
    now rewrite Hcolon, Halpha.
  - (* a whole row *)
    intros [[[-> Hr] ->] ->].
    destruct (r <? 0) eqn:Hneg; [lia |].
    replace (0 <? r) with true by lia.
    destruct (str_of_int_digits r) as [Hd Hne]; [lia |].
    pose proof (digits_are_text _ Hd) as Htext.
    unfold from_string. rewrite (text_upper _ Htext), (text_strip _ Htext).
    rewrite (no_colon _
               (str_all_impl _ _ _ (fun c H => orb_true_intro _ _ (or_intror H)) Hd)).
    assert (Halpha : isalpha (str_of_int r) = false).
    { unfold isalpha. destruct (str_of_int r) as [| d ds]; [discriminate Hne |].
      cbn [str_all] in Hd |- *. apply andb_true_iff in Hd as [Hd _].
      apply digit_not_alpha in Hd as (-> & _). reflexivity. }
    rewrite Halpha. unfold isdigit at 1. rewrite Hne, Hd. cbn [andb].
    now rewrite int_str_of_int.
Qed.

End CoordinateText.
(** ** What the parser guarantees *)

Section ParsedForm.
Import Py ExcelCoordinate Spec.

Lemma char_upper_not_lower (c : ascii) : char_islower (char_upper c) = false.
Proof. destruct c as [[] [] [] [] [] [] [] []]; reflexivity. Qed.

Lemma char_upper_idem (c : ascii) :
  char_upper (char_upper c) = char_upper c /\
  char_upper (char_lower c) = char_upper c.
Proof. destruct c as [[] [] [] [] [] [] [] []]; split; reflexivity. Qed.

Lemma upper_no_lower (s : string) :
  str_all (fun c => negb (char_islower c)) (upper s) = true.
Proof.
  induction s as [| c s IH]; [reflexivity |].
  cbn [upper str_all]. now rewrite char_upper_not_lower, IH.
Qed.

Lemma upper_upper (s : string) : upper (upper s) = upper s.
Proof.
  induction s as [| c s IH]; [reflexivity |].
  cbn [upper]. rewrite IH. now destruct (char_upper_idem c) as [-> _].
Qed.

Lemma upper_lower (s : string) : upper (lower s) = upper s.
Proof.
  induction s as [| c s IH]; [reflexivity |].
  cbn [upper lower]. rewrite IH. now destruct (char_upper_idem c) as [_ ->].
Qed.

Lemma lstrip_with_all (p space : ascii -> bool) (s : string) :
  str_all p s = true -> str_all p (lstrip_with space s) = true.
Proof.
  induction s as [| c s IH]; [reflexivity |].
  cbn [lstrip_with]. destruct (space c); [| trivial].
  cbn [str_all]. rewrite andb_true_iff. intros [_ Hs]. auto.
Qed.

Lemma rstrip_with_all (p space : ascii -> bool) (s : string) :
  str_all p s = true -> str_all p (rstrip_with space s) = true.
Proof.
  induction s as [| c s IH]; [reflexivity |].
  cbn [str_all rstrip_with]. rewrite andb_true_iff. intros [Hc Hs].
  specialize (IH Hs).
  destruct (rstrip_with space s) as [| d r].
  - destruct (space c); [reflexivity |]. cbn. now rewrite Hc.
  - cbn [str_all] in IH |- *. now rewrite Hc, IH.
Qed.

Lemma strip_all (p : ascii -> bool) (s : string) :
  str_all p s = true -> str_all p (strip s) = true.
Proof.
  intros Hs. unfold strip. now apply rstrip_with_all, lstrip_with_all.
Qed.

Lemma split_all (p : ascii -> bool) (sep : ascii) (s : string) :
  str_all p s = true ->
  forall part : string, In part (split sep s) -> str_all p part = true.
Proof.
  induction s as [| c s IH]; intros Hs part Hin.
  - cbn in Hin. destruct Hin as [<- | []]. reflexivity.
  - cbn [str_all] in Hs. apply andb_true_iff in Hs as [Hc Hs].
    specialize (IH Hs). cbn [split] in Hin.
    destruct (Ascii.eqb c sep).
    + destruct Hin as [<- | Hin]; [reflexivity | now apply IH].
    + destruct (split sep s) as [| q qs].
      * destruct Hin as [<- | []]. cbn. now rewrite Hc.
      * destruct Hin as [<- | Hin].
        -- cbn [str_all]. rewrite Hc. apply IH. now left.
        -- apply IH. now right.
Qed.

Lemma alpha_not_lower (s : string) :
  isalpha s = true ->
  str_all (fun c => negb (char_islower c)) s = true ->
  valid_column s = true.
Proof.
  unfold isalpha, valid_column. rewrite !andb_true_iff. intros [Hne Halpha] Hlow.
  split; [assumption |].
  induction s as [| c s IH]; [reflexivity |].
  cbn [str_all] in *.
  apply andb_true_iff in Halpha as [Hc Halpha].
  apply andb_true_iff in Hlow as [Hl Hlow].
  rewrite andb_true_iff. split.
  - unfold char_isalpha in Hc. apply negb_true_iff in Hl.
    rewrite Hl, orb_false_r in Hc. exact Hc.
  - destruct s; [reflexivity | now apply IH].
Qed.

Lemma int_digits_nonneg (s : string) :
  forall (acc : Z) (after_digit : bool) (r : Z),
    int_digits s acc after_digit = Some r -> 0 <= acc -> 0 <= r.
Proof.
  induction s as [| c s IH]; intros acc after_digit r.
  - cbn. destruct after_digit; [| discriminate]. intros [= <-]. trivial.
  - cbn [int_digits]. destruct (char_isdigit c) eqn:Hc.
    + intros H Hacc. apply (IH _ _ _ H).
      unfold char_isdigit in Hc. lia.
    + destruct (Ascii.eqb c "_"); [| discriminate].
      destruct after_digit; [| discriminate]. apply IH.
Qed.

Lemma split_at_first_digit_form (s col rw : string) :
  split_at_first_digit s = Some (col, rw) ->
  str_all (fun c => negb (char_isdigit c)) col = true.
Proof.
  revert col rw. induction s as [| c s IH]; intros col rw; [discriminate |].
  cbn [split_at_first_digit]. destruct (char_isdigit c) eqn:Hc.
  - intros [= <- <-]. reflexivity.
  - destruct (split_at_first_digit s) as [[col' rw'] |]; [| discriminate].
    intros [= <- <-]. cbn [str_all]. rewrite Hc. cbn [negb andb].
    now apply (IH col' rw').
Qed.

Lemma parse_single_form (s : string) (c : t) :
  _parse_single s = Ok c ->
  coord_type c = Single /\
  nonempty (column c) = true /\
  str_all (fun x => negb (char_isdigit x)) (column c) = true /\
  1 <= row c /\ end_column c = "" /\ end_row c = 0.
Proof.
  unfold _parse_single.
  destruct (split_at_first_digit s) as [[col rw] |] eqn:Hsplit; [| discriminate].
  destruct (nonempty col) eqn:Hcol; [| discriminate].
  destruct (nonempty rw); [| discriminate]. cbn [negb orb].
  destruct (Py.int rw) as [r |]; [| discriminate].
  destruct (r <? 1) eqn:Hr; [discriminate |].
  intros [= <-]. cbn. repeat split; try assumption; try lia.
  now apply (split_at_first_digit_form s col rw).
Qed.

Lemma int_of_digits_nonneg (s : string) (r : Z) :
  isdigit s = true -> Py.int s = Some r -> 0 <= r.
Proof.
  intros Hd. rewrite (int_of_digits s Hd). intros H.
  apply (int_digits_nonneg _ _ _ _ H). lia.
Qed.

Lemma parse_range_form (s : string) (c : t) :
  str_all (fun x => negb (char_islower x)) s = true ->
  _parse_range s = Ok c -> parsed_form c.
Proof.
  intros Hlow. unfold _parse_range.
  destruct (split ":" s) as [| a [| b [| ? ?]]] eqn:Hsplit; try discriminate.
  assert (Ha : str_all (fun x => negb (char_islower x)) (strip a) = true).
  { apply strip_all, (split_all _ ":" s Hlow). rewrite Hsplit. now left. }
  destruct (isalpha (strip a) && isalpha (strip b) && String.eqb (strip a) (strip b))
    eqn:Hcolumn.
  - intros [= <-]. apply andb_true_iff in Hcolumn as [Hcolumn _].
    apply andb_true_iff in Hcolumn as [Halpha _].
    unfold parsed_form. cbn. repeat split. now apply alpha_not_lower.
  - destruct (isdigit (strip a) && isdigit (strip b) && String.eqb (strip a) (strip b))
      eqn:Hrow.
    + apply andb_true_iff in Hrow as [Hrow _].
      apply andb_true_iff in Hrow as [Hdigit _].
      destruct (Py.int (strip a)) as [r |] eqn:Hint; [| discriminate].
      intros [= <-]. unfold parsed_form. cbn. repeat split.
      now apply (int_of_digits_nonneg (strip a)).
    + destruct (_parse_single (strip a)) as [start_coord | e] eqn:Hstart;
        [| discriminate].
      destruct (_parse_single (strip b)) as [end_coord | e] eqn:Hend;
        [| discriminate].
      cbn. intros [= <-].
      apply parse_single_form in Hstart as (_ & Hc & _ & Hr & _).
      apply parse_single_form in Hend as (_ & Hc' & _ & Hr' & _).
      unfold parsed_form. cbn. auto.
Qed.

(** What [from_string] returns is in the form of its kind: a whole column
    has letters A to Z only, a cell or a range has rows from 1 and column
    texts that are not empty (whatever stands before the first digit is
    taken for them), a whole row has a number from 0. *)
Lemma from_string_form (s : string) (c : t) :
  from_string s = Ok c -> parsed_form c.
Proof.
  unfold from_string.
  pose proof (strip_all _ _ (upper_no_lower s)) as Hlow.
  set (coord_str := strip (upper s)) in *.
  destruct (contains_char ":" coord_str); [now apply parse_range_form |].
  destruct (isalpha coord_str) eqn:Halpha.
  - intros [= <-]. unfold parsed_form. cbn. repeat split.
    now apply alpha_not_lower.
  - destruct (isdigit coord_str) eqn:Hdigit.
    + destruct (Py.int coord_str) as [r |] eqn:Hint; [| discriminate].
      intros [= <-]. unfold parsed_form. cbn. repeat split.
      now apply (int_of_digits_nonneg coord_str).
    + intros H. apply parse_single_form in H as (Hkind & H).
      unfold parsed_form. now rewrite Hkind.
Qed.

Lemma from_string_upper (s : string) :
  from_string (upper s) = from_string s /\ from_string (lower s) = from_string s.
Proof.
  unfold from_string. now rewrite upper_upper, upper_lower.
Qed.

Lemma column_to_index_loop_lower_bound (column : string) :
  str_all char_isupper column = true ->
  forall result : Z, 0 <= result -> result <= column_to_index_loop column result.
Proof.
  induction column as [| c column IH]; intros Hup result Hres; [cbn; lia |].
  cbn [str_all] in Hup. apply andb_true_iff in Hup as [Hc Hup].
  cbn [column_to_index_loop]. change (ord "A") with 65.
  apply char_isupper_spec in Hc.
  specialize (IH Hup (result * 26 + (ord c - 65 + 1))). lia.
Qed.

Lemma column_to_index_nonneg (column : string) :
  valid_column column = true -> 0 <= column_to_index column.
Proof.
  unfold valid_column. rewrite andb_true_iff. intros [Hne Hup].
  destruct column as [| c column]; [discriminate Hne |].
  cbn [str_all] in Hup. apply andb_true_iff in Hup as [Hc Hup].
  unfold column_to_index. cbn [column_to_index_loop]. change (ord "A") with 65.
  apply char_isupper_spec in Hc.
  pose proof (column_to_index_loop_lower_bound column Hup (0 * 26 + (ord c - 65 + 1))).
  lia.
Qed.

Lemma index_to_column_loop_valid (index : Z) :
  0 <= index ->
  forall result : string,
    str_all char_isupper result = true ->
    str_all char_isupper (index_to_column_loop index result) = true /\
    (0 < index \/ nonempty result = true ->
     nonempty (index_to_column_loop index result) = true).
Proof.
  intros Hnonneg. generalize Hnonneg. pattern index.
  apply Z_lt_induction; [| assumption].
  intros n IH Hn result Hres.
  destruct (Z.eq_dec n 0) as [-> | Hne].
  - rewrite index_to_column_loop_done by lia.
    split; [assumption |]. intros [H | H]; [lia | assumption].
  - rewrite index_to_column_loop_pos by lia.
    assert (Hq : 0 <= (n - 1) / 26 < n).
    { split; [apply Z.div_pos; lia | apply Z.div_lt_upper_bound; lia]. }
    pose proof (Z.mod_pos_bound (n - 1) 26 ltac:(lia)) as Hm.
    destruct (IH ((n - 1) / 26) ltac:(lia) ltac:(lia)
                 (String (chr ((n - 1) mod 26 + ord "A")) result)) as [Hall Hnonempty].
    { cbn [str_all]. rewrite Hres, andb_true_r.
      unfold char_isupper. change (ord "A") with 65. rewrite ord_chr by lia. lia. }
    split; [assumption |]. intros _. apply Hnonempty. now right.
Qed.

Lemma index_to_column_valid (i : Z) :
  0 <= i -> valid_column (index_to_column i) = true.
Proof.
  intros Hi. unfold valid_column, index_to_column.
  destruct (index_to_column_loop_valid (i + 1) ltac:(lia) "" eq_refl) as [Hall Hne].
  rewrite Hall, Hne; [reflexivity | left; lia].
Qed.

End ParsedForm.
(** ** Coordinates: text and back *)

Section CoordinateRoundTrips.
Import Py ExcelCoordinate Spec.

(** The address of a table cell leads back to the cell: for row [i] and
    column [j] from 0, the text made of the letters of [index_to_column j]
    and the number [i + 1] parses to a single-cell coordinate whose
    [to_pandas_index] is [(i, j)]. *)
Theorem cell_address_round_trip (i j : Z) :
  0 <= i -> 0 <= j ->
  exists c : t,
    from_string (String.append (index_to_column j) (str_of_int (i + 1))) = Ok c /\
    coord_type c = Single /\
    to_pandas_index c = (i, j).
Proof.
  intros Hi Hj. exists (cls_single (index_to_column j) (i + 1)).
  pose proof (index_to_column_valid j Hj) as Hvalid.
  split; [| split].
  - destruct (cell_text_chars (index_to_column j) (i + 1) Hvalid)
      as (Htext & Hcolon & Halpha & Hdigit); [lia |].
    unfold from_string. rewrite (text_upper _ Htext), (text_strip _ Htext).
    rewrite Hcolon, Halpha, Hdigit. apply parse_single_text; [assumption | lia].
  - reflexivity.
  - unfold to_pandas_index, cls_single. cbn [column row].
    rewrite column_to_index_of_index_to_column by assumption.
    f_equal. lia.
Qed.

(** On ASCII text, what the parser returns is in the form of its kind, and
    the parser does not look at the case of letters.  A whole column has
    letters A to Z only, so it names an index from 0 whose letters are its
    own; a cell and a range have rows from 1 but their column texts are only
    known not to be empty; a whole row has a number from 0.  (On other text
    Python's [upper] and [isalpha] accept letters outside A to Z, and the
    property does not hold of the code.) *)
Theorem from_string_returns_parsed_form (s : string) (c : t) :
  ascii_text s = true ->
  from_string s = Ok c ->
  parsed_form c /\
  from_string (lower s) = Ok c /\
  from_string (upper s) = Ok c /\
  (coord_type c = Column ->
   0 <= column_to_index (column c) /\
   index_to_column (column_to_index (column c)) = column c).
Proof.
  intros _ Hs. pose proof (from_string_form s c Hs) as Hform.
  destruct (from_string_upper s) as [Hupper Hlower].
  split; [assumption | split; [congruence | split; [congruence |]]].
  intros Hkind. unfold parsed_form in Hform. rewrite Hkind in Hform.
  destruct Hform as (Hvalid & _). split.
  - now apply column_to_index_nonneg.
  - apply index_to_column_of_column_to_index.
    unfold valid_column in Hvalid. now apply andb_true_iff in Hvalid as [_ ?].
Qed.

End CoordinateRoundTrips.
(** ** The operators on missing cells and on patterns that do not compile *)

Section OperatorEdges.
Import Py Pandas DataMappingEngine Spec.
Context {B : Builtins}.

Lemma values_smap {A C : Type} (f : A -> C) (s : list (Z * A)) (i : nat)
    (l : Z) (x : A) :
  s !! i = Some (l, x) -> values (smap f s) !! i = Some (f x).
Proof.
  intros Hi. unfold values, smap. rewrite map_map.
  change (map (fun p => f (snd p)) s) with ((fun p : Z * A => f (snd p)) <$> s).
  rewrite list_lookup_fmap, Hi. reflexivity.
Qed.

Lemma values_of_list {A : Type} (xs : list A) : values (of_list xs) = xs.
Proof.
  unfold values, of_list.
  assert (Hgen : forall (k : nat) (ys : list A),
             map snd (imap (fun i x => (Z.of_nat (k + i), x)) ys) = ys).
  { intros k ys. revert k. induction ys as [| y ys IH]; intros k; [reflexivity |].
    cbn. f_equal. rewrite <- (IH (S k)) at 2. f_equal.
    apply imap_ext. intros i x _. cbn. f_equal. f_equal. lia. }
  apply (Hgen 0%nat).
Qed.

Lemma values_all_false {A : Type} (s : list (Z * A)) (i : nat) (p : Z * A) :
  s !! i = Some p ->
  values (of_list (replicate (length s) false)) !! i = Some false.
Proof.
  intros Hi. rewrite values_of_list. apply lookup_replicate_2.
  now apply lookup_lt_Some in Hi.
Qed.

Lemma SFltb_nan_r (f : spec_float) : SFltb f S754_nan = false.
Proof. now destruct f as [[] | [] | | [] ? ?]. Qed.

Lemma SFltb_nan_l (f : spec_float) : SFltb S754_nan f = false.
Proof. now destruct f as [[] | [] | | [] ? ?]. Qed.

Lemma SFleb_nan_r (f : spec_float) : SFleb f S754_nan = false.
Proof. now destruct f as [[] | [] | | [] ? ?]. Qed.

Lemma SFleb_nan_l (f : spec_float) : SFleb S754_nan f = false.
Proof. now destruct f as [[] | [] | | [] ? ?]. Qed.

Lemma to_numeric_missing (x : value) :
  isna x = true -> to_numeric_cell x = Ok S754_nan.
Proof. destruct x as [| | | [] |]; try discriminate; reflexivity. Qed.

Lemma eq_cell_missing (x v : value) : isna x = true -> eq_cell x v = false.
Proof. intros Hx. unfold eq_cell. now rewrite Hx. Qed.

Lemma coerced_cell_missing (x : value) (s : string) :
  isna x = true -> coerced_cell x (VStr s) = false.
Proof.
  intros Hx. unfold coerced_cell.
  destruct (Py.int s), (float_of_str s);
    rewrite ?eq_cell_missing by exact Hx; reflexivity.
Qed.

(** The answer of EQUALS, entry by entry. *)
Lemma equals_entries (column : list (Z * value)) (v : value) :
  _apply_match_operator column v EQUALS = eq_scalar column v \/
  _apply_match_operator column v EQUALS =
    smap (fun x => eq_cell x v || coerced_cell x v) column.
Proof.
  unfold _apply_match_operator, match_operator_body.
  destruct (negb (any (eq_scalar column v))); [| now left].
  pose proof (union_of_converted_matches column v) as Hunion.
  destruct (type_converted_matches column v); [now left | now right].
Qed.

(** A comparison operator: the mask of the comparison, or all [False] when
    the column has an int beyond the float range or the value is no
    number. *)
Lemma comparison_entries (column : list (Z * value)) (v : value)
    (operator : FilterOperator) (i : nat) (l : Z) (x : value) :
  operator = GREATER_THAN \/ operator = GREATER_EQUAL \/
  operator = LESS_THAN \/ operator = LESS_EQUAL ->
  column !! i = Some (l, x) ->
  isna x = true ->
  values (_apply_match_operator column v operator) !! i = Some false.
Proof.
  intros Hop Hi Hx.
  unfold _apply_match_operator, match_operator_body.
  cbv [mbind result_bind Py.bind].
  destruct Hop as [-> | [-> | [-> | ->]]];
    (destruct (to_numeric column) as [numbers | e] eqn:Hnum;
     [| exact (values_all_false column i _ Hi)];
     destruct (float v) as [f | e];
     [| exact (values_all_false column i _ Hi)];
     destruct (to_numeric_lookup column numbers i l x Hnum Hi) as (fx & Hfx & Hi');
     rewrite (to_numeric_missing x Hx) in Hfx; injection Hfx as <-;
     rewrite (values_smap _ _ _ _ _ Hi'); f_equal;
     first [apply SFltb_nan_r | apply SFltb_nan_l | apply SFleb_nan_r | apply SFleb_nan_l]).
Qed.

(** A missing cell (NaN or [None]) under the operators that do not go
    through the string form of the column: EQUALS with a text value and the
    four comparisons never select it, NOT_EQUALS and IS_EMPTY always do,
    IS_NOT_EMPTY never does. *)
Theorem missing_cell_under_operators (column : list (Z * value)) (i : nat)
    (l : Z) (x : value) (s : string) (v : value) :
  column !! i = Some (l, x) ->
  isna x = true ->
  values (_apply_match_operator column (VStr s) EQUALS) !! i = Some false /\
  values (_apply_match_operator column v NOT_EQUALS) !! i = Some true /\
  values (_apply_match_operator column v GREATER_THAN) !! i = Some false /\
  values (_apply_match_operator column v GREATER_EQUAL) !! i = Some false /\
  values (_apply_match_operator column v LESS_THAN) !! i = Some false /\
  values (_apply_match_operator column v LESS_EQUAL) !! i = Some false /\
  values (_apply_match_operator column v IS_EMPTY) !! i = Some true /\
  values (_apply_match_operator column v IS_NOT_EMPTY) !! i = Some false.
Proof.
  intros Hi Hx. repeat split.
  - destruct (equals_entries column (VStr s)) as [-> | ->];
      unfold eq_scalar; rewrite (values_smap _ _ _ _ _ Hi);
      rewrite ?eq_cell_missing, ?coerced_cell_missing by exact Hx; reflexivity.
  - unfold _apply_match_operator, match_operator_body, ne_scalar.
    rewrite (values_smap _ _ _ _ _ Hi). unfold ne_cell. now rewrite Hx.
  - apply (comparison_entries column v GREATER_THAN i l x); auto.
  - apply (comparison_entries column v GREATER_EQUAL i l x); auto.
  - apply (comparison_entries column v LESS_THAN i l x); auto.
  - apply (comparison_entries column v LESS_EQUAL i l x); auto.
  - unfold _apply_match_operator, match_operator_body.
    rewrite (values_smap _ _ _ _ _ Hi). now rewrite Hx.
  - unfold _apply_match_operator, match_operator_body, mask_not.
    assert (Hi' : smap (fun y => isna y || String.eqb (strip (str y)) "") column !! i =
                  Some (l, isna x || String.eqb (strip (str x)) "")).
    { unfold smap.
      change (map ?f column) with (f <$> column).
      now rewrite list_lookup_fmap, Hi. }
    rewrite (values_smap _ _ _ _ _ Hi'). now rewrite Hx.
Qed.

Lemma true_labels_none (mask : list (Z * bool)) :
  (forall b : bool, b ∈ values mask -> b = false) -> true_labels mask = [].
Proof.
  unfold true_labels, values. induction mask as [| [l b] mask IH]; intros Hall.
  - reflexivity.
  - rewrite filter_cons. cbn [snd].
    assert (b = false) as -> by (apply Hall; cbn; left).
    destruct (decide (false = true)) as [Hfalse | _]; [discriminate Hfalse |].
    apply IH. intros b Hb. apply Hall. cbn. now right.
Qed.

Lemma true_labels_all_false (n : nat) :
  true_labels (of_list (replicate n false)) = [].
Proof.
  apply true_labels_none. rewrite values_of_list.
  intros b Hb. now apply elem_of_replicate in Hb as [-> _].
Qed.

(** CONTAINS and NOT_CONTAINS read the value as a regular expression.  When
    it compiles, NOT_CONTAINS is the complement of CONTAINS; when it does
    not, [re.error] is caught and both operators answer all [False]: then
    NOT_CONTAINS selects no row either. *)
Theorem contains_and_pattern_errors (column : list (Z * value)) (v : value) :
  match re_compile (str v) with
  | Some search =>
      _apply_match_operator column v CONTAINS =
        smap (fun x => search (str x)) column /\
      _apply_match_operator column v NOT_CONTAINS =
        mask_not (_apply_match_operator column v CONTAINS)
  | None =>
      _apply_match_operator column v CONTAINS =
        of_list (replicate (length column) false) /\
      _apply_match_operator column v NOT_CONTAINS =
        of_list (replicate (length column) false) /\
      true_labels (_apply_match_operator column v CONTAINS) = [] /\
      true_labels (_apply_match_operator column v NOT_CONTAINS) = []
  end.
Proof.
  unfold _apply_match_operator, match_operator_body.
  destruct (re_compile (str v)) as [search |].
  - split; reflexivity.
  - repeat split; apply true_labels_all_false.
Qed.

End OperatorEdges.
(** ** The phases of a rule, taken apart *)

Section Phases.
Import Py Pandas DataMappingEngine Spec.

Lemma get_column_index_value (c : ExcelCoordinate.t) (df : list (list value)) (i : Z) :
  _get_column_index c df = Ok i ->
  i = ExcelCoordinate.column_to_index (ExcelCoordinate.column c) /\
  (ExcelCoordinate.coord_type c = ExcelCoordinate.Column \/
   ExcelCoordinate.coord_type c = ExcelCoordinate.Single).
Proof.
  unfold _get_column_index.
  destruct (ExcelCoordinate.coord_type c); intros [= <-]; auto.
Qed.

Lemma get_column_index_any_table (c : ExcelCoordinate.t) (df df' : list (list value)) :
  _get_column_index c df = _get_column_index c df'.
Proof. reflexivity. Qed.

Lemma iloc_col_selects (df : list (list value)) (j : Z) (s : list (Z * value)) :
  iloc_col df j = Ok s ->
  exists (k : nat) (column : list value), selects df j k column /\ s = of_list column.
Proof.
  unfold iloc_col.
  destruct (norm_index (length df) j) as [k |] eqn:Hnorm; [| discriminate].
  destruct (df !! k) as [column |] eqn:Hk; [| discriminate].
  intros [= <-]. exists k, column. now repeat split.
Qed.

Lemma selects_in_range (df : list (list value)) (j : Z) :
  0 <= j < ncols df ->
  exists column : list value, selects df j (Z.to_nat j) column.
Proof.
  unfold ncols. intros Hj.
  destruct (lookup_lt_is_Some_2 df (Z.to_nat j)) as [column Hcolumn]; [lia |].
  exists column. split; [now apply norm_index_in_range | assumption].
Qed.

Lemma selects_elem (df : list (list value)) (j : Z) (k : nat) (column : list value) :
  selects df j k column -> column ∈ df.
Proof. intros [_ Hk]. eapply list_elem_of_lookup_2; eauto. Qed.

(** The insert phase that returned. *)
Lemma insert_values_ok (mapping : DataMapping)
    (target_data updated : gmap string (list (list value)))
    (source_values : list value) (ps : list Z) :
  _insert_values mapping target_data source_values ps = Ok updated ->
  exists (df : list (list value)) (j : Z) (k : nat) (column : list value)
         (st : list (list value) * Z),
    target_data !! target_file mapping = Some df /\
    _get_column_index (target_insert_coordinate mapping) df = Ok j /\
    j < ncols df /\
    selects df j k column /\
    insert_loop (overwrite_existing mapping) j source_values 0 ps (df, 0) = Ok st /\
    updated = <[target_file mapping := st.1]> target_data.
Proof.
  unfold _insert_values.
  destruct (target_data !! target_file mapping) as [df |]; [| discriminate].
  destruct (_get_column_index (target_insert_coordinate mapping) df)
    as [j | e] eqn:Hindex; [| discriminate].
  cbn [mbind result_bind Py.bind].
  destruct (ncols df <=? j) eqn:Hbound; [discriminate |].
  destruct (iloc_col df j) as [s | e] eqn:Hcol; [| discriminate].
  apply iloc_col_selects in Hcol as (k & column & Hsel & _).
  cbn [mbind result_bind Py.bind].
  destruct (insert_loop (overwrite_existing mapping) j source_values 0 ps (df, 0))
    as [st | e] eqn:Hloop; [| discriminate].
  cbn [mbind result_bind Py.bind]. intros [= <-].
  exists df, j, k, column, st.
  repeat split; try assumption; try reflexivity; try apply Hsel. lia.
Qed.

Section WithBuiltins.
Context {B : Builtins}.

(** The extract phase that returned. *)
Lemma extract_source_values_ok (mapping : DataMapping)
    (source_data : gmap string (list (list value))) (source_values : list value) :
  _extract_source_values mapping source_data = Ok source_values ->
  exists (df : list (list value)) (i1 i2 : Z) (k1 k2 : nat)
         (match_column value_column : list value) (rng : option (Z * Z))
         (selected : list (Z * value)),
    source_data !! source_file mapping = Some df /\
    _get_column_index (source_match_coordinate mapping) df = Ok i1 /\
    _get_column_index (source_value_coordinate mapping) df = Ok i2 /\
    i1 < ncols df /\ i2 < ncols df /\
    selects df i1 k1 match_column /\
    selects df i2 k2 value_column /\
    source_match_row_range mapping = Some rng /\
    getitem_mask (row_window rng (of_list value_column))
      (_apply_match_operator (row_window rng (of_list match_column))
         (source_match_value mapping) (match_operator mapping)) = Ok selected /\
    source_values = dropna_tolist selected.
Proof.
  unfold _extract_source_values.
  destruct (source_data !! source_file mapping) as [df |]; [| discriminate].
  destruct (_get_column_index (source_match_coordinate mapping) df)
    as [i1 | e] eqn:Hi1; [| discriminate].
  destruct (_get_column_index (source_value_coordinate mapping) df)
    as [i2 | e] eqn:Hi2; [| discriminate].
  cbn [mbind result_bind Py.bind].
  destruct ((ncols df <=? i1) || (ncols df <=? i2)) eqn:Hbound; [discriminate |].
  apply orb_false_iff in Hbound as [Hb1 Hb2].
  destruct (iloc_col df i1) as [s1 | e] eqn:Hc1; [| discriminate].
  destruct (iloc_col df i2) as [s2 | e] eqn:Hc2; [| discriminate].
  apply iloc_col_selects in Hc1 as (k1 & match_column & Hsel1 & ->).
  apply iloc_col_selects in Hc2 as (k2 & value_column & Hsel2 & ->).
  cbn [mbind result_bind Py.bind].
  destruct (source_match_row_range mapping) as [rng |] eqn:Hrng; [| discriminate].
  cbn [getattr mbind result_bind Py.bind].
  destruct (getitem_mask _ _) as [selected | e] eqn:Hsel; [| discriminate].
  cbn [mbind result_bind Py.bind]. intros [= <-].
  exists df, i1, i2, k1, k2, match_column, value_column, rng, selected.
  repeat split; try assumption; try reflexivity;
    try apply Hsel1; try apply Hsel2; lia.
Qed.

(** The locate phase that returned. *)
Lemma find_target_positions_value (mapping : DataMapping)
    (target_data : gmap string (list (list value))) (ps : list Z) :
  _find_target_positions mapping target_data = Ok ps ->
  exists (df : list (list value)) (idx : Z) (k : nat) (match_column : list value)
         (rng : option (Z * Z)),
    target_data !! target_file mapping = Some df /\
    _get_column_index (target_match_coordinate mapping) df = Ok idx /\
    idx < ncols df /\
    selects df idx k match_column /\
    target_match_row_range mapping = Some rng /\
    ps = true_labels
           (_apply_match_operator (row_window rng (of_list match_column))
              (target_match_value mapping) (match_operator mapping)).
Proof.
  unfold _find_target_positions.
  destruct (target_data !! target_file mapping) as [df |]; [| discriminate].
  destruct (_get_column_index (target_match_coordinate mapping) df)
    as [idx | e] eqn:Hindex; [| discriminate].
  cbn [mbind result_bind Py.bind].
  destruct (ncols df <=? idx) eqn:Hbound; [discriminate |].
  destruct (iloc_col df idx) as [s | e] eqn:Hcol; [| discriminate].
  apply iloc_col_selects in Hcol as (k & match_column & Hsel & ->).
  cbn [mbind result_bind Py.bind].
  destruct (target_match_row_range mapping) as [rng |] eqn:Hrng; [| discriminate].
  cbn [getattr mbind result_bind Py.bind]. intros [= <-].
  exists df, idx, k, match_column, rng.
  repeat split; try assumption; try reflexivity; try apply Hsel; lia.
Qed.

(** A rule that returned: the tables it was given, or what the insert
    phase made of them from values and positions. *)
Lemma execute_mapping_ok (mapping : DataMapping)
    (source_data target_data updated : gmap string (list (list value))) :
  execute_mapping mapping source_data target_data = Ok updated ->
  updated = target_data \/
  exists (source_values : list value) (ps : list Z),
    source_values <> [] /\ ps <> [] /\
    _extract_source_values mapping source_data = Ok source_values /\
    _find_target_positions mapping target_data = Ok ps /\
    _insert_values mapping target_data source_values ps = Ok updated.
Proof.
  unfold execute_mapping.
  destruct (_extract_source_values mapping source_data) as [vs | e] eqn:Hextract;
    [| discriminate].
  cbn [mbind result_bind Py.bind].
  destruct vs as [| v vs]; [intros [= <-]; now left |].
  destruct (_find_target_positions mapping target_data) as [ps | e] eqn:Hfind;
    [| discriminate].
  cbn [mbind result_bind Py.bind].
  destruct ps as [| p ps].
  - destruct (no_position_report mapping target_data); [| discriminate].
    cbn [mbind result_bind Py.bind]. intros [= <-]. now left.
  - intros Hinsert. right. exists (v :: vs), (p :: ps).
    repeat split; try assumption; discriminate.
Qed.

End WithBuiltins.
End Phases.
(** ** Rules that cannot run, and what a rule extracts *)

Section RuleOutcomes.
Import Py Pandas DataMappingEngine Spec.
Context {B : Builtins}.

Lemma execute_mapping_raises_with_extract (mapping : DataMapping)
    (source_data target_data : gmap string (list (list value))) (e : exn) :
  _extract_source_values mapping source_data = Raise e ->
  execute_mapping mapping source_data target_data = Raise e.
Proof. intros H. unfold execute_mapping. now rewrite H. Qed.

Lemma batch_of_unchanging_rules (mappings : list DataMapping)
    (source_data target_data : gmap string (list (list value))) :
  (forall m : DataMapping,
     m ∈ mappings ->
     execute_mapping m source_data target_data = Ok target_data \/
     exists e : exn, execute_mapping m source_data target_data = Raise e) ->
  execute_multiple_mappings mappings source_data target_data = target_data.
Proof.
  induction mappings as [| m rest IH]; intros Hall; [reflexivity |].
  rewrite execute_multiple_mappings_cons.
  assert (Hm : match execute_mapping m source_data target_data with
               | Ok updated => updated
               | Raise _ => target_data
               end = target_data).
  { destruct (Hall m) as [-> | [e ->]]; [left | |]; reflexivity. }
  rewrite Hm. apply IH. intros m' Hm'. apply Hall. now right.
Qed.

(** The engine reads [mapping.source_match_row_range] of every rule it
    extracts from.  A rule object without that attribute, as the dataclass
    [DataMapping] builds it, makes [execute_mapping] raise whatever the
    tables are; a batch of such rules returns the target tables it was
    given. *)
Theorem rule_without_row_range_attribute (mappings : list DataMapping)
    (source_data target_data : gmap string (list (list value))) :
  (forall m : DataMapping, m ∈ mappings -> source_match_row_range m = None) ->
  (forall m : DataMapping,
     m ∈ mappings ->
     exists e : exn, execute_mapping m source_data target_data = Raise e) /\
  execute_multiple_mappings mappings source_data target_data = target_data.
Proof.
  intros Hattr.
  assert (Hraise : forall m : DataMapping,
             m ∈ mappings ->
             exists e : exn, execute_mapping m source_data target_data = Raise e).
  { intros m Hm.
    destruct (_extract_source_values m source_data) as [vs | e] eqn:Hextract.
    - apply extract_source_values_ok in Hextract
        as (? & ? & ? & ? & ? & ? & ? & rng & ? & _ & _ & _ & _ & _ & _ & _ & Hrng & _).
      rewrite (Hattr m Hm) in Hrng. discriminate Hrng.
    - exists e. now apply execute_mapping_raises_with_extract. }
  split; [exact Hraise |].
  apply batch_of_unchanging_rules. intros m Hm. right. now apply Hraise.
Qed.

(** A rule [validate_mapping] reports a problem for never changes a table:
    [execute_mapping] raises, or returns the target tables it was given. *)
Theorem reported_rule_changes_nothing (mapping : DataMapping)
    (source_data target_data : gmap string (list (list value))) :
  validate_mapping mapping source_data target_data <> [] ->
  (execute_mapping mapping source_data target_data = Ok target_data \/
   exists e : exn, execute_mapping mapping source_data target_data = Raise e) /\
  execute_multiple_mappings [mapping] source_data target_data = target_data.
Proof.
  intros Hreported.
  assert (Hone : execute_mapping mapping source_data target_data = Ok target_data \/
                 exists e : exn,
                   execute_mapping mapping source_data target_data = Raise e).
  { destruct (execute_mapping mapping source_data target_data) as [updated | e]
      eqn:Hrun; [| right; now exists e].
    left. f_equal.
    apply execute_mapping_ok in Hrun
      as [-> | (vs & ps & _ & _ & Hextract & Hfind & Hinsert)]; [reflexivity |].
    exfalso. apply Hreported.
    apply extract_source_values_ok in Hextract
      as (sdf & i1 & i2 & _ & _ & _ & _ & _ & _ & Hsfile & Hi1 & Hi2 & Hb1 & Hb2 & _).
    apply find_target_positions_value in Hfind
      as (tdf & j1 & _ & _ & _ & Htfile & Hj1 & Hc1 & _).
    apply insert_values_ok in Hinsert
      as (tdf' & j2 & _ & _ & _ & Htfile' & Hj2 & Hc2 & _).
    assert (tdf' = tdf) as -> by congruence.
    unfold validate_mapping, check_columns.
    rewrite Hsfile, Htfile, Hi1, Hi2, Hj1, Hj2.
    cbn [mbind result_bind Py.bind].
    destruct (ncols sdf <=? i1) eqn:?; [lia |].
    destruct (ncols sdf <=? i2) eqn:?; [lia |].
    destruct (ncols tdf <=? j1) eqn:?; [lia |].
    destruct (ncols tdf <=? j2) eqn:?; [lia |].
    reflexivity. }
  split; [exact Hone |].
  apply batch_of_unchanging_rules. intros m Hm.
  apply list_elem_of_singleton in Hm as ->. exact Hone.
Qed.

Lemma getitem_mask_sublist {A : Type} (s : list (Z * A)) (mask : list (Z * bool))
    (selected : list (Z * A)) :
  getitem_mask s mask = Ok selected -> sublist selected s.
Proof.
  revert selected. induction s as [| [l x] s IH]; intros selected.
  - intros [= <-]. constructor.
  - cbn [getitem_mask].
    destruct (label_lookup l mask) as [keep |]; [| discriminate].
    destruct (getitem_mask s mask) as [rest | e]; [| discriminate].
    intros [= <-]. specialize (IH rest eq_refl).
    destruct keep; now constructor.
Qed.

(** The values a rule extracts are cells of its value column, in row
    order, and none of them is missing: [dropna] has removed NaN and
    [None]. *)
Theorem extracted_values_are_present (mapping : DataMapping)
    (source_data : gmap string (list (list value))) (source_values : list value) :
  _extract_source_values mapping source_data = Ok source_values ->
  (forall v : value, v ∈ source_values -> isna v = false) /\
  exists (df : list (list value)) (i : Z) (k : nat) (value_column : list value),
    source_data !! source_file mapping = Some df /\
    _get_column_index (source_value_coordinate mapping) df = Ok i /\
    selects df i k value_column /\
    sublist source_values value_column.
Proof.
  intros Hextract.
  apply extract_source_values_ok in Hextract
    as (df & i1 & i2 & k1 & k2 & match_column & value_column & rng & selected &
        Hfile & _ & Hi2 & _ & _ & _ & Hsel & _ & Hmask & ->).
  split.
  - intros v Hv. unfold dropna_tolist in Hv.
    now apply list_elem_of_filter in Hv as [Hv _].
  - exists df, i2, k2, value_column. repeat split; try assumption; try apply Hsel.
    apply getitem_mask_sublist in Hmask.
    assert (Hvalues : sublist (values selected) (values (of_list value_column))).
    { apply (fmap_sublist snd). etransitivity; [exact Hmask |].
      destruct rng as [[start end_] |]; [| reflexivity].
      unfold row_window, iloc_slice.
      etransitivity; [apply sublist_take | apply sublist_drop]. }
    rewrite values_of_list in Hvalues.
    unfold dropna_tolist. etransitivity; [apply sublist_filter | exact Hvalues].
Qed.

End RuleOutcomes.
(** ** What a rule and a batch leave as it was *)

Section Shape.
Import Py Pandas DataMappingEngine Spec.

Lemma same_shape_refl (df : list (list value)) : same_shape df df.
Proof. unfold same_shape. now apply Forall_Forall2_diag, Forall_forall. Qed.

Lemma same_shape_trans (df df' df'' : list (list value)) :
  same_shape df df' -> same_shape df' df'' -> same_shape df df''.
Proof.
  unfold same_shape. intros H. revert df''.
  induction H as [| c c' df df' Hc H IH]; intros df'' H';
    inversion H' as [| c0 c'' df0 df''0 Hc' H'']; subst; constructor.
  - congruence.
  - now apply IH.
Qed.

Lemma same_shape_length (df df' : list (list value)) :
  same_shape df df' -> length df' = length df.
Proof. intros H. symmetry. eapply Forall2_length; eauto. Qed.

Lemma same_shape_insert (df : list (list value)) (k : nat) (col col' : list value) :
  df !! k = Some col -> length col' = length col ->
  same_shape df (<[k := col']> df).
Proof.
  intros Hk Hlen. unfold same_shape.
  apply Forall2_same_length_lookup. split; [now rewrite length_insert |].
  intros i c c' Hc Hc'.
  destruct (decide (i = k)) as [-> | Hne].
  - rewrite list_lookup_insert_eq in Hc' by (eapply lookup_lt_Some; eauto).
    congruence.
  - rewrite list_lookup_insert_ne in Hc' by congruence. congruence.
Qed.

Lemma same_shape_rectangular (df df' : list (list value)) :
  same_shape df df' -> rectangular df -> rectangular df'.
Proof.
  unfold same_shape, rectangular. intros Hshape Hrect c c' Hc Hc'.
  apply list_elem_of_lookup in Hc as [i Hi], Hc' as [i' Hi'].
  destruct (Forall2_lookup_r _ _ _ _ _ Hshape Hi) as (d & Hd & Hlen).
  destruct (Forall2_lookup_r _ _ _ _ _ Hshape Hi') as (d' & Hd' & Hlen').
  rewrite <- Hlen, <- Hlen'.
  apply Hrect; eapply list_elem_of_lookup_2; eauto.
Qed.

(** A write changes one cell of the column [j] selects. *)
Lemma iloc_set_shape (df df' : list (list value)) (pos j : Z) (x : value) :
  iloc_set df pos j x = Ok df' ->
  same_shape df df' /\
  (forall k : nat, norm_index (length df) j <> Some k -> df' !! k = df !! k).
Proof.
  unfold iloc_set.
  destruct (norm_index (length df) j) as [k0 |] eqn:Hnorm; [| discriminate].
  destruct (df !! k0) as [col |] eqn:Hk0; [| discriminate].
  destruct (norm_index (length col) pos) as [r |]; [| discriminate].
  intros [= <-]. split.
  - apply (same_shape_insert df k0 col); [assumption | apply length_insert].
  - intros k Hk. apply list_lookup_insert_ne. congruence.
Qed.

Lemma insert_at_shape (overwrite : bool) (j : Z) (new_value : value)
    (st st' : list (list value) * Z) (pos : Z) :
  insert_at overwrite j new_value st pos = Ok st' ->
  same_shape st.1 st'.1 /\
  (forall k : nat, norm_index (length st.1) j <> Some k -> st'.1 !! k = st.1 !! k).
Proof.
  unfold insert_at.
  destruct (iloc_get st.1 pos j) as [old |]; [| discriminate].
  cbn [mbind result_bind Py.bind].
  destruct (overwrite || isna old).
  - destruct (iloc_set st.1 pos j new_value) as [df |] eqn:Hset; [| discriminate].
    cbn [mbind result_bind Py.bind]. intros [= <-]. cbn [fst].
    now apply iloc_set_shape in Hset.
  - intros [= <-]. split; [apply same_shape_refl | reflexivity].
Qed.

Lemma insert_loop_shape (overwrite : bool) (j : Z) (source_values : list value)
    (ps : list Z) :
  forall (i : nat) (st st' : list (list value) * Z),
    insert_loop overwrite j source_values i ps st = Ok st' ->
    same_shape st.1 st'.1 /\
    (forall k : nat, norm_index (length st.1) j <> Some k -> st'.1 !! k = st.1 !! k).
Proof.
  induction ps as [| pos ps IH]; intros i st st'.
  - intros [= <-]. split; [apply same_shape_refl | reflexivity].
  - cbn [insert_loop].
    destruct (insert_step overwrite j source_values st i pos) as [st1 |] eqn:Hstep;
      [| discriminate].
    cbn [mbind result_bind Py.bind]. intros Hloop.
    apply IH in Hloop as [Hshape' Hother'].
    assert (Hfirst : same_shape st.1 st1.1 /\
                     (forall k : nat, norm_index (length st.1) j <> Some k ->
                                      st1.1 !! k = st.1 !! k)).
    { rewrite insert_step_pick in Hstep.
      destruct (pick source_values i).
      - now apply insert_at_shape in Hstep.
      - injection Hstep as <-. split; [apply same_shape_refl | reflexivity]. }
    destruct Hfirst as [Hshape Hother].
    split; [now apply (same_shape_trans _ st1.1) |].
    intros k Hk. rewrite Hother', Hother; try assumption; [reflexivity |].
    now rewrite (same_shape_length _ _ Hshape).
Qed.

Lemma insert_values_shape (mapping : DataMapping)
    (target_data updated : gmap string (list (list value)))
    (source_values : list value) (ps : list Z) :
  _insert_values mapping target_data source_values ps = Ok updated ->
  exists df df' : list (list value),
    target_data !! target_file mapping = Some df /\
    updated = <[target_file mapping := df']> target_data /\
    same_shape df df' /\
    (forall k : nat,
       norm_index (length df)
         (ExcelCoordinate.column_to_index
            (ExcelCoordinate.column (target_insert_coordinate mapping))) <> Some k ->
       df' !! k = df !! k).
Proof.
  intros Hinsert.
  apply insert_values_ok in Hinsert as (df & j & k & column & st & Hfile & Hj & _ & _ & Hloop & ->).
  apply get_column_index_value in Hj as [-> _].
  apply insert_loop_shape in Hloop as [Hshape Hother].
  exists df, st.1. now repeat split.
Qed.

Section WithBuiltins.
Context {B : Builtins}.

(** What a rule that returns has done to the tables: nothing, or it has put
    a table of the same shape in the place of its target table. *)
Lemma execute_mapping_change (mapping : DataMapping)
    (source_data target_data updated : gmap string (list (list value))) :
  execute_mapping mapping source_data target_data = Ok updated ->
  updated = target_data \/
  exists df df' : list (list value),
    target_data !! target_file mapping = Some df /\
    updated = <[target_file mapping := df']> target_data /\
    same_shape df df' /\
    (forall k : nat,
       norm_index (length df)
         (ExcelCoordinate.column_to_index
            (ExcelCoordinate.column (target_insert_coordinate mapping))) <> Some k ->
       df' !! k = df !! k).
Proof.
  intros Hrun.
  apply execute_mapping_ok in Hrun as [-> | (vs & ps & _ & _ & _ & _ & Hinsert)];
    [now left | right].
  now apply insert_values_shape in Hinsert.
Qed.

(** A rule that returns leaves every table but its target as it was, and
    in its target table changes cells of the insert column only: the table
    keeps its columns, every column its number of cells, and every other
    column its cells. *)
Theorem execute_mapping_keeps_shape (mapping : DataMapping)
    (source_data target_data updated : gmap string (list (list value))) :
  execute_mapping mapping source_data target_data = Ok updated ->
  (forall key : string,
     key <> target_file mapping -> updated !! key = target_data !! key) /\
  option_Forall2 same_shape
    (target_data !! target_file mapping) (updated !! target_file mapping) /\
  (forall (df df' : list (list value)) (k : nat),
     target_data !! target_file mapping = Some df ->
     updated !! target_file mapping = Some df' ->
     norm_index (length df)
       (ExcelCoordinate.column_to_index
          (ExcelCoordinate.column (target_insert_coordinate mapping))) <> Some k ->
     df' !! k = df !! k).
Proof.
  intros Hrun.
  apply execute_mapping_change in Hrun
    as [-> | (df & df' & Hfile & -> & Hshape & Hother)].
  - split; [reflexivity | split].
    + destruct (target_data !! target_file mapping);
        constructor. apply same_shape_refl.
    + intros df df' k Hdf Hdf' _. congruence.
  - split; [| split].
    + intros key Hkey. now rewrite lookup_insert_ne.
    + rewrite Hfile, lookup_insert_eq. now constructor.
    + intros df0 df0' k Hdf0 Hdf0'. rewrite lookup_insert_eq in Hdf0'.
      assert (df0 = df) as -> by congruence.
      assert (df0' = df') as -> by congruence.
      apply Hother.
Qed.

(** A batch keeps the set of tables and the shape of each: no table is
    added or dropped, none gains or loses a column or a row; and a table
    that is no rule's target comes back as it was. *)
Theorem batch_keeps_tables (mappings : list DataMapping)
    (source_data : gmap string (list (list value))) :
  forall (target_data : gmap string (list (list value))) (key : string),
    option_Forall2 same_shape
      (target_data !! key)
      (execute_multiple_mappings mappings source_data target_data !! key) /\
    ((forall m : DataMapping, m ∈ mappings -> target_file m <> key) ->
     execute_multiple_mappings mappings source_data target_data !! key =
     target_data !! key).
Proof.
  induction mappings as [| m rest IH]; intros target_data key.
  - split; [| reflexivity].
    cbn. destruct (target_data !! key); constructor. apply same_shape_refl.
  - rewrite execute_multiple_mappings_cons.
    destruct (execute_mapping m source_data target_data) as [updated | e] eqn:Hrun.
    + destruct (IH updated key) as [Hshape Hsame].
      apply execute_mapping_change in Hrun
        as [-> | (df & df' & Hfile & -> & Hstep & _)].
      * split; [exact Hshape |].
        intros Hno. apply Hsame. intros m' Hm'. apply Hno. now right.
      * split.
        -- destruct (decide (key = target_file m)) as [-> | Hne].
           ++ rewrite Hfile.
              rewrite lookup_insert_eq in Hshape.
              inversion Hshape as [df1 df2 Hshape' |]; subst.
              constructor. now apply (same_shape_trans df df').
           ++ now rewrite lookup_insert_ne in Hshape by congruence.
        -- intros Hno. rewrite Hsame.
           ++ apply lookup_insert_ne. intros <-.
              apply (Hno m); [now left | reflexivity].
           ++ intros m' Hm'. apply Hno. now right.
    + destruct (IH target_data key) as [Hshape Hsame].
      split; [exact Hshape |].
      intros Hno. apply Hsame. intros m' Hm'. apply Hno. now right.
Qed.

End WithBuiltins.
End Shape.
(** ** A validated rule runs; positions stay in the row range *)

Section ValidatedRules.
Import Py Pandas DataMappingEngine Spec.

Lemma check_columns_nil (c1 c2 : ExcelCoordinate.t) (df : list (list value))
    (p1 p2 config : problem) :
  check_columns c1 c2 df p1 p2 config = [] ->
  exists i1 i2 : Z,
    _get_column_index c1 df = Ok i1 /\ _get_column_index c2 df = Ok i2 /\
    i1 < ncols df /\ i2 < ncols df.
Proof.
  unfold check_columns.
  destruct (_get_column_index c1 df) as [i1 |]; [| discriminate].
  destruct (_get_column_index c2 df) as [i2 |]; [| discriminate].
  cbn [mbind result_bind Py.bind]. intros H.
  apply app_eq_nil in H as [H1 H2].
  destruct (ncols df <=? i1) eqn:Hb1; [discriminate |].
  destruct (ncols df <=? i2) eqn:Hb2; [discriminate |].
  exists i1, i2. repeat split; lia.
Qed.

(** What [validate_mapping] has checked when it reports nothing. *)
Lemma validate_mapping_nil (mapping : DataMapping)
    (source_data target_data : gmap string (list (list value))) :
  validate_mapping mapping source_data target_data = [] ->
  exists (sdf tdf : list (list value)) (i1 i2 j1 j2 : Z),
    source_data !! source_file mapping = Some sdf /\
    target_data !! target_file mapping = Some tdf /\
    _get_column_index (source_match_coordinate mapping) sdf = Ok i1 /\
    _get_column_index (source_value_coordinate mapping) sdf = Ok i2 /\
    _get_column_index (target_match_coordinate mapping) tdf = Ok j1 /\
    _get_column_index (target_insert_coordinate mapping) tdf = Ok j2 /\
    i1 < ncols sdf /\ i2 < ncols sdf /\ j1 < ncols tdf /\ j2 < ncols tdf.
Proof.
  unfold validate_mapping. intros H. apply app_eq_nil in H as [Hs Ht].
  destruct (source_data !! source_file mapping) as [sdf |]; [| discriminate].
  destruct (target_data !! target_file mapping) as [tdf |]; [| discriminate].
  apply check_columns_nil in Hs as (i1 & i2 & Hi1 & Hi2 & Hb1 & Hb2).
  apply check_columns_nil in Ht as (j1 & j2 & Hj1 & Hj2 & Hc1 & Hc2).
  exists sdf, tdf, i1, i2, j1, j2. now repeat split.
Qed.

Lemma label_lookup_is_Some {A : Type} (l : Z) (s : list (Z * A)) :
  l ∈ index s -> is_Some (label_lookup l s).
Proof.
  unfold index. induction s as [| [l' x] s IH]; intros Hl.
  - now apply elem_of_nil in Hl.
  - cbn [label_lookup]. destruct (l =? l') eqn:Heq; [now eexists |].
    apply IH. cbn in Hl. apply elem_of_cons in Hl as [-> | Hl]; [lia | exact Hl].
Qed.

Lemma getitem_mask_total {A : Type} (s : list (Z * A)) (mask : list (Z * bool)) :
  (forall l : Z, l ∈ index s -> l ∈ index mask) ->
  exists selected : list (Z * A), getitem_mask s mask = Ok selected.
Proof.
  unfold index. induction s as [| [l x] s IH]; intros Hall; [now eexists |].
  cbn [getitem_mask].
  destruct (label_lookup_is_Some l mask) as [keep ->].
  { apply Hall. cbn. now left. }
  destruct IH as [rest ->]; [| now eexists].
  intros l' Hl'. apply Hall. cbn. now right.
Qed.

Lemma length_of_list {A : Type} (xs : list A) : length (of_list xs) = length xs.
Proof. unfold of_list. apply length_imap. Qed.

Section WithBuiltins.
Context {B : Builtins}.

(** The body of [_apply_match_operator], when it returns, answers on the
    labels of the column. *)
Lemma match_operator_body_index (column : list (Z * value)) (v : value)
    (operator : FilterOperator) (mask : list (Z * bool)) :
  match_operator_body column v operator = Ok mask -> index mask = index column.
Proof.
  intros Hbody. destruct operator; cbn in Hbody;
    try (destruct (to_numeric column) as [numbers |] eqn:Hnum; cbn in Hbody;
         [| discriminate];
         destruct (float v); cbn in Hbody; [| discriminate];
         injection Hbody as <-; rewrite index_smap; now apply to_numeric_index);
    try (destruct (re_compile (str v)); [| discriminate]);
    try (injection Hbody as <-; unfold mask_not, ne_scalar; now rewrite ?index_smap).
  destruct (negb (any (eq_scalar column v)));
    [| injection Hbody as <-; apply index_smap].
  destruct (type_converted_matches column v) as [| m ms] eqn:Hms;
    injection Hbody as <-; [apply index_smap |].
  change (index (fold_left mask_or (m :: ms) (eq_scalar column v)) = index column).
  apply fold_mask_or_index.
  - apply index_smap.
  - unfold eq_scalar, smap. apply length_map.
  - intros m' Hm'. apply (converted_matches_index column v). now rewrite Hms.
Qed.

(** The rows a mask selects are rows of its column. *)
Lemma true_labels_of_column (column : list (Z * value)) (v : value)
    (operator : FilterOperator) (p : Z) :
  p ∈ true_labels (_apply_match_operator column v operator) -> p ∈ index column.
Proof.
  unfold _apply_match_operator.
  destruct (match_operator_body column v operator) as [mask | e] eqn:Hbody.
  - rewrite <- (match_operator_body_index _ _ _ _ Hbody).
    unfold true_labels, index. intros Hp.
    apply list_elem_of_fmap in Hp as (q & -> & Hq).
    apply list_elem_of_filter in Hq as [_ Hq].
    apply list_elem_of_fmap. now exists q.
  - rewrite true_labels_all_false. intros Hp. now apply elem_of_nil in Hp.
Qed.

(** On a table whose columns are of one length, the mask of the match
    column selects from the value column without an alignment error. *)
Lemma extract_source_values_runs (mapping : DataMapping)
    (source_data : gmap string (list (list value))) (sdf : list (list value))
    (i1 i2 : Z) :
  source_data !! source_file mapping = Some sdf ->
  _get_column_index (source_match_coordinate mapping) sdf = Ok i1 ->
  _get_column_index (source_value_coordinate mapping) sdf = Ok i2 ->
  0 <= i1 < ncols sdf -> 0 <= i2 < ncols sdf ->
  source_match_row_range mapping = Some None ->
  rectangular sdf ->
  exists source_values : list value,
    _extract_source_values mapping source_data = Ok source_values.
Proof.
  intros Hfile Hi1 Hi2 Hb1 Hb2 Hrng Hrect.
  destruct (selects_in_range sdf i1 Hb1) as [match_column Hsel1].
  destruct (selects_in_range sdf i2 Hb2) as [value_column Hsel2].
  unfold _extract_source_values. rewrite Hfile, Hi1, Hi2.
  cbn [mbind result_bind Py.bind].
  destruct ((ncols sdf <=? i1) || (ncols sdf <=? i2)) eqn:Hbound; [lia |].
  rewrite (selects_iloc_col _ _ _ _ Hsel1), (selects_iloc_col _ _ _ _ Hsel2).
  cbn [mbind result_bind Py.bind]. rewrite Hrng.
  cbn [getattr mbind result_bind Py.bind row_window].
  destruct (getitem_mask_total (of_list value_column)
              (_apply_match_operator (of_list match_column)
                 (source_match_value mapping) (match_operator mapping)))
    as [selected ->]; [| now eexists].
  assert (Hlen : length match_column = length value_column).
  { apply Hrect; eapply selects_elem; eauto. }
  intros l Hl. rewrite index_of_list in Hl.
  destruct (apply_match_operator_index (of_list match_column)
              (source_match_value mapping) (match_operator mapping)) as [-> | ->].
  - now rewrite index_of_list, Hlen.
  - now rewrite length_of_list, Hlen.
Qed.

Lemma find_target_positions_runs (mapping : DataMapping)
    (target_data : gmap string (list (list value))) (tdf : list (list value))
    (j1 : Z) :
  target_data !! target_file mapping = Some tdf ->
  _get_column_index (target_match_coordinate mapping) tdf = Ok j1 ->
  0 <= j1 < ncols tdf ->
  is_Some (target_match_row_range mapping) ->
  exists ps : list Z, _find_target_positions mapping target_data = Ok ps.
Proof.
  intros Hfile Hj1 Hb [rng Hrng].
  destruct (selects_in_range tdf j1 Hb) as [match_column Hsel].
  unfold _find_target_positions. rewrite Hfile, Hj1.
  cbn [mbind result_bind Py.bind].
  destruct (ncols tdf <=? j1) eqn:Hbound; [lia |].
  rewrite (selects_iloc_col _ _ _ _ Hsel).
  cbn [mbind result_bind Py.bind]. rewrite Hrng.
  cbn [getattr mbind result_bind Py.bind]. now eexists.
Qed.

(** A rule [validate_mapping] reports nothing for runs to the end on
    rectangular tables, when its coordinates name columns by letters and
    its row-range attributes are set (no source range): [execute_mapping]
    returns tables and raises nothing. *)
Theorem validated_rule_runs (mapping : DataMapping)
    (source_data target_data : gmap string (list (list value))) :
  validate_mapping mapping source_data target_data = [] ->
  names_columns mapping = true ->
  source_match_row_range mapping = Some None ->
  is_Some (target_match_row_range mapping) ->
  rectangular_tables source_data ->
  rectangular_tables target_data ->
  exists updated : gmap string (list (list value)),
    execute_mapping mapping source_data target_data = Ok updated.
Proof.
  intros Hvalid Hnames Hsrng Htrng Hsrect Htrect.
  apply validate_mapping_nil in Hvalid
    as (sdf & tdf & i1 & i2 & j1 & j2 & Hsfile & Htfile & Hi1 & Hi2 & Hj1 & Hj2 &
        Hb1 & Hb2 & Hc1 & Hc2).
  unfold names_columns in Hnames.
  apply andb_true_iff in Hnames as [Hnames Hn4].
  apply andb_true_iff in Hnames as [Hnames Hn3].
  apply andb_true_iff in Hnames as [Hn1 Hn2].
  apply column_to_index_nonneg in Hn1, Hn2, Hn3, Hn4.
  pose proof (get_column_index_value _ _ _ Hi1) as [Ei1 _].
  pose proof (get_column_index_value _ _ _ Hi2) as [Ei2 _].
  pose proof (get_column_index_value _ _ _ Hj1) as [Ej1 _].
  pose proof (get_column_index_value _ _ _ Hj2) as [Ej2 _].
  destruct (extract_source_values_runs mapping source_data sdf i1 i2)
    as [vs Hextract]; try assumption; try lia; [now apply (Hsrect _ _ Hsfile) |].
  destruct (find_target_positions_runs mapping target_data tdf j1)
    as [ps Hfind]; try assumption; try lia.
  unfold execute_mapping. rewrite Hextract. cbn [mbind result_bind Py.bind].
  destruct vs as [| v vs]; [now eexists |].
  rewrite Hfind. cbn [mbind result_bind Py.bind].
  destruct ps as [| p ps].
  - rewrite (no_position_report_ok _ _ _ Hfind). now eexists.
  - destruct (positions_are_rows _ _ _ Hfind)
      as (tdf' & j1' & k & match_column & Htfile' & _ & Hsel & Hnodup & Hrange).
    assert (tdf' = tdf) as -> by congruence.
    destruct (selects_in_range tdf j2 ltac:(lia)) as [column Hcolumn].
    destruct (insert_values_spec mapping target_data tdf j2 (Z.to_nat j2) column
                (v :: vs) (p :: ps)) as (column' & -> & _); try assumption.
    + discriminate.
    + intros q Hq.
      replace (length column) with (length match_column); [now apply Hrange |].
      apply (Htrect _ _ Htfile); eapply selects_elem; eauto.
    + now eexists.
Qed.

End WithBuiltins.
End ValidatedRules.
(** ** The row range of the locate phase *)

Section RowRange.
Import Py Pandas DataMappingEngine Spec.

Lemma of_list_lookup {A : Type} (xs : list A) (i : nat) (l : Z) (x : A) :
  of_list xs !! i = Some (l, x) -> l = Z.of_nat i /\ xs !! i = Some x.
Proof.
  unfold of_list. rewrite list_lookup_imap.
  destruct (xs !! i) as [y |]; [| discriminate].
  cbn. intros [= <- <-]. now split.
Qed.

(** The labels of [column.iloc[start-1:end]], for a range from row 1 on. *)
Lemma row_window_labels {A : Type} (xs : list A) (start end_ l : Z) :
  1 <= start -> 0 <= end_ ->
  l ∈ index (row_window (Some (start, end_)) (of_list xs)) ->
  start - 1 <= l < end_ /\ l < Z.of_nat (length xs).
Proof.
  intros Hstart Hend Hl. unfold index in Hl.
  apply list_elem_of_fmap in Hl as ([l' x] & -> & Hin). cbn [fst].
  unfold row_window, iloc_slice in Hin.
  apply list_elem_of_lookup in Hin as [i Hi].
  apply lookup_take_Some in Hi as [Hi Hlt].
  rewrite lookup_drop in Hi.
  pose proof (lookup_lt_Some _ _ _ Hi) as Hbound.
  apply of_list_lookup in Hi as [-> _].
  rewrite length_of_list in *.
  unfold clamp_bound in *.
  destruct (start - 1 <? 0) eqn:Hs; [lia |].
  destruct (end_ <? 0) eqn:He; [lia |]. lia.
Qed.

Section WithBuiltins.
Context {B : Builtins}.

(** With a target row range [(start, end)] from row 1 on, every position
    the locate phase returns is a row of the range: [start - 1 <= p < end]
    in 0-based rows, so the insert phase writes to no row outside it. *)
Theorem positions_stay_in_row_range (mapping : DataMapping)
    (target_data : gmap string (list (list value))) (ps : list Z)
    (start end_ : Z) :
  _find_target_positions mapping target_data = Ok ps ->
  target_match_row_range mapping = Some (Some (start, end_)) ->
  1 <= start -> 0 <= end_ ->
  forall p : Z, p ∈ ps -> start - 1 <= p < end_.
Proof.
  intros Hfind Hrng Hstart Hend p Hp.
  apply find_target_positions_value in Hfind
    as (df & idx & k & match_column & rng & _ & _ & _ & _ & Hrng' & ->).
  rewrite Hrng in Hrng'. injection Hrng' as <-.
  apply true_labels_of_column in Hp.
  now apply row_window_labels in Hp as [Hp _].
Qed.

End WithBuiltins.
End RowRange.
(** ** Running a rule again *)

Section RunningAgain.
Import Py Pandas DataMappingEngine Spec.

Lemma pick_elem (source_values : list value) (n : nat) (x : value) :
  pick source_values n = Some x -> x ∈ source_values.
Proof.
  unfold pick. destruct (source_values !! n) as [y |] eqn:Hn.
  - intros [= <-]. eapply list_elem_of_lookup_2; eauto.
  - intros Hlast. apply last_Some in Hlast as [l' ->].
    apply elem_of_app. right. now left.
Qed.

Lemma dropna_tolist_present (s : list (Z * value)) (v : value) :
  v ∈ dropna_tolist s -> isna v = false.
Proof.
  unfold dropna_tolist. intros Hv.
  now apply list_elem_of_filter in Hv as [Hv _].
Qed.

Lemma selects_functional (df : list (list value)) (j : Z) (k k' : nat)
    (column column' : list value) :
  selects df j k column -> selects df j k' column' -> k = k' /\ column = column'.
Proof. intros [H1 H2] [H1' H2']. split; congruence. Qed.

Lemma selects_from_zero (df : list (list value)) (j : Z) (k : nat)
    (column : list value) :
  0 <= j -> selects df j k column -> k = Z.to_nat j.
Proof.
  intros Hj [Hnorm Hk]. pose proof (norm_index_bound _ _ _ Hnorm) as Hlt.
  unfold norm_index in Hnorm.
  destruct ((0 <=? j) && (j <? Z.of_nat (length df))) eqn:Hin.
  - now injection Hnorm as <-.
  - destruct ((- Z.of_nat (length df) <=? j) && (j <? 0)) eqn:Hneg;
      [lia | discriminate].
Qed.

Lemma column_to_index_inj (a b : string) :
  valid_column a = true -> valid_column b = true ->
  ExcelCoordinate.column_to_index a = ExcelCoordinate.column_to_index b -> a = b.
Proof.
  unfold valid_column. rewrite !andb_true_iff. intros [_ Ha] [_ Hb] Heq.
  rewrite <- (index_to_column_of_column_to_index a Ha).
  rewrite <- (index_to_column_of_column_to_index b Hb).
  now rewrite Heq.
Qed.

(** Writing the values a column already holds: the second pass of the
    insert loop over the same positions leaves the column as the first pass
    made it. *)
Lemma second_pass_column (overwrite : bool) (source_values : list value)
    (ps : list Z) (column column' column'' : list value) :
  (forall v : value, v ∈ source_values -> isna v = false) ->
  length column' = length column ->
  length column'' = length column' ->
  (forall r : nat, Z.of_nat r ∉ ps -> column' !! r = column !! r) ->
  (forall (n : nat) (p : Z),
     ps !! n = Some p ->
     exists new old : value,
       pick source_values n = Some new /\
       column !! Z.to_nat p = Some old /\
       column' !! Z.to_nat p = Some (if overwrite || isna old then new else old)) ->
  (forall r : nat, Z.of_nat r ∉ ps -> column'' !! r = column' !! r) ->
  (forall (n : nat) (p : Z),
     ps !! n = Some p ->
     exists new old : value,
       pick source_values n = Some new /\
       column' !! Z.to_nat p = Some old /\
       column'' !! Z.to_nat p = Some (if overwrite || isna old then new else old)) ->
  column'' = column'.
Proof.
  intros Hpresent Hlen Hlen' Hkeep Hwrite Hkeep' Hwrite'.
  apply list_eq. intros r.
  destruct (decide (Z.of_nat r ∈ ps)) as [Hin | Hout]; [| now apply Hkeep'].
  apply list_elem_of_lookup in Hin as [n Hn].
  destruct (Hwrite n _ Hn) as (new & old & Hpick & Hold & Hnew).
  destruct (Hwrite' n _ Hn) as (new' & old' & Hpick' & Hold' & Hnew').
  rewrite Nat2Z.id in *.
  assert (new' = new) as -> by congruence.
  rewrite Hnew', Hold'. f_equal.
  assert (Hisna : isna new = false) by (apply Hpresent; eapply pick_elem; eauto).
  rewrite Hnew in Hold'. injection Hold' as <-.
  destruct overwrite; cbn [orb]; [reflexivity |].
  destruct (isna old) eqn:Hold_na; [now rewrite Hisna | now rewrite Hold_na].
Qed.

Section WithBuiltins.
Context {B : Builtins}.

(** Running a rule on the tables it returned returns them again, when the
    target table is rectangular and the rule's match column is not its
    insert column: the same rows are found, and each cell written the first
    time holds the value a second write would give it. *)
Theorem execute_mapping_idempotent (mapping : DataMapping)
    (source_data target_data updated : gmap string (list (list value))) :
  execute_mapping mapping source_data target_data = Ok updated ->
  rectangular_tables target_data ->
  valid_column (ExcelCoordinate.column (target_match_coordinate mapping)) = true ->
  valid_column (ExcelCoordinate.column (target_insert_coordinate mapping)) = true ->
  ExcelCoordinate.column (target_match_coordinate mapping) <>
    ExcelCoordinate.column (target_insert_coordinate mapping) ->
  execute_mapping mapping source_data updated = Ok updated.
Proof.
  intros Hrun Hrect Hmatch Hinsert Hdistinct.
  pose proof Hrun as Hfirst.
  apply execute_mapping_ok in Hrun
    as [-> | (vs & ps & Hvs & Hps & Hextract & Hfind & Hins)]; [exact Hfirst |].
  clear Hfirst.
  (* the first run *)
  pose proof Hextract as Hpresent.
  apply extract_source_values_ok in Hpresent
    as (? & ? & ? & ? & ? & ? & ? & ? & selected & _ & _ & _ & _ & _ & _ & _ & _ & _ & Hdrop).
  assert (Hvalues : forall v : value, v ∈ vs -> isna v = false).
  { intros v Hv. rewrite Hdrop in Hv. now apply dropna_tolist_present in Hv. }
  clear Hdrop.
  destruct (find_target_positions_value _ _ _ Hfind)
    as (df & idx & km & match_column & rng & Hfile & Hidx & Hidx_lt & Hselm & Hrng & Hps_eq).
  destruct (positions_are_rows _ _ _ Hfind)
    as (df0 & idx0 & km0 & match_column0 & Hfile0 & Hidx0 & Hselm0 & Hnodup & Hrange).
  assert (df0 = df) as -> by congruence.
  assert (idx0 = idx) as -> by congruence.
  destruct (selects_functional _ _ _ _ _ _ Hselm Hselm0) as [<- <-].
  clear Hfile0 Hidx0 Hselm0.
  destruct (insert_values_ok _ _ _ _ _ Hins)
    as (df0 & j & k & column & st & Hfile0 & Hj & Hj_lt & Hsel & _ & _).
  assert (df0 = df) as -> by congruence. clear Hfile0.
  assert (Hlen : length match_column = length column).
  { apply (Hrect _ _ Hfile); eapply selects_elem; eauto. }
  destruct (insert_values_spec mapping target_data df j k column vs ps)
    as (column' & Hresult & _ & Hlen' & Hkeep & Hwrite); try assumption.
  { intros p Hp. rewrite <- Hlen. now apply Hrange. }
  rewrite Hresult in Hins. injection Hins as <-.
  (* the match column is another column than the insert column *)
  pose proof (get_column_index_value _ _ _ Hidx) as [Eidx _].
  pose proof (get_column_index_value _ _ _ Hj) as [Ej _].
  pose proof (column_to_index_nonneg _ Hmatch) as Hidx0.
  pose proof (column_to_index_nonneg _ Hinsert) as Hj0.
  rewrite <- Eidx in Hidx0. rewrite <- Ej in Hj0.
  assert (Hkm : km <> k).
  { rewrite (selects_from_zero _ _ _ _ Hidx0 Hselm).
    rewrite (selects_from_zero _ _ _ _ Hj0 Hsel).
    intros Heq. apply Hdistinct.
    apply column_to_index_inj; try assumption. lia. }
  set (df' := <[k := column']> df) in *.
  set (updated := <[target_file mapping := df']> target_data) in *.
  assert (Hfile' : updated !! target_file mapping = Some df')
    by apply lookup_insert_eq.
  assert (Hselm' : selects df' idx km match_column).
  { destruct Hselm as [Hnorm Hkm']. split.
    - unfold df'. now rewrite length_insert.
    - unfold df'. now rewrite list_lookup_insert_ne by congruence. }
  (* the second run *)
  assert (Hfind' : _find_target_positions mapping updated = Ok ps).
  { unfold _find_target_positions. rewrite Hfile'.
    change (_get_column_index (target_match_coordinate mapping) df')
      with (_get_column_index (target_match_coordinate mapping) df).
    rewrite Hidx. cbn [mbind result_bind Py.bind].
    replace (ncols df') with (ncols df)
      by (unfold ncols, df'; now rewrite length_insert).
    destruct (ncols df <=? idx) eqn:Hb; [lia |].
    rewrite (selects_iloc_col _ _ _ _ Hselm').
    cbn [mbind result_bind Py.bind]. rewrite Hrng.
    cbn [getattr mbind result_bind Py.bind]. now rewrite Hps_eq. }
  destruct (insert_values_spec mapping updated df' j k column' vs ps)
    as (column'' & Hresult' & _ & Hlen'' & Hkeep' & Hwrite'); try assumption.
  { unfold ncols, df'. rewrite length_insert. exact Hj_lt. }
  { exact (selects_insert df j k column column' Hsel). }
  { intros p Hp. rewrite Hlen', <- Hlen. now apply Hrange. }
  assert (column'' = column') as ->.
  { apply (second_pass_column (overwrite_existing mapping) vs ps column);
      assumption. }
  unfold execute_mapping. rewrite Hextract. cbn [mbind result_bind Py.bind].
  destruct vs as [| v vs]; [congruence |].
  rewrite Hfind'. cbn [mbind result_bind Py.bind].
  destruct ps as [| p ps]; [congruence |].
  rewrite Hresult'. f_equal.
  unfold updated, df'.
  rewrite list_insert_insert_eq. apply insert_insert_eq.
Qed.

End WithBuiltins.
End RunningAgain.
(** ** The column names of a loaded table *)

Section ColumnNames.
Import Py Pandas ExcelCoordinate EnhancedExcelProcessor Spec.

Lemma rstrip_with_cons (space : ascii -> bool) (c : ascii) (s : string) :
  rstrip_with space (String c s) =
  match rstrip_with space s with
  | EmptyString => if space c then EmptyString else String c EmptyString
  | r => String c r
  end.
Proof. reflexivity. Qed.

Lemma rstrip_with_idem (space : ascii -> bool) (s : string) :
  rstrip_with space (rstrip_with space s) = rstrip_with space s.
Proof.
  induction s as [| c s IH]; [reflexivity |].
  rewrite rstrip_with_cons. destruct (rstrip_with space s) as [| d r] eqn:Hr.
  - destruct (space c) eqn:Hc; [reflexivity |].
    rewrite rstrip_with_cons. cbn [rstrip_with]. now rewrite Hc.
  - rewrite rstrip_with_cons, IH. reflexivity.
Qed.

Lemma lstrip_with_head_or_empty (space : ascii -> bool) (s : string) :
  lstrip_with space s = EmptyString \/
  exists (c : ascii) (t : string), lstrip_with space s = String c t /\ space c = false.
Proof.
  induction s as [| c s IH]; [now left |].
  cbn [lstrip_with]. destruct (space c) eqn:Hc; [exact IH |].
  right. now exists c, s.
Qed.

Lemma rstrip_with_keeps_head (space : ascii -> bool) (c : ascii) (t : string) :
  space c = false -> exists r : string, rstrip_with space (String c t) = String c r.
Proof.
  intros Hc. rewrite rstrip_with_cons. destruct (rstrip_with space t).
  - rewrite Hc. now eexists.
  - now eexists.
Qed.

(** The two ends of a stripped text are no spaces: stripping it again
    changes nothing. *)
Lemma strip_with_idem (space : ascii -> bool) (s : string) :
  let t := rstrip_with space (lstrip_with space s) in
  rstrip_with space (lstrip_with space t) = t.
Proof.
  cbn zeta.
  destruct (lstrip_with_head_or_empty space s) as [-> | (c & t & -> & Hc)];
    [reflexivity |].
  destruct (rstrip_with_keeps_head space c t Hc) as [r Hr].
  rewrite Hr, (lstrip_with_head space c r Hc), <- Hr.
  apply rstrip_with_idem.
Qed.

Lemma strip_idem (s : string) : strip (strip s) = strip s.
Proof. apply (strip_with_idem char_isspace). Qed.

(** [c] is not in [s]: no character of [s] is [c]. *)
Lemma contains_char_false (c : ascii) (s : string) :
  contains_char c s = false <-> str_all (fun d => negb (Ascii.eqb c d)) s = true.
Proof.
  induction s as [| d s IH]; [easy |].
  cbn [contains_char str_all]. destruct (Ascii.eqb c d); cbn; [easy | exact IH].
Qed.

Lemma remove_char_all (p : ascii -> bool) (c : ascii) (s : string) :
  str_all p s = true -> str_all p (remove_char c s) = true.
Proof.
  induction s as [| d s IH]; [reflexivity |].
  cbn [str_all remove_char]. rewrite andb_true_iff. intros [Hd Hs].
  destruct (Ascii.eqb d c); [auto |]. cbn [str_all]. rewrite Hd. auto.
Qed.

Lemma remove_char_removes (c : ascii) (s : string) :
  contains_char c (remove_char c s) = false.
Proof.
  induction s as [| d s IH]; [reflexivity |].
  cbn [remove_char]. destruct (Ascii.eqb d c) eqn:Hd; [exact IH |].
  cbn [contains_char]. rewrite Ascii.eqb_sym, Hd. exact IH.
Qed.

Lemma remove_char_id (c : ascii) (s : string) :
  contains_char c s = false -> remove_char c s = s.
Proof.
  induction s as [| d s IH]; [reflexivity |].
  cbn [contains_char remove_char]. rewrite (Ascii.eqb_sym d c).
  destruct (Ascii.eqb c d); [discriminate |]. intros Hs. now rewrite IH.
Qed.

Lemma strip_keeps_out (c : ascii) (s : string) :
  contains_char c s = false -> contains_char c (strip s) = false.
Proof. rewrite !contains_char_false. apply strip_all. Qed.

Lemma no_space_no_char (c : ascii) (s : string) :
  char_isspace c = true ->
  str_all (fun d => negb (char_isspace d)) s = true ->
  contains_char c s = false.
Proof.
  intros Hc Hs. apply contains_char_false. revert Hs. apply str_all_impl.
  intros d Hd. destruct (Ascii.eqb_spec c d) as [<- | _]; [| reflexivity].
  now rewrite Hc in Hd.
Qed.

(** The names given by position have no space in them. *)
Lemma numbered_name_no_space (i : nat) :
  str_all (fun d => negb (char_isspace d)) (numbered_name i) = true /\
  nonempty (numbered_name i) = true.
Proof.
  unfold numbered_name. split; [| reflexivity].
  rewrite str_all_append. rewrite andb_true_iff. split; [reflexivity |].
  destruct (str_of_int_digits (Z.of_nat i + 1)) as [Hd _]; [lia |].
  apply digits_are_text in Hd. revert Hd. apply str_all_impl.
  intros c Hc. now apply text_char_plain in Hc as (-> & _).
Qed.

Lemma positional_name_no_space (i : nat) :
  str_all (fun d => negb (char_isspace d)) (positional_name i) = true /\
  nonempty (positional_name i) = true.
Proof.
  do 5 (destruct i as [| i]; [split; reflexivity |]).
  apply numbered_name_no_space.
Qed.

(** What holds of a name without a space in it. *)
Lemma no_space_name (name : string) :
  str_all (fun d => negb (char_isspace d)) name = true ->
  contains_char "010" name = false /\ contains_char "013" name = false /\
  strip name = name.
Proof.
  intros Hname. repeat split.
  - now apply no_space_no_char.
  - now apply no_space_no_char.
  - now apply strip_id.
Qed.

Section WithBuiltins.
Context {B : Builtins}.

Lemma clean_column_name_form (i : nat) (col : value) :
  let name := clean_column_name i col in
  nonempty name = true /\
  contains_char "010" name = false /\ contains_char "013" name = false /\
  strip name = name.
Proof.
  cbn zeta. unfold clean_column_name.
  set (col_str := strip match col with VNone => "None" | _ => str col end).
  destruct (isna col || String.prefix "Unnamed" col_str || String.eqb col_str "nan").
  - destruct (positional_name_no_space i) as [Hspace Hne].
    split; [exact Hne | now apply no_space_name].
  - set (clean_name := strip (remove_char "013" (remove_char "010" col_str))).
    destruct (nonempty clean_name) eqn:Hne; cbn [negb].
    + split; [exact Hne |]. unfold clean_name. repeat split.
      * apply strip_keeps_out. rewrite contains_char_false.
        apply remove_char_all. rewrite <- contains_char_false.
        apply remove_char_removes.
      * apply strip_keeps_out, remove_char_removes.
      * apply strip_idem.
    + destruct (numbered_name_no_space i) as [Hspace Hne'].
      split; [exact Hne' | now apply no_space_name].
Qed.

(** [_clean_column_names] returns one name for each label, and every name
    is fit to be a header: not empty, without a line break, and without
    space at either end. *)
Theorem clean_column_names_are_clean (columns : list value) :
  length (_clean_column_names columns) = length columns /\
  forall name : string,
    name ∈ _clean_column_names columns ->
    nonempty name = true /\
    contains_char "010" name = false /\ contains_char "013" name = false /\
    strip name = name.
Proof.
  unfold _clean_column_names. split; [apply length_imap |].
  intros name Hname. apply list_elem_of_lookup in Hname as [i Hi].
  rewrite list_lookup_imap in Hi.
  destruct (columns !! i) as [col |]; [| discriminate].
  injection Hi as <-. apply clean_column_name_form.
Qed.

(** A column string of letters A to Z is kept as it is. *)
Lemma clean_column_name_of_letters (i : nat) (label : string) :
  valid_column label = true -> clean_column_name i (VStr label) = label.
Proof.
  unfold valid_column. rewrite andb_true_iff. intros [Hne Hup].
  pose proof (upper_is_text _ Hup) as Htext.
  unfold clean_column_name. cbn [str isna orb].
  rewrite (text_strip _ Htext).
  assert (Hout : forall c : ascii, char_isupper c = false -> contains_char c label = false).
  { intros c Hc. apply contains_char_false. revert Hup. apply str_all_impl.
    intros d Hd. destruct (Ascii.eqb_spec c d) as [<- | _]; [| reflexivity].
    now rewrite Hc in Hd. }
  assert (Hunnamed : String.prefix "Unnamed" label = false).
  { destruct label as [| c [| c' label]]; [reflexivity | |].
    - cbn [String.prefix]. destruct (ascii_dec "U" c); reflexivity.
    - cbn [str_all] in Hup.
      apply andb_true_iff in Hup as [_ Hup].
      apply andb_true_iff in Hup as [Hc' _].
      cbn [String.prefix]. destruct (ascii_dec "U" c); [| reflexivity].
      destruct (ascii_dec "n" c') as [<- |]; [discriminate Hc' | reflexivity]. }
  assert (Hnan : String.eqb label "nan" = false).
  { destruct label as [| c label]; [reflexivity |].
    cbn [str_all] in Hup. apply andb_true_iff in Hup as [Hc _].
    cbn [String.eqb]. destruct (Ascii.eqb_spec c "n") as [-> | _];
      [discriminate Hc | reflexivity]. }
  rewrite Hunnamed, Hnan. cbn [orb].
  rewrite (remove_char_id "010"), (remove_char_id "013") by now apply Hout.
  rewrite (text_strip _ Htext), Hne. reflexivity.
Qed.

End WithBuiltins.

(** The loader's own names are strings of letters A to Z. *)
Lemma str_getitem_upper (i : Z) (c : ascii) :
  str_getitem ascii_uppercase i = Ok c -> char_isupper c = true.
Proof.
  unfold str_getitem.
  destruct (norm_index (String.length ascii_uppercase) i) as [k |] eqn:Hnorm;
    [| discriminate].
  apply norm_index_bound in Hnorm. change (String.length ascii_uppercase) with 26%nat in Hnorm.
  do 26 (destruct k as [| k]; [intros [= <-]; reflexivity |]). lia.
Qed.

Lemma column_label_valid (i : Z) (label : string) :
  column_label i = Ok label -> valid_column label = true.
Proof.
  unfold column_label. destruct (i <? 26).
  - destruct (str_getitem ascii_uppercase i) as [c |] eqn:Hc; [| discriminate].
    cbn [mbind result_bind Py.bind]. intros [= <-].
    apply str_getitem_upper in Hc. unfold valid_column. cbn. now rewrite Hc.
  - destruct (str_getitem ascii_uppercase ((i - 26) / 26)) as [c |] eqn:Hc;
      [| discriminate].
    cbn [mbind result_bind Py.bind].
    destruct (str_getitem ascii_uppercase (i mod 26)) as [d |] eqn:Hd;
      [| discriminate].
    cbn [mbind result_bind Py.bind]. intros [= <-].
    apply str_getitem_upper in Hc, Hd. unfold valid_column. cbn. now rewrite Hc, Hd.
Qed.

Lemma columns_loop_valid (todo : nat) :
  forall (i : Z) (columns labels : list string),
    Forall (fun label => valid_column label = true) columns ->
    columns_loop todo i columns = Ok labels ->
    Forall (fun label => valid_column label = true) labels.
Proof.
  induction todo as [| todo IH]; intros i columns labels Hcolumns.
  - now intros [= <-].
  - cbn [columns_loop].
    destruct (column_label i) as [label |] eqn:Hlabel; [| discriminate].
    cbn [mbind result_bind Py.bind]. apply IH.
    apply Forall_app. split; [assumption |].
    constructor; [now apply column_label_valid in Hlabel | constructor].
Qed.

Lemma default_columns_valid (max_cols : nat) (labels : list string) :
  default_columns max_cols = Ok labels ->
  Forall (fun label => valid_column label = true) labels.
Proof.
  unfold default_columns. destruct (max_cols <=? 26)%nat.
  - intros [= <-]. apply Forall_take.
    repeat (constructor; [reflexivity |]). constructor.
  - now apply columns_loop_valid.
Qed.

(** The names [_load_standard_excel] assigns pass [_clean_dataframe]
    unchanged: [_clean_column_names] maps the default names A, B, ... to
    themselves, so a loaded table carries the column letters the
    coordinates use. *)
Theorem default_names_survive_cleaning (B : Builtins) (max_cols : nat)
    (labels : list string) :
  default_columns max_cols = Ok labels ->
  _clean_column_names (VStr <$> labels) = labels.
Proof.
  intros Hlabels. apply default_columns_valid in Hlabels.
  unfold _clean_column_names. apply list_eq. intros i.
  rewrite list_lookup_imap, list_lookup_fmap.
  destruct (labels !! i) as [label |] eqn:Hi; [| reflexivity].
  cbn. f_equal. apply clean_column_name_of_letters.
  rewrite Forall_forall in Hlabels. apply Hlabels.
  eapply list_elem_of_lookup_2; eauto.
Qed.

End ColumnNames.
(** ** Tables by file name *)

Section Registry.
Import Py EnhancedExcelProcessor.
Context {P : PathLib} {A : Type}.

Lemma sorted_add_elem (x name : string) (sorted : list string) :
  x ∈ sorted_add name sorted <-> x = name \/ x ∈ sorted.
Proof.
  induction sorted as [| y rest IH].
  - cbn. rewrite list_elem_of_singleton, elem_of_nil. tauto.
  - cbn [sorted_add]. destruct (String.eqb_spec name y) as [-> | Hne].
    + rewrite elem_of_cons. tauto.
    + destruct (String.ltb name y).
      * rewrite elem_of_cons. tauto.
      * rewrite !elem_of_cons, IH. tauto.
Qed.

Lemma sorted_set_elem (x : string) (names : list string) :
  x ∈ sorted_set names <-> x ∈ names.
Proof.
  unfold sorted_set.
  assert (Hgen : forall acc : list string,
             x ∈ fold_left (fun sorted name => sorted_add name sorted) names acc <->
             x ∈ names \/ x ∈ acc).
  { induction names as [| name names IH]; intros acc.
    - cbn. rewrite elem_of_nil. tauto.
    - cbn [fold_left]. rewrite IH, sorted_add_elem, elem_of_cons. tauto. }
  rewrite Hgen, elem_of_nil. tauto.
Qed.

(** A key that starts with the stem and an underscore has an underscore. *)
Lemma prefix_with_underscore (stem key : string) :
  String.prefix (String.append stem "_") key = true ->
  contains_char "_" key = true.
Proof.
  revert key. induction stem as [| c stem IH]; intros key.
  - change (String.append "" "_") with "_".
    destruct key as [| d key]; [discriminate |].
    cbn [String.prefix contains_char].
    destruct (ascii_dec "_" d) as [<- | _]; intros H; [reflexivity | discriminate H].
  - change (String.append (String c stem) "_") with (String c (String.append stem "_")).
    destruct key as [| d key]; [discriminate |].
    cbn [String.prefix contains_char].
    destruct (ascii_dec c d); [| discriminate].
    intros H. rewrite (IH key H). now destruct (Ascii.eqb "_" d).
Qed.

Lemma dict_get_of_key (d : list (string * A)) (key : string) :
  key ∈ map fst d -> exists x : A, dict_get d key = Some x /\ (key, x) ∈ d.
Proof.
  induction d as [| [k x] d IH]; intros Hkey.
  - now apply elem_of_nil in Hkey.
  - cbn [dict_get]. destruct (String.eqb_spec k key) as [-> | Hne].
    + exists x. split; [reflexivity | now left].
    + cbn in Hkey. apply elem_of_cons in Hkey as [-> | Hkey]; [congruence |].
      destruct (IH Hkey) as (y & Hy & Hin). exists y. split; [assumption | now right].
Qed.

Lemma sheets_are_keys (data_frames : list (string * A)) (name key : string) :
  key ∈ get_sheets_for_file data_frames name <->
  key ∈ map fst data_frames /\
  String.prefix (String.append (path_stem name) "_") key = true.
Proof.
  unfold get_sheets_for_file. rewrite list_elem_of_filter. tauto.
Qed.

Lemma no_sheet_no_table (data_frames : list (string * A)) (name : string)
    (sheet_hint : option string) :
  (forall key : string,
     key ∈ map fst data_frames ->
     String.prefix (String.append (path_stem name) "_") key = false) ->
  get_dataframe_by_original_name data_frames name sheet_hint = None.
Proof.
  intros Hnone. unfold get_dataframe_by_original_name.
  destruct (get_sheets_for_file data_frames name) as [| first rest] eqn:Hsheets;
    [reflexivity |].
  assert (Hin : first ∈ get_sheets_for_file data_frames name)
    by (rewrite Hsheets; now left).
  apply sheets_are_keys in Hin as [Hkey Hprefix].
  rewrite (Hnone first Hkey) in Hprefix. discriminate.
Qed.

(** [get_dataframe_by_original_name] looks among the keys that start with
    the stem of the file name and an underscore.  It answers [None] exactly
    when no key does; a table it returns is stored under such a key. *)
Theorem table_by_original_name (data_frames : list (string * A))
    (name : string) (sheet_hint : option string) :
  (get_dataframe_by_original_name data_frames name sheet_hint = None <->
   forall key : string,
     key ∈ map fst data_frames ->
     String.prefix (String.append (path_stem name) "_") key = false) /\
  (forall df : A,
     get_dataframe_by_original_name data_frames name sheet_hint = Some df ->
     exists key : string,
       (key, df) ∈ data_frames /\
       String.prefix (String.append (path_stem name) "_") key = true).
Proof.
  assert (Hfound : forall key : string,
             key ∈ get_sheets_for_file data_frames name ->
             exists df : A,
               dict_get data_frames key = Some df /\ (key, df) ∈ data_frames /\
               String.prefix (String.append (path_stem name) "_") key = true).
  { intros key Hkey. apply sheets_are_keys in Hkey as [Hkey Hprefix].
    destruct (dict_get_of_key data_frames key Hkey) as (df & Hget & Hin).
    now exists df. }
  unfold get_dataframe_by_original_name.
  destruct (get_sheets_for_file data_frames name) as [| first rest] eqn:Hsheets.
  - split; [| discriminate]. split; [| reflexivity].
    intros _ key Hkey.
    destruct (String.prefix (String.append (path_stem name) "_") key) eqn:Hprefix;
      [| reflexivity].
    assert (Hin : key ∈ get_sheets_for_file data_frames name)
      by now apply sheets_are_keys.
    rewrite Hsheets in Hin. now apply elem_of_nil in Hin.
  - set (by_hint := match sheet_hint with
                    | Some hint =>
                        if nonempty hint
                        then List.find
                               (fun sheet_key => str_in (lower hint) (lower sheet_key))
                               (first :: rest)
                        else None
                    | None => None
                    end).
    assert (Hchosen : exists key : string,
               key ∈ first :: rest /\
               match by_hint with
               | Some sheet_key => dict_get data_frames sheet_key
               | None => dict_get data_frames first
               end = dict_get data_frames key).
    { destruct by_hint as [sheet_key |] eqn:Hhint.
      - exists sheet_key. split; [| reflexivity].
        unfold by_hint in Hhint. destruct sheet_hint as [hint |]; [| discriminate].
        destruct (nonempty hint); [| discriminate].
        apply find_some in Hhint as [Hin _]. now apply list_elem_of_In.
      - exists first. split; [now left | reflexivity]. }
    destruct Hchosen as (key & Hkey & ->).
    destruct (Hfound key Hkey) as (df & Hget & Hin & Hprefix).
    rewrite Hget. split.
    + split; [discriminate |]. intros Hnone.
      rewrite <- Hsheets in Hkey. apply sheets_are_keys in Hkey as [Hkey _].
      rewrite (Hnone key Hkey) in Hprefix. discriminate.
    + intros df' [= <-]. now exists key.
Qed.

(** Tables loaded by the standard path are stored under the file stem
    alone.  When no key has an underscore, [get_original_file_names],
    without workbook entries, lists [key.xlsx] for every key, yet
    [get_dataframe_by_original_name] answers [None] for every file name and
    hint: none of the listed tables can be fetched. *)
Theorem tables_without_sheet_suffix (data_frames : list (string * A)) :
  (forall key : string,
     key ∈ map fst data_frames -> contains_char "_" key = false) ->
  (forall key : string,
     key ∈ map fst data_frames ->
     String.append key ".xlsx" ∈ get_original_file_names [] data_frames) /\
  (forall (name : string) (sheet_hint : option string),
     get_dataframe_by_original_name data_frames name sheet_hint = None).
Proof.
  intros Hplain. split.
  - intros key Hkey. unfold get_original_file_names. cbn [omap].
    apply sorted_set_elem.
    apply list_elem_of_fmap in Hkey as ([k x] & -> & Hin). cbn [fst].
    apply list_elem_of_fmap. exists (k, x). split; [| assumption].
    unfold inferred_name. cbn [fst].
    rewrite Hplain; [reflexivity |].
    apply list_elem_of_fmap. now exists (k, x).
  - intros name sheet_hint. apply no_sheet_no_table.
    intros key Hkey.
    destruct (String.prefix (String.append (path_stem name) "_") key) eqn:Hprefix;
      [| reflexivity].
    apply prefix_with_underscore in Hprefix.
    now rewrite (Hplain key Hkey) in Hprefix.
Qed.

End Registry.
(** ** [helpers.py]: file names and shortened text *)

Section HelperFunctions.
Import Py Helpers.

Lemma length_append (a b : string) :
  String.length (String.append a b) = (String.length a + String.length b)%nat.
Proof.
  induction a as [| c a IH]; [reflexivity |].
  change (String.length (String c (String.append a b)) =
          (S (String.length a) + String.length b)%nat).
  cbn [String.length]. now rewrite IH.
Qed.

Lemma length_substring_0 (n : nat) (s : string) :
  String.length (substring 0 n s) = Nat.min n (String.length s).
Proof.
  revert n. induction s as [| c s IH]; intros [| n]; try reflexivity.
  cbn [substring String.length]. now rewrite IH.
Qed.

Lemma length_slice_to (s : string) (hi : Z) :
  Z.of_nat (String.length (slice_to s hi)) =
  if hi <? 0 then Z.max (hi + Z.of_nat (String.length s)) 0
  else Z.min hi (Z.of_nat (String.length s)).
Proof.
  unfold slice_to. rewrite length_substring_0.
  destruct (hi <? 0) eqn:Hhi; lia.
Qed.

(** [truncate_text] returns a text that fits [max_length] when
    [max_length] is at least 3, the length of the dots it appends; with a
    smaller [max_length] a text that does not fit comes back longer than
    [max_length].  A text that fits is returned as it is. *)
Theorem truncate_text_length (text : string) (max_length : Z) :
  (Z.of_nat (String.length text) <= max_length ->
   truncate_text text max_length = text) /\
  (3 <= max_length ->
   Z.of_nat (String.length (truncate_text text max_length)) <= max_length) /\
  (max_length < 3 ->
   max_length < Z.of_nat (String.length text) ->
   max_length < Z.of_nat (String.length (truncate_text text max_length))) /\
  (max_length < Z.of_nat (String.length text) ->
   truncate_text text max_length =
   String.append (slice_to text (max_length - 3)) "...").
Proof.
  unfold truncate_text.
  destruct (Z.of_nat (String.length text) <=? max_length) eqn:Hfits.
  - repeat split; intros; try reflexivity; lia.
  - repeat split; intros; try reflexivity; try lia;
      rewrite length_append, Nat2Z.inj_add, length_slice_to;
      change (Z.of_nat (String.length "...")) with 3;
      destruct (max_length - 3 <? 0) eqn:Hhi; lia.
Qed.

Lemma underscore_is_legal : illegal_char "_" = false.
Proof. reflexivity. Qed.

Lemma replace_illegal_legal (s : string) :
  str_all (fun c => negb (illegal_char c)) (replace_illegal s) = true.
Proof.
  induction s as [| c s IH]; [reflexivity |].
  cbn [replace_illegal str_all]. rewrite IH, andb_true_r.
  destruct (illegal_char c) eqn:Hc; [reflexivity | now rewrite Hc].
Qed.

Lemma replace_illegal_id (s : string) :
  str_all (fun c => negb (illegal_char c)) s = true -> replace_illegal s = s.
Proof.
  induction s as [| c s IH]; [reflexivity |].
  cbn [replace_illegal str_all]. rewrite andb_true_iff, negb_true_iff.
  intros [-> Hs]. now rewrite (IH Hs).
Qed.

(** [sanitize_filename] returns a name that is not empty, has none of the
    characters of [illegal_chars], neither starts nor ends with a dot or a
    space, and is a fixed point: sanitizing it again returns it. *)
Theorem sanitize_filename_is_safe (filename : string) :
  nonempty (sanitize_filename filename) = true /\
  str_all (fun c => negb (illegal_char c)) (sanitize_filename filename) = true /\
  rstrip_with dot_or_space (lstrip_with dot_or_space (sanitize_filename filename)) =
    sanitize_filename filename /\
  sanitize_filename (sanitize_filename filename) = sanitize_filename filename.
Proof.
  set (stripped := rstrip_with dot_or_space
                     (lstrip_with dot_or_space (replace_illegal filename))).
  assert (Hcases : sanitize_filename filename =
                   if nonempty stripped then stripped else "unnamed").
  { unfold sanitize_filename. fold stripped. now destruct (nonempty stripped). }
  assert (Hlegal : str_all (fun c => negb (illegal_char c)) stripped = true).
  { apply rstrip_with_all, lstrip_with_all, replace_illegal_legal. }
  assert (Hidem : rstrip_with dot_or_space (lstrip_with dot_or_space stripped) =
                  stripped).
  { apply (strip_with_idem dot_or_space). }
  rewrite Hcases. destruct (nonempty stripped) eqn:Hne.
  - repeat split; try assumption.
    unfold sanitize_filename.
    rewrite (replace_illegal_id _ Hlegal), Hidem, Hne. reflexivity.
  - repeat split; reflexivity.
Qed.

End HelperFunctions.
(** ** [models.py]: rules and plans *)

Section Plans.

Lemma fold_union_elem {X : Type} (f : X -> gset string) (l : list X) :
  forall (acc : gset string) (x : string),
    x ∈ fold_left (fun files y => files ∪ f y) l acc <->
    x ∈ acc \/ exists y : X, y ∈ l /\ x ∈ f y.
Proof.
  induction l as [| y l IH]; intros acc x.
  - cbn. split; [now left |]. intros [H | (y & Hy & _)]; [exact H |].
    now apply elem_of_nil in Hy.
  - cbn [fold_left]. rewrite IH, elem_of_union. split.
    + intros [[H | H] | (z & Hz & Hx)].
      * now left.
      * right. exists y. split; [now left | exact H].
      * right. exists z. split; [now right | exact Hx].
    + intros [H | (z & Hz & Hx)]; [now left; left |].
      apply elem_of_cons in Hz as [-> | Hz]; [now left; right |].
      right. now exists z.
Qed.

(** The files a rule, a plan of rules and a plan of mappings need: a file
    is required exactly when a condition reads it or the output
    configuration writes it, in some rule of the plan; for mappings, when
    it is the source or the target of some mapping. *)
Theorem required_files_of_plans :
  (forall (rule : CoordinateFilterRule.t) (x : string),
     x ∈ CoordinateFilterRule.get_required_files rule <->
     (exists c : CoordinateFilterCondition.t,
        c ∈ CoordinateFilterRule.conditions rule /\
        x = CoordinateFilterCondition.source_file c) \/
     (exists config : RuleOutputConfig.t,
        CoordinateFilterRule.output_config rule = Some config /\
        x = RuleOutputConfig.target_file config)) /\
  (forall (plan : CoordinateFilterPlan.t) (x : string),
     x ∈ CoordinateFilterPlan.get_required_files plan <->
     exists rule : CoordinateFilterRule.t,
       rule ∈ CoordinateFilterPlan.rules plan /\
       x ∈ CoordinateFilterRule.get_required_files rule) /\
  (forall (plan : DataMappingPlan.t) (x : string),
     x ∈ DataMappingPlan.get_required_files plan <->
     exists m : DataMapping,
       m ∈ DataMappingPlan.mappings plan /\
       (x = source_file m \/ x = target_file m)).
Proof.
  split; [| split].
  - intros rule x. unfold CoordinateFilterRule.get_required_files.
    assert (Hconditions :
              x ∈ fold_left
                    (fun (files : gset string) condition =>
                       files ∪ {[ CoordinateFilterCondition.source_file condition ]})
                    (CoordinateFilterRule.conditions rule) ∅ <->
              exists c : CoordinateFilterCondition.t,
                c ∈ CoordinateFilterRule.conditions rule /\
                x = CoordinateFilterCondition.source_file c).
    { rewrite (fold_union_elem
                 (fun c => {[ CoordinateFilterCondition.source_file c ]})).
      split.
      - intros [H | (c & Hc & Hx)]; [now apply elem_of_empty in H |].
        exists c. split; [exact Hc | now apply elem_of_singleton in Hx].
      - intros (c & Hc & ->). right. exists c. split; [exact Hc |].
        now apply elem_of_singleton. }
    destruct (CoordinateFilterRule.output_config rule) as [config |].
    + rewrite elem_of_union, Hconditions, elem_of_singleton. split.
      * intros [H | ->]; [now left | right; now exists config].
      * intros [H | (config' & [= <-] & ->)]; [now left | now right].
    + rewrite Hconditions. split; [now left |].
      intros [H | (config & Hconfig & _)]; [exact H | discriminate].
  - intros plan x. unfold CoordinateFilterPlan.get_required_files.
    rewrite (fold_union_elem CoordinateFilterRule.get_required_files).
    split; [| now right].
    intros [H | H]; [now apply elem_of_empty in H | exact H].
  - intros plan x. unfold DataMappingPlan.get_required_files.
    rewrite (fold_union_elem DataMapping_get_required_files).
    unfold DataMapping_get_required_files. split.
    + intros [H | (m & Hm & Hx)]; [now apply elem_of_empty in H |].
      exists m. split; [exact Hm |].
      apply elem_of_union in Hx as [Hx | Hx]; apply elem_of_singleton in Hx; auto.
    + intros (m & Hm & Hx). right. exists m. split; [exact Hm |].
      apply elem_of_union. rewrite !elem_of_singleton. exact Hx.
Qed.

Lemma find_filter_other (rules : list CoordinateFilterRule.t) (removed wanted : string) :
  wanted <> removed ->
  List.find (fun r => String.eqb (CoordinateFilterRule.rule_id r) wanted)
    (List.filter
       (fun r => negb (String.eqb (CoordinateFilterRule.rule_id r) removed)) rules) =
  List.find (fun r => String.eqb (CoordinateFilterRule.rule_id r) wanted) rules.
Proof.
  intros Hne. induction rules as [| r rules IH]; [reflexivity |].
  cbn [List.filter List.find].
  destruct (String.eqb_spec (CoordinateFilterRule.rule_id r) removed) as [Hr | Hr];
    cbn [negb].
  - destruct (String.eqb_spec (CoordinateFilterRule.rule_id r) wanted) as [Hw | _];
      [congruence | exact IH].
  - cbn [List.find]. now rewrite IH.
Qed.

Lemma find_filter_removed (rules : list CoordinateFilterRule.t) (removed : string) :
  List.find (fun r => String.eqb (CoordinateFilterRule.rule_id r) removed)
    (List.filter
       (fun r => negb (String.eqb (CoordinateFilterRule.rule_id r) removed)) rules) =
  None.
Proof.
  induction rules as [| r rules IH]; [reflexivity |].
  cbn [List.filter].
  destruct (String.eqb (CoordinateFilterRule.rule_id r) removed) eqn:Hr;
    cbn [negb]; [exact IH |].
  cbn [List.find]. now rewrite Hr.
Qed.

Lemma find_app_one {X : Type} (p : X -> bool) (l : list X) (x : X) :
  List.find p (l ++ [x]) =
  match List.find p l with
  | Some y => Some y
  | None => if p x then Some x else None
  end.
Proof.
  induction l as [| y l IH]; [reflexivity |].
  cbn [app List.find]. destruct (p y); [reflexivity | exact IH].
Qed.

(** Looking a rule up after the plan has changed.  After [remove_rule] no
    rule has the removed identifier and every other identifier finds what
    it found before.  [add_rule] does not look for a rule of the same
    identifier: an older one keeps answering, the added rule is found only
    when its identifier was free.  Both set the modification time. *)
Theorem rule_lookup_after_change (now : datetime) (plan : CoordinateFilterPlan.t)
    (rule : CoordinateFilterRule.t) (removed wanted : string) :
  CoordinateFilterPlan.get_rule_by_id
    (CoordinateFilterPlan.remove_rule now plan removed) wanted =
    (if String.eqb wanted removed then None
     else CoordinateFilterPlan.get_rule_by_id plan wanted) /\
  CoordinateFilterPlan.get_rule_by_id
    (CoordinateFilterPlan.add_rule now plan rule) wanted =
    match CoordinateFilterPlan.get_rule_by_id plan wanted with
    | Some older => Some older
    | None =>
        if String.eqb (CoordinateFilterRule.rule_id rule) wanted
        then Some rule else None
    end /\
  CoordinateFilterPlan.modified_time
    (CoordinateFilterPlan.remove_rule now plan removed) = now /\
  CoordinateFilterPlan.modified_time
    (CoordinateFilterPlan.add_rule now plan rule) = now.
Proof.
  unfold CoordinateFilterPlan.get_rule_by_id, CoordinateFilterPlan.remove_rule,
    CoordinateFilterPlan.add_rule, CoordinateFilterPlan.touched.
  cbn [CoordinateFilterPlan.rules CoordinateFilterPlan.modified_time].
  split; [| split; [| split; reflexivity]].
  - destruct (String.eqb_spec wanted removed) as [-> | Hne].
    + apply find_filter_removed.
    + now apply find_filter_other.
  - apply (find_app_one
             (fun r => String.eqb (CoordinateFilterRule.rule_id r) wanted)).
Qed.

(** [remove_condition] deletes the condition at [index] when there is one:
    the conditions before it stay in place and the ones after it move up by
    one.  For every other [index], a negative one included, the rule is
    returned as it was, its modification time too. *)
Theorem remove_condition_by_index (now : datetime) (rule : CoordinateFilterRule.t)
    (index : Z) :
  (index < 0 \/ Z.of_nat (length (CoordinateFilterRule.conditions rule)) <= index ->
   CoordinateFilterRule.remove_condition now rule index = rule) /\
  (0 <= index < Z.of_nat (length (CoordinateFilterRule.conditions rule)) ->
   S (length (CoordinateFilterRule.conditions
                (CoordinateFilterRule.remove_condition now rule index))) =
     length (CoordinateFilterRule.conditions rule) /\
   CoordinateFilterRule.modified_time
     (CoordinateFilterRule.remove_condition now rule index) = now /\
   forall i : nat,
     CoordinateFilterRule.conditions
       (CoordinateFilterRule.remove_condition now rule index) !! i =
     if (Z.of_nat i <? index)
     then CoordinateFilterRule.conditions rule !! i
     else CoordinateFilterRule.conditions rule !! S i).
Proof.
  unfold CoordinateFilterRule.remove_condition.
  destruct ((0 <=? index) &&
            (index <? Z.of_nat (length (CoordinateFilterRule.conditions rule))))
    eqn:Hguard.
  - split; [lia |]. intros Hindex.
    unfold CoordinateFilterRule.touched.
    cbn [CoordinateFilterRule.conditions CoordinateFilterRule.modified_time].
    split; [| split; [reflexivity |]].
    + rewrite length_delete; [lia |].
      apply lookup_lt_is_Some. lia.
    + intros i. destruct (Z.of_nat i <? index) eqn:Hi.
      * apply list_lookup_delete_lt. lia.
      * apply list_lookup_delete_ge. lia.
  - split; [reflexivity | lia].
Qed.

(** [AppSetting]: [from_dict] reads back what [to_dict] wrote, for every
    setting; a dict read and written again has the four keys of a setting,
    with the defaults where a key was missing. *)
Theorem app_setting_round_trip (setting : AppSetting.t)
    (data : gmap string Pandas.value) :
  AppSetting.from_dict (AppSetting.to_dict setting) = setting /\
  AppSetting.from_dict (AppSetting.to_dict (AppSetting.from_dict data)) =
    AppSetting.from_dict data /\
  dom (AppSetting.to_dict (AppSetting.from_dict data)) =
    ({[ "id"; "key"; "value"; "description" ]} : gset string).
Proof.
  assert (Hround : forall s : AppSetting.t,
             AppSetting.from_dict (AppSetting.to_dict s) = s).
  { intros [i k v d]. unfold AppSetting.from_dict, AppSetting.to_dict.
    cbn [AppSetting.id AppSetting.key AppSetting.value AppSetting.description].
    repeat (rewrite ?lookup_insert_eq, ?lookup_insert_ne by discriminate).
    rewrite lookup_singleton_eq. reflexivity. }
  split; [apply Hround | split; [apply Hround |]].
  unfold AppSetting.to_dict. rewrite !dom_insert_L, dom_singleton_L.
  set_solver.
Qed.

End Plans.
(** ** Equality against inequality; the row range of the extract phase *)

Section FurtherOperators.
Import Py Pandas DataMappingEngine Spec.
Context {B : Builtins}.

Lemma any_false_entries {A : Type} (f : A -> bool) (s : list (Z * A)) :
  any (smap f s) = false -> forall p : Z * A, p ∈ s -> f (snd p) = false.
Proof.
  unfold any, values, smap. rewrite map_map. cbn [snd].
  induction s as [| q s IH]; intros Hany p Hp.
  - now apply elem_of_nil in Hp.
  - cbn [map existsb] in Hany. apply orb_false_iff in Hany as [Hq Hs].
    apply elem_of_cons in Hp as [-> | Hp]; [exact Hq | now apply IH].
Qed.

(** NOT_EQUALS is the complement of the direct comparison, not of EQUALS.
    When no cell equals the value directly, NOT_EQUALS selects every row,
    and with them every row EQUALS selects through the conversion of the
    value: such a row is selected by both operators. *)
Theorem equals_and_not_equals_overlap (column : list (Z * value)) (v : value)
    (i : nat) (l : Z) (x : value) :
  any (eq_scalar column v) = false ->
  column !! i = Some (l, x) ->
  values (_apply_match_operator column v NOT_EQUALS) !! i = Some true /\
  values (_apply_match_operator column v EQUALS) !! i =
    Some (coerced_cell x v && convertible v) /\
  _apply_match_operator column v NOT_EQUALS = mask_not (eq_scalar column v).
Proof.
  intros Hany Hi.
  assert (Hdirect : eq_cell x v = false).
  { apply (any_false_entries (fun y => eq_cell y v) column Hany (l, x)).
    eapply list_elem_of_lookup_2; eauto. }
  assert (Hne : forall y : value, ne_cell y v = negb (eq_cell y v)).
  { intros y. unfold ne_cell, eq_cell. now destruct (isna y || isna v). }
  split; [| split].
  - unfold _apply_match_operator, match_operator_body, ne_scalar.
    rewrite (values_smap _ _ _ _ _ Hi), Hne, Hdirect. reflexivity.
  - unfold _apply_match_operator, match_operator_body. rewrite Hany. cbn [negb].
    pose proof (union_of_converted_matches column v) as Hunion.
    pose proof (converted_matches_nil column v) as Hnil.
    destruct (type_converted_matches column v) as [| m ms].
    + unfold eq_scalar. rewrite (values_smap _ _ _ _ _ Hi), Hdirect.
      rewrite (proj1 Hnil eq_refl). now rewrite andb_false_r.
    + rewrite Hunion, (values_smap _ _ _ _ _ Hi), Hdirect. cbn [orb].
      destruct (convertible v) eqn:Hconv; [now rewrite andb_true_r |].
      pose proof (proj2 Hnil eq_refl) as Habsurd. discriminate Habsurd.
  - unfold _apply_match_operator, match_operator_body, ne_scalar, mask_not,
      eq_scalar, smap.
    rewrite map_map. apply map_ext. intros [l' y]. cbn [fst snd].
    now rewrite Hne.
Qed.

(** With a source row range [(start, end)] from row 1 on, the values a rule
    extracts are cells of the rows [start] to [end] of its value column. *)
Theorem extracted_values_stay_in_row_range (mapping : DataMapping)
    (source_data : gmap string (list (list value))) (source_values : list value)
    (start end_ : Z) :
  _extract_source_values mapping source_data = Ok source_values ->
  source_match_row_range mapping = Some (Some (start, end_)) ->
  1 <= start -> 0 <= end_ ->
  exists (df : list (list value)) (i : Z) (k : nat) (value_column : list value),
    source_data !! source_file mapping = Some df /\
    _get_column_index (source_value_coordinate mapping) df = Ok i /\
    selects df i k value_column /\
    sublist source_values
      (take (Z.to_nat (end_ - (start - 1)))
         (drop (Z.to_nat (start - 1)) value_column)).
Proof.
  intros Hextract Hrng Hstart Hend.
  apply extract_source_values_ok in Hextract
    as (df & i1 & i2 & k1 & k2 & match_column & value_column & rng & selected &
        Hfile & _ & Hi2 & _ & _ & _ & Hsel & Hrng' & Hmask & ->).
  rewrite Hrng in Hrng'. injection Hrng' as <-.
  exists df, i2, k2, value_column. repeat split; try assumption; try apply Hsel.
  apply getitem_mask_sublist in Hmask.
  assert (Hvalues : sublist (values selected)
                      (values (row_window (Some (start, end_)) (of_list value_column)))).
  { now apply (fmap_sublist snd). }
  unfold dropna_tolist. etransitivity; [apply sublist_filter |].
  etransitivity; [exact Hvalues |].
  unfold row_window, iloc_slice, values.
  change (map snd ?s) with (snd <$> s).
  rewrite fmap_take, fmap_drop.
  change (snd <$> of_list value_column) with (values (of_list value_column)).
  rewrite values_of_list, length_of_list.
  unfold clamp_bound.
  destruct (start - 1 <? 0) eqn:Hs; [lia |].
  destruct (end_ <? 0) eqn:He; [lia |].
  destruct (Z_lt_dec (start - 1) (Z.of_nat (length value_column))) as [Hin | Hout].
  - replace (Z.to_nat (Z.min (start - 1) (Z.of_nat (length value_column))))
      with (Z.to_nat (start - 1)) by lia.
    set (rows := drop (Z.to_nat (start - 1)) value_column).
    replace (take (Z.to_nat (Z.min end_ (Z.of_nat (length value_column))) -
                   Z.to_nat (start - 1)) rows)
      with (take (Z.to_nat (Z.min end_ (Z.of_nat (length value_column))) -
                  Z.to_nat (start - 1))
              (take (Z.to_nat (end_ - (start - 1))) rows)).
    + apply sublist_take.
    + rewrite take_take. f_equal. lia.
  - rewrite (drop_ge value_column
               (Z.to_nat (Z.min (start - 1) (Z.of_nat (length value_column)))))
      by lia.
    rewrite take_nil. apply sublist_nil_l.
Qed.

End FurtherOperators.
(** ** The properties at the examples of the specification *)

Section AtExamples.
Import Py Pandas DataMappingEngine Spec.


Lemma positions_1_2_in_range (p : Z) : p ∈ [1; 2] -> 0 <= p < 3.
Proof.
  intros Hp. apply elem_of_cons in Hp as [-> | Hp]; [lia |].
  apply elem_of_cons in Hp as [-> | Hp]; [lia |].
  now apply elem_of_nil in Hp.
Qed.

Lemma positions_1_2_distinct : NoDup [1; 2].
Proof.
  apply NoDup_cons. split.
  - intros Hin. apply elem_of_cons in Hin as [Heq | Hin]; [discriminate |].
    now apply elem_of_nil in Hin.
  - apply NoDup_singleton.
Qed.

Lemma insert_overwrite_policy_witness :
  exists column' : list value,
    _insert_values (Examples.rule EQUALS "202 main" "202 main" false)
        (Examples.target_data [NaN; VInt 99; NaN]) [VInt 20; VInt 30] [1; 2] =
      Ok (<["target.xlsx" := <[3%nat := column']>
                               (Examples.target_table [NaN; VInt 99; NaN])]>
            (Examples.target_data [NaN; VInt 99; NaN])) /\
    column' !! 1%nat = Some (VInt 99) /\
    column' !! 2%nat = Some (VInt 30).
Proof.
  destruct insert_overwrite_policy as [Hgeneral _].
  destruct (Hgeneral (Examples.rule EQUALS "202 main" "202 main" false)
              (Examples.target_data [NaN; VInt 99; NaN])
              (Examples.target_table [NaN; VInt 99; NaN])
              3 3%nat [NaN; VInt 99; NaN] [VInt 20; VInt 30] [1; 2])
    as (column' & Hvalues & _ & Hcells & _).
  - reflexivity.
  - reflexivity.
  - reflexivity.
  - split; reflexivity.
  - discriminate.
  - exact positions_1_2_distinct.
  - exact positions_1_2_in_range.
  - exists column'. split; [exact Hvalues |].
    destruct (Hcells 0%nat 1 (VInt 99) eq_refl eq_refl) as [_ Hkeep].
    destruct (Hcells 1%nat 2 NaN eq_refl eq_refl) as [Hwrite _].
    split; [exact (Hkeep eq_refl) |].
    destruct (Hwrite eq_refl) as (new & Hpick & Hcell).
    injection Hpick as <-. exact Hcell.
Defined.

Lemma insert_repeats_last_value_witness :
  exists column' : list value,
    _insert_values (Examples.rule EQUALS "202 main" "202 main" false)
        (Examples.target_data [NaN; NaN; NaN]) [VInt 20] [1; 2] =
      Ok (<["target.xlsx" := <[3%nat := column']>
                               (Examples.target_table [NaN; NaN; NaN])]>
            (Examples.target_data [NaN; NaN; NaN])) /\
    column' !! 2%nat = Some (VInt 20).
Proof.
  destruct insert_repeats_last_value as [Hgeneral _].
  destruct (Hgeneral (Examples.rule EQUALS "202 main" "202 main" false)
              (Examples.target_data [NaN; NaN; NaN])
              (Examples.target_table [NaN; NaN; NaN])
              3 3%nat [NaN; NaN; NaN] [VInt 20] [1; 2])
    as (column' & last_value & Hlast & Hvalues & Hcells).
  - reflexivity.
  - reflexivity.
  - reflexivity.
  - split; reflexivity.
  - discriminate.
  - cbn. lia.
  - exact positions_1_2_distinct.
  - exact positions_1_2_in_range.
  - exists column'. split; [exact Hvalues |].
    injection Hlast as <-.
    exact (Hcells 1%nat 2 NaN eq_refl (le_n 1) eq_refl).
Defined.

Lemma no_match_leaves_target_unchanged_witness :
  (forall B : Builtins,
     execute_mapping (Examples.rule STARTS_WITH "999" "202" true)
       Examples.source_data (Examples.target_data [NaN; NaN; NaN]) =
     Ok (Examples.target_data [NaN; NaN; NaN])) /\
  (forall B : Builtins,
     execute_mapping (Examples.rule STARTS_WITH "202" "999" true)
       Examples.source_data (Examples.target_data [NaN; NaN; NaN]) =
     Ok (Examples.target_data [NaN; NaN; NaN])).
Proof.
  split; intros B.
  - apply no_match_leaves_target_unchanged. left. reflexivity.
  - apply no_match_leaves_target_unchanged. right.
    exists [VInt 20; VInt 30]. split; reflexivity.
Defined.

Lemma failing_rule_is_skipped_witness :
  (forall B : Builtins,
     execute_mapping (Examples.rule_into_row EQUALS "202 main") Examples.source_data
       (execute_multiple_mappings [Examples.rule EQUALS "202 main" "202 main" true]
          Examples.source_data (Examples.target_data [NaN; NaN; NaN])) =
     Raise ValueError) /\
  (forall B : Builtins,
     execute_multiple_mappings
       ([Examples.rule EQUALS "202 main" "202 main" true] ++
        Examples.rule_into_row EQUALS "202 main" ::
        [Examples.rule EQUALS "203 main" "201 main" true])
       Examples.source_data (Examples.target_data [NaN; NaN; NaN]) =
     Examples.target_data [VInt 40; VInt 20; VInt 30]).
Proof.
  split; intros B; [reflexivity |].
  destruct (failing_rule_is_skipped
              [Examples.rule EQUALS "202 main" "202 main" true]
              [Examples.rule EQUALS "203 main" "201 main" true]
              (Examples.rule_into_row EQUALS "202 main")
              Examples.source_data (Examples.target_data [NaN; NaN; NaN])
              ValueError) as (_ & _ & _ & Hskip).
  - reflexivity.
  - rewrite Hskip. reflexivity.
Defined.

Lemma empty_column_addresses_last_column_witness :
  validate_mapping (Examples.rule_into_last EQUALS "202 main" true)
    Examples.source_data (Examples.target_data [NaN; NaN; NaN]) = [] /\
  validate_mapping (Examples.rule_of_defaults EQUALS "202 main")
    Examples.source_data (Examples.target_data [NaN; NaN; NaN]) = [] /\
  (forall B : Builtins,
     _extract_source_values (Examples.rule_into_last EQUALS "202 main" true)
       Examples.source_data = Ok [VInt 20; VInt 30]) /\
  (forall B : Builtins,
     _find_target_positions (Examples.rule_of_defaults IS_EMPTY "")
       (Examples.target_data [NaN; VInt 5; NaN]) = Ok [0; 2]) /\
  (exists column' : list value,
     _insert_values (Examples.rule_into_last EQUALS "202 main" true)
       (Examples.target_data [NaN; NaN; NaN]) [VInt 20; VInt 30] [1; 2] =
       Ok (<["target.xlsx" :=
               <[3%nat := column']> (Examples.target_table [NaN; NaN; NaN])]>
             (Examples.target_data [NaN; NaN; NaN])) /\
     column' !! 0%nat = Some NaN /\
     column' !! 1%nat = Some (VInt 20) /\
     column' !! 2%nat = Some (VInt 30)) /\
  (forall B : Builtins,
     execute_mapping (Examples.rule_into_last EQUALS "202 main" true)
       Examples.source_data (Examples.target_data [NaN; NaN; NaN]) =
     execute_mapping (Examples.rule EQUALS "202 main" "202 main" true)
       Examples.source_data (Examples.target_data [NaN; NaN; NaN])) /\
  (forall B : Builtins,
     execute_mapping (Examples.rule_into_last EQUALS "202 main" true)
       Examples.source_data (Examples.target_data [NaN; NaN; NaN]) =
     Ok (Examples.target_data [NaN; VInt 20; VInt 30])).
Proof.
  assert (Hdefault : names_no_column (ExcelCoordinate.mk "" 0 "" 0 ExcelCoordinate.Single))
    by (split; [reflexivity | now right]).
  destruct (empty_column_addresses_last_column
              (ExcelCoordinate.mk "" 0 "" 0 ExcelCoordinate.Single)
              (Examples.rule_into_last EQUALS "202 main" true)
              Examples.source_data (Examples.target_data [NaN; NaN; NaN])
              Examples.source_table (Examples.target_table [NaN; NaN; NaN])
              Hdefault eq_refl eq_refl)
    as (_ & _ & _ & _ & _ & _ & Hrun & Hvalidate & Hphases & Hexample);
    [cbn; lia | cbn; lia |].
  destruct Hphases
    as (source_last & target_last & Hslast & Htlast & Hextract & _ & _ & Hinsert).
  injection Hslast as <-. injection Htlast as <-.
  split; [rewrite Hvalidate; reflexivity |].
  split.
  { destruct (empty_column_addresses_last_column
                (ExcelCoordinate.mk "" 0 "" 0 ExcelCoordinate.Single)
                (Examples.rule_of_defaults EQUALS "202 main")
                Examples.source_data (Examples.target_data [NaN; NaN; NaN])
                Examples.source_table (Examples.target_table [NaN; NaN; NaN])
                Hdefault eq_refl eq_refl)
      as (_ & _ & _ & _ & _ & Hnone & _); [cbn; lia | cbn; lia |].
    now apply Hnone. }
  split.
  { intros B.
    rewrite (Hextract B 1 1%nat
               [VStr "201 main"; VStr "202 main"; VStr "202 main"; VStr "203 main"]
               Hdefault eq_refl eq_refl (conj eq_refl eq_refl)).
    reflexivity. }
  split.
  { intros B.
    destruct (empty_column_addresses_last_column
                (ExcelCoordinate.mk "" 0 "" 0 ExcelCoordinate.Single)
                (Examples.rule_of_defaults IS_EMPTY "")
                Examples.source_data (Examples.target_data [NaN; VInt 5; NaN])
                Examples.source_table (Examples.target_table [NaN; VInt 5; NaN])
                Hdefault eq_refl eq_refl)
      as (_ & _ & _ & _ & _ & _ & _ & _ & Hphases' & _); [cbn; lia | cbn; lia |].
    destruct Hphases' as (? & target_last & _ & Htlast & _ & _ & Hfind & _).
    injection Htlast as <-.
    rewrite (Hfind B Hdefault). reflexivity. }
  split.
  { destruct (Hinsert [VInt 20; VInt 30] [1; 2] Hdefault)
      as (column' & Hvalues & Hlen & Hframe & Hwritten).
    - discriminate.
    - exact positions_1_2_distinct.
    - exact positions_1_2_in_range.
    - exists column'. split; [exact Hvalues |].
      split.
      { rewrite (Hframe 0%nat); [reflexivity |].
        intros Hin. apply elem_of_cons in Hin as [Heq | Hin]; [discriminate |].
        apply elem_of_cons in Hin as [Heq | Hin]; [discriminate |].
        now apply elem_of_nil in Hin. }
      split.
      + destruct (Hwritten 0%nat 1 eq_refl) as (new & old & Hpick & Hold & Hcell).
        injection Hpick as <-. injection Hold as <-. exact Hcell.
      + destruct (Hwritten 1%nat 2 eq_refl) as (new & old & Hpick & Hold & Hcell).
        injection Hpick as <-. injection Hold as <-. exact Hcell. }
  split; [intros B; rewrite (Hrun B); reflexivity |].
  intros B. now destruct (Hexample B) as (_ & _ & ->).
Defined.

Lemma target_table_rectangular (d c : list value) :
  length d = 3%nat -> c ∈ Examples.target_table d -> length c = 3%nat.
Proof.
  intros Hd Hc. unfold Examples.target_table in Hc.
  repeat (apply elem_of_cons in Hc as [-> | Hc]; [reflexivity || exact Hd |]).
  now apply elem_of_nil in Hc.
Qed.

Lemma find_target_positions_rows_witness :
  (forall B : Builtins,
     _find_target_positions (Examples.rule EQUALS "202 main" "202 main" true)
       (Examples.target_data [NaN; NaN; NaN]) = Ok [1; 2]) /\
  (forall B : Builtins,
     exists match_column : list value,
       NoDup [1; 2] /\
       (forall p : Z, p ∈ [1; 2] -> 0 <= p < Z.of_nat (length match_column))).
Proof.
  split; intros B; [reflexivity |].
  destruct (find_target_positions_rows
              (Examples.rule EQUALS "202 main" "202 main" true)
              (Examples.target_data [NaN; NaN; NaN]) [1; 2] eq_refl)
    as (_ & _ & _ & match_column & _ & _ & _ & Hnodup & Hrange).
  exists match_column. split; assumption.
Defined.

Lemma execute_mapping_writes_witness :
  (forall B : Builtins,
     _extract_source_values (Examples.rule EQUALS "202 main" "202 main" false)
       Examples.source_data = Ok [VInt 20; VInt 30]) /\
  (forall B : Builtins,
     exists column' : list value,
       execute_mapping (Examples.rule EQUALS "202 main" "202 main" false)
         Examples.source_data (Examples.target_data [NaN; VInt 99; NaN]) =
       Ok (<["target.xlsx" := <[3%nat := column']>
                                (Examples.target_table [NaN; VInt 99; NaN])]>
             (Examples.target_data [NaN; VInt 99; NaN])) /\
       column' !! 1%nat = Some (VInt 99) /\
       column' !! 2%nat = Some (VInt 30)).
Proof.
  split; intros B; [reflexivity |].
  destruct (execute_mapping_writes
              (Examples.rule EQUALS "202 main" "202 main" false)
              Examples.source_data (Examples.target_data [NaN; VInt 99; NaN])
              [VInt 20; VInt 30] [1; 2]
              (Examples.target_table [NaN; VInt 99; NaN]) 3 3%nat
              [NaN; VInt 99; NaN])
    as (column' & Hrun & _ & _ & Hcells).
  - reflexivity.
  - discriminate.
  - reflexivity.
  - discriminate.
  - reflexivity.
  - reflexivity.
  - reflexivity.
  - split; reflexivity.
  - intros c. now apply target_table_rectangular.
  - exists column'. split; [exact Hrun |].
    destruct (Hcells 0%nat 1 eq_refl) as (new1 & old1 & _ & Hold1 & Hcell1).
    destruct (Hcells 1%nat 2 eq_refl) as (new2 & old2 & Hpick2 & Hold2 & Hcell2).
    injection Hold1 as <-. injection Hold2 as <-. injection Hpick2 as <-.
    split; assumption.
Defined.

Lemma example_references_bound :
  Store.bound_in {[ 1%positive := Examples.source_table;
                    2%positive := Examples.target_table [NaN; NaN; NaN] ]}
    {[ "source.xlsx" := 1%positive ]} /\
  Store.bound_in {[ 1%positive := Examples.source_table;
                    2%positive := Examples.target_table [NaN; NaN; NaN] ]}
    {[ "target.xlsx" := 2%positive ]}.
Proof.
  split; intros key l Hkey;
    apply lookup_singleton_Some in Hkey as [_ <-]; eexists; reflexivity.
Qed.

Lemma store_insert_values_witness :
  (Store._insert_values (Examples.rule EQUALS "202 main" "202 main" true)
     {[ "target.xlsx" := 2%positive ]} [VInt 20; VInt 30] [1; 2]
     {[ 1%positive := Examples.source_table;
        2%positive := Examples.target_table [NaN; NaN; NaN] ]}).2 !! 2%positive =
  Some (Examples.target_table [NaN; NaN; NaN]).
Proof.
  destruct (store_insert_values (Examples.rule EQUALS "202 main" "202 main" true)
              {[ "target.xlsx" := 2%positive ]} [VInt 20; VInt 30] [1; 2]
              {[ 1%positive := Examples.source_table;
                 2%positive := Examples.target_table [NaN; NaN; NaN] ]}
              (proj2 example_references_bound)) as [Hframe _].
  rewrite Hframe; [reflexivity | eexists; reflexivity].
Defined.

Lemma store_execute_multiple_mappings_witness :
  Store.bound_in {[ 1%positive := Examples.source_table;
                    2%positive := Examples.target_table [NaN; NaN; NaN] ]}
    {[ "target.xlsx" := 2%positive ]} /\
  (forall B : Builtins,
     (Store.execute_multiple_mappings
        [Examples.rule EQUALS "202 main" "202 main" true;
         Examples.rule_into_row EQUALS "202 main"]
        {[ "source.xlsx" := 1%positive ]} {[ "target.xlsx" := 2%positive ]}
        {[ 1%positive := Examples.source_table;
           2%positive := Examples.target_table [NaN; NaN; NaN] ]}).2 !! 2%positive =
     Some (Examples.target_table [NaN; NaN; NaN])).
Proof.
  split; [exact (proj2 example_references_bound) |].
  intros B.
  destruct (store_execute_multiple_mappings
              [Examples.rule EQUALS "202 main" "202 main" true;
               Examples.rule_into_row EQUALS "202 main"]
              {[ "source.xlsx" := 1%positive ]} {[ "target.xlsx" := 2%positive ]}
              {[ 1%positive := Examples.source_table;
                 2%positive := Examples.target_table [NaN; NaN; NaN] ]}
              (proj1 example_references_bound) (proj2 example_references_bound))
    as [Hframe _].
  rewrite Hframe; [reflexivity | eexists; reflexivity].
Defined.

Lemma validate_reports_missing_source_witness :
  exists rest : list problem,
    validate_mapping (Examples.rule EQUALS "202 main" "202 main" true)
      ∅ (Examples.target_data [NaN; NaN; NaN]) = SourceFileMissing :: rest.
Proof.
  exact (validate_reports_missing_source
           (Examples.rule EQUALS "202 main" "202 main" true)
           ∅ (Examples.target_data [NaN; NaN; NaN]) (lookup_empty _)).
Defined.

End AtExamples.
(** ** The further properties at examples *)

Section AtFurtherExamples.
Import Py Pandas DataMappingEngine Spec.

Lemma coordinate_text_round_trip_witness :
  well_formed (ExcelCoordinate.mk "AB" 12 "C" 40 ExcelCoordinate.Range) = true /\
  ExcelCoordinate.from_string
    (ExcelCoordinate.__str__ (ExcelCoordinate.mk "AB" 12 "C" 40 ExcelCoordinate.Range)) =
  Ok (ExcelCoordinate.mk "AB" 12 "C" 40 ExcelCoordinate.Range).
Proof.
  split; [reflexivity |].
  apply (coordinate_text_round_trip
           (ExcelCoordinate.mk "AB" 12 "C" 40 ExcelCoordinate.Range)).
  reflexivity.
Defined.

Lemma cell_address_round_trip_witness :
  exists c : ExcelCoordinate.t,
    ExcelCoordinate.from_string
      (String.append (ExcelCoordinate.index_to_column 27) (str_of_int (4 + 1))) = Ok c /\
    ExcelCoordinate.coord_type c = ExcelCoordinate.Single /\
    ExcelCoordinate.to_pandas_index c = (4, 27).
Proof. apply (cell_address_round_trip 4 27); lia. Defined.

Lemma from_string_returns_parsed_form_witness :
  ascii_text " b7 " = true /\
  ExcelCoordinate.from_string " b7 " = Ok (ExcelCoordinate.cls_single "B" 7) /\
  parsed_form (ExcelCoordinate.cls_single "B" 7) /\
  ExcelCoordinate.from_string (lower " b7 ") = Ok (ExcelCoordinate.cls_single "B" 7).
Proof.
  split; [reflexivity |]. split; [reflexivity |].
  destruct (from_string_returns_parsed_form " b7 " (ExcelCoordinate.cls_single "B" 7))
    as (Hform & Hlower & _); [reflexivity | reflexivity |].
  split; assumption.
Defined.

Lemma missing_cell_under_operators_witness :
  values (@_apply_match_operator Examples.plain_text
            (of_list [NaN; VStr "x"]) (VStr "x") EQUALS) !! 0%nat = Some false /\
  values (@_apply_match_operator Examples.plain_text
            (of_list [NaN; VStr "x"]) (VStr "x") NOT_EQUALS) !! 0%nat = Some true.
Proof.
  destruct (@missing_cell_under_operators Examples.plain_text
              (of_list [NaN; VStr "x"]) 0%nat 0 NaN "x" (VStr "x"))
    as (Hequals & Hnot_equals & _); [reflexivity | reflexivity |].
  split; assumption.
Defined.

Lemma rule_as_built_has_no_range (m : DataMapping) :
  m ∈ [Examples.rule_as_built EQUALS "202 main"] -> source_match_row_range m = None.
Proof. intros Hm. now apply list_elem_of_singleton in Hm as ->. Qed.

Lemma rule_without_row_range_attribute_witness :
  @execute_multiple_mappings Examples.plain_text
    [Examples.rule_as_built EQUALS "202 main"]
    Examples.source_data (Examples.target_data [NaN; NaN; NaN]) =
  Examples.target_data [NaN; NaN; NaN].
Proof.
  destruct (@rule_without_row_range_attribute Examples.plain_text
              [Examples.rule_as_built EQUALS "202 main"]
              Examples.source_data (Examples.target_data [NaN; NaN; NaN])
              rule_as_built_has_no_range) as [_ Hbatch].
  exact Hbatch.
Defined.

Lemma rule_into_row_is_reported :
  validate_mapping (Examples.rule_into_row EQUALS "202 main")
    Examples.source_data (Examples.target_data [NaN; NaN; NaN]) <> [].
Proof. vm_compute. discriminate. Qed.

Lemma reported_rule_changes_nothing_witness :
  @execute_multiple_mappings Examples.plain_text
    [Examples.rule_into_row EQUALS "202 main"]
    Examples.source_data (Examples.target_data [NaN; NaN; NaN]) =
  Examples.target_data [NaN; NaN; NaN].
Proof.
  destruct (@reported_rule_changes_nothing Examples.plain_text
              (Examples.rule_into_row EQUALS "202 main")
              Examples.source_data (Examples.target_data [NaN; NaN; NaN])
              rule_into_row_is_reported) as [_ Hbatch].
  exact Hbatch.
Defined.

Lemma extracted_values_are_present_witness :
  @_extract_source_values Examples.plain_text
    (Examples.rule EQUALS "202 main" "202 main" true) Examples.source_data =
    Ok [VInt 20; VInt 30] /\
  isna (VInt 20) = false /\ isna (VInt 30) = false.
Proof.
  split; [reflexivity |].
  destruct (@extracted_values_are_present Examples.plain_text
              (Examples.rule EQUALS "202 main" "202 main" true)
              Examples.source_data [VInt 20; VInt 30] eq_refl) as [Hpresent _].
  split; apply Hpresent; [left | right; left].
Defined.

Lemma execute_mapping_keeps_shape_witness :
  option_Forall2 same_shape
    (Examples.target_data [NaN; NaN; NaN] !! "target.xlsx")
    (Examples.target_data [NaN; VInt 20; VInt 30] !! "target.xlsx").
Proof.
  destruct (@execute_mapping_keeps_shape Examples.plain_text
              (Examples.rule EQUALS "202 main" "202 main" true)
              Examples.source_data (Examples.target_data [NaN; NaN; NaN])
              (Examples.target_data [NaN; VInt 20; VInt 30]) eq_refl)
    as (_ & Hshape & _).
  exact Hshape.
Defined.

Lemma source_data_rectangular : rectangular_tables Examples.source_data.
Proof.
  intros key df Hkey. unfold Examples.source_data in Hkey.
  apply lookup_singleton_Some in Hkey as [_ <-].
  intros c c' Hc Hc'. unfold Examples.source_table in Hc, Hc'.
  transitivity 4%nat; [| symmetry].
  - repeat (apply elem_of_cons in Hc as [-> | Hc]; [reflexivity |]).
    now apply elem_of_nil in Hc.
  - repeat (apply elem_of_cons in Hc' as [-> | Hc']; [reflexivity |]).
    now apply elem_of_nil in Hc'.
Qed.

Lemma target_data_rectangular (d : list value) :
  length d = 3%nat -> rectangular_tables (Examples.target_data d).
Proof.
  intros Hd key df Hkey. unfold Examples.target_data in Hkey.
  apply lookup_singleton_Some in Hkey as [_ <-].
  intros c c' Hc Hc'.
  rewrite (target_table_rectangular d c Hd Hc).
  now rewrite (target_table_rectangular d c' Hd Hc').
Qed.

Lemma validated_rule_runs_witness :
  exists updated : gmap string (list (list value)),
    @execute_mapping Examples.plain_text
      (Examples.rule EQUALS "202 main" "202 main" true)
      Examples.source_data (Examples.target_data [NaN; NaN; NaN]) = Ok updated.
Proof.
  apply (@validated_rule_runs Examples.plain_text
           (Examples.rule EQUALS "202 main" "202 main" true)
           Examples.source_data (Examples.target_data [NaN; NaN; NaN])).
  - reflexivity.
  - reflexivity.
  - reflexivity.
  - now eexists.
  - exact source_data_rectangular.
  - now apply target_data_rectangular.
Defined.

Lemma positions_stay_in_row_range_witness :
  @_find_target_positions Examples.plain_text
    (Examples.rule_in_rows EQUALS "202 main" 2 3)
    (Examples.target_data [NaN; NaN; NaN]) = Ok [1; 2] /\
  forall p : Z, p ∈ [1; 2] -> 2 - 1 <= p < 3.
Proof.
  split; [reflexivity |].
  apply (@positions_stay_in_row_range Examples.plain_text
           (Examples.rule_in_rows EQUALS "202 main" 2 3)
           (Examples.target_data [NaN; NaN; NaN]) [1; 2] 2 3);
    [reflexivity | reflexivity | lia | lia].
Defined.

Lemma execute_mapping_idempotent_witness :
  @execute_mapping Examples.plain_text
    (Examples.rule EQUALS "202 main" "202 main" false)
    Examples.source_data (Examples.target_data [NaN; VInt 99; VInt 30]) =
  Ok (Examples.target_data [NaN; VInt 99; VInt 30]).
Proof.
  apply (@execute_mapping_idempotent Examples.plain_text
           (Examples.rule EQUALS "202 main" "202 main" false)
           Examples.source_data (Examples.target_data [NaN; VInt 99; NaN])).
  - reflexivity.
  - now apply target_data_rectangular.
  - reflexivity.
  - reflexivity.
  - discriminate.
Defined.

Lemma default_names_survive_cleaning_witness :
  @EnhancedExcelProcessor._clean_column_names Examples.plain_text
    (VStr <$> ["A"; "B"; "C"]) = ["A"; "B"; "C"].
Proof.
  apply (default_names_survive_cleaning Examples.plain_text 3 ["A"; "B"; "C"]).
  reflexivity.
Defined.

Lemma keys_without_underscore (key : string) :
  key ∈ map fst [("source", Examples.source_table);
                 ("target", Examples.target_table [NaN; NaN; NaN])] ->
  contains_char "_" key = false.
Proof.
  cbn. intros Hkey.
  repeat (apply elem_of_cons in Hkey as [-> | Hkey]; [reflexivity |]).
  now apply elem_of_nil in Hkey.
Qed.

Lemma tables_without_sheet_suffix_witness :
  "source.xlsx" ∈
    @EnhancedExcelProcessor.get_original_file_names Examples.plain_names _ []
      [("source", Examples.source_table);
       ("target", Examples.target_table [NaN; NaN; NaN])] /\
  @EnhancedExcelProcessor.get_dataframe_by_original_name Examples.plain_names _
    [("source", Examples.source_table);
     ("target", Examples.target_table [NaN; NaN; NaN])] "source.xlsx" None = None.
Proof.
  destruct (@tables_without_sheet_suffix Examples.plain_names _
              [("source", Examples.source_table);
               ("target", Examples.target_table [NaN; NaN; NaN])]
              keys_without_underscore) as [Hlisted Hnone].
  split; [| apply Hnone].
  apply (Hlisted "source"). cbn. now left.
Defined.

Lemma equals_and_not_equals_overlap_witness :
  values (@_apply_match_operator Examples.plain_text
            (of_list [VInt 202; VStr "x"]) (VStr "202") NOT_EQUALS) !! 0%nat =
    Some true /\
  values (@_apply_match_operator Examples.plain_text
            (of_list [VInt 202; VStr "x"]) (VStr "202") EQUALS) !! 0%nat =
    Some true.
Proof.
  destruct (@equals_and_not_equals_overlap Examples.plain_text
              (of_list [VInt 202; VStr "x"]) (VStr "202") 0%nat 0 (VInt 202))
    as (Hnot_equals & Hequals & _); [reflexivity | reflexivity |].
  split; assumption.
Defined.

Lemma extracted_values_stay_in_row_range_witness :
  @_extract_source_values Examples.plain_text
    (Examples.rule_from_rows EQUALS "202 main" 2 3) Examples.source_data =
    Ok [VInt 20; VInt 30] /\
  exists value_column : list value,
    sublist [VInt 20; VInt 30]
      (take (Z.to_nat (3 - (2 - 1))) (drop (Z.to_nat (2 - 1)) value_column)).
Proof.
  split; [reflexivity |].
  destruct (@extracted_values_stay_in_row_range Examples.plain_text
              (Examples.rule_from_rows EQUALS "202 main" 2 3)
              Examples.source_data [VInt 20; VInt 30] 2 3)
    as (_ & _ & _ & value_column & _ & _ & _ & Hrows);
    [reflexivity | reflexivity | lia | lia |].
  now exists value_column.
Defined.

End AtFurtherExamples.
